(** * The embedded-signature verifier of the tgbverifier extension module

    A shallow embedding of [tgbverifiermodule.c]: the trust verification
    with its two-pass retry, the signer-info extraction, the certificate
    and opus-info readers and the exported [is_signed] entry point.

    The module orchestrates calls into the platform (WinTrust, CryptoAPI,
    the memory allocators).  Each platform call is an event of [winE]; a
    function of the module is a finite tree of such calls ([Prog]), and a
    platform is a handler that answers every call from its current state.
    Running a tree against a platform yields the outcome, the final
    platform state and the list of calls that were made, in order. *)

From Stdlib Require Import ZArith List String Ascii Bool Lia.
Import ListNotations.
Local Open Scope string_scope.
Local Open Scope list_scope.
Local Open Scope Z_scope.

(** ** Machine integers and header constants *)

(** [LONG] and [HRESULT] are signed 32-bit; a header constant written as an
    unsigned hexadecimal literal wraps around into the negative range. *)
Definition to_LONG (z : Z) : Z := (z + 2 ^ 31) mod 2 ^ 32 - 2 ^ 31.

(** [DWORD] is unsigned 32-bit; a [LONG] compared with a [DWORD] is
    converted to it. *)
Definition to_DWORD (z : Z) : Z := z mod 2 ^ 32.

Definition MAX_PATH : Z := 260.

Definition ERROR_SUCCESS : Z := 0.
Definition TRUST_E_PROVIDER_UNKNOWN : Z := to_LONG 0x800B0001.
Definition TRUST_E_SUBJECT_FORM_UNKNOWN : Z := to_LONG 0x800B0003.
Definition TRUST_E_SUBJECT_NOT_TRUSTED : Z := to_LONG 0x800B0004.
Definition TRUST_E_NOSIGNATURE : Z := to_LONG 0x800B0100.
Definition CERT_E_CHAINING : Z := to_LONG 0x800B010A.
Definition TRUST_E_EXPLICIT_DISTRUST : Z := to_LONG 0x800B0111.
Definition CRYPT_E_SECURITY_SETTINGS : Z := to_LONG 0x80092026.
Definition TRUST_E_BAD_DIGEST : Z := to_LONG 0x80096010.

Definition WTD_UI_NONE : Z := 2.
Definition WTD_REVOKE_NONE : Z := 0.
Definition WTD_CHOICE_FILE : Z := 1.
Definition WTD_CACHE_ONLY_URL_RETRIEVAL : Z := 0x1000.

Definition SPC_URL_LINK_CHOICE : Z := 1.
Definition SPC_MONIKER_LINK_CHOICE : Z := 2.
Definition SPC_FILE_LINK_CHOICE : Z := 3.

Definition CERT_NAME_ISSUER_FLAG : Z := 1.

(** [STRUNCATE], the value the secure string functions return when the
    destination received a truncated copy. *)
Definition STRUNCATE : Z := 80.

Definition SPC_SP_OPUS_INFO_OBJID : string := "1.3.6.1.4.1.311.2.1.12".

(** ** Data *)

(** Narrow and wide strings are both sequences of characters up to the
    terminator; a [NULL] pointer is [None] of the option type. *)
Definition TSTR := string.
Definition WSTR := string.
Definition BLOB := list Byte.byte.

Definition HCERTSTORE := Z.
Definition HCRYPTMSG := Z.

(** The fields of [WINTRUST_FILE_INFO] and [WINTRUST_DATA] the module sets;
    every other field is zero from the [memset]. *)
Record WINTRUST_FILE_INFO := mkFileInfo {
  pcwszFilePath : WSTR
}.

Record WINTRUST_DATA := mkTrustData {
  dwUIChoice : Z;
  fdwRevocationChecks : Z;
  dwUnionChoice : Z;
  pFile : WINTRUST_FILE_INFO;
  dwStateAction : Z;
  dwProvFlags : Z;
  dwUIContext : Z
}.

Inductive GUID := WINTRUST_ACTION_GENERIC_VERIFY_V2.

(** An authenticated attribute as the message decoder delivers it: the
    object identifier and the values, of which there is at least one;
    [rgValue0] is [rgValue[0]]. *)
Record CRYPT_ATTRIBUTE := mkAttr {
  pszObjId : string;
  rgValue0 : BLOB;
  rgValueRest : list BLOB
}.

Record CMSG_SIGNER_INFO := mkSignerInfo {
  Issuer : BLOB;
  SerialNumber : BLOB;
  AuthAttrs : list CRYPT_ATTRIBUTE
}.

(** [SPC_LINK]: the choice tag and the string the union holds under the
    URL and the file choice (both members share the storage). *)
Record SPC_LINK := mkLink {
  dwLinkChoice : Z;
  pwszLink : WSTR
}.

Definition pwszUrl (l : SPC_LINK) : WSTR := pwszLink l.
Definition pwszFile (l : SPC_LINK) : WSTR := pwszLink l.

Record SPC_SP_OPUS_INFO := mkOpus {
  pwszProgramName : option WSTR;
  pMoreInfo : option SPC_LINK;
  pPublisherInfo : option SPC_LINK
}.

(** A certificate context: the handle and the serial number of its
    [pCertInfo]. *)
Record CERT_CONTEXT := mkCert {
  hCertContext : Z;
  certSerialNumber : BLOB
}.

(** [SPROG_SIGNATUREINFO], the structure the extraction fills. *)
Record SPROG_SIGNATUREINFO := mkInfo {
  lpszProgramName : option WSTR;
  lpszPublisherLink : option WSTR;
  lpszMoreInfoLink : option WSTR;
  cbSerialSize : Z;
  lpSerialNumber : option BLOB;
  lpszIssuerName : option TSTR;
  lpszSubjectName : option TSTR
}.

(** [ZeroMemory(&SignInfo, sizeof(SignInfo))]. *)
Definition ZeroMemory_info : SPROG_SIGNATUREINFO :=
  mkInfo None None None 0 None None None.

Definition set_lpszProgramName (v : option WSTR) (i : SPROG_SIGNATUREINFO) :=
  mkInfo v (lpszPublisherLink i) (lpszMoreInfoLink i) (cbSerialSize i)
         (lpSerialNumber i) (lpszIssuerName i) (lpszSubjectName i).
Definition set_lpszPublisherLink (v : option WSTR) (i : SPROG_SIGNATUREINFO) :=
  mkInfo (lpszProgramName i) v (lpszMoreInfoLink i) (cbSerialSize i)
         (lpSerialNumber i) (lpszIssuerName i) (lpszSubjectName i).
Definition set_lpszMoreInfoLink (v : option WSTR) (i : SPROG_SIGNATUREINFO) :=
  mkInfo (lpszProgramName i) (lpszPublisherLink i) v (cbSerialSize i)
         (lpSerialNumber i) (lpszIssuerName i) (lpszSubjectName i).
Definition set_cbSerialSize (v : Z) (i : SPROG_SIGNATUREINFO) :=
  mkInfo (lpszProgramName i) (lpszPublisherLink i) (lpszMoreInfoLink i) v
         (lpSerialNumber i) (lpszIssuerName i) (lpszSubjectName i).
Definition set_lpSerialNumber (v : option BLOB) (i : SPROG_SIGNATUREINFO) :=
  mkInfo (lpszProgramName i) (lpszPublisherLink i) (lpszMoreInfoLink i)
         (cbSerialSize i) v (lpszIssuerName i) (lpszSubjectName i).
Definition set_lpszIssuerName (v : option TSTR) (i : SPROG_SIGNATUREINFO) :=
  mkInfo (lpszProgramName i) (lpszPublisherLink i) (lpszMoreInfoLink i)
         (cbSerialSize i) (lpSerialNumber i) v (lpszSubjectName i).
Definition set_lpszSubjectName (v : option TSTR) (i : SPROG_SIGNATUREINFO) :=
  mkInfo (lpszProgramName i) (lpszPublisherLink i) (lpszMoreInfoLink i)
         (cbSerialSize i) (lpSerialNumber i) (lpszIssuerName i) v.

(** ** Platform calls *)

(** One constructor per platform function the module calls, indexed by the
    type of what the call hands back.  A query made with a [NULL] output
    buffer (the size phase of the two-phase pattern) is a constructor of
    its own, suffixed [_size]. *)
Inductive winE : Type -> Type :=
| WinVerifyTrust (pgActionID : GUID) (pWVTData : WINTRUST_DATA) : winE Z
| GetLastError : winE Z
| CryptQueryObject (pvObject : WSTR) : winE (option (HCERTSTORE * HCRYPTMSG))
| CryptMsgGetParam_size (hMsg : HCRYPTMSG) : winE (option Z)
| CryptMsgGetParam (hMsg : HCRYPTMSG) (cbData : Z) : winE (option CMSG_SIGNER_INFO)
| LocalAlloc (uBytes : Z) : winE bool
| LocalFree : winE unit
| CertCloseStore (hStore : HCERTSTORE) : winE unit
| CryptMsgClose (hMsg : HCRYPTMSG) : winE unit
| CryptDecodeObject_size (pbEncoded : BLOB) : winE (option Z)
| CryptDecodeObject (pbEncoded : BLOB) (cbStructInfo : Z) : winE (option SPC_SP_OPUS_INFO)
| OutputDebugStringA (msg : string) : winE unit
| CertFindCertificateInStore (hStore : HCERTSTORE) (issuer serial : BLOB)
    : winE (option CERT_CONTEXT)
| VirtualAlloc (dwSize : Z) : winE bool
| CertGetNameString_size (cert : CERT_CONTEXT) (dwFlags : Z) : winE Z
| CertGetNameString (cert : CERT_CONTEXT) (dwFlags : Z) (cchNameString : Z)
    : winE (Z * TSTR)
| CertFreeCertificateContext (cert : CERT_CONTEXT) : winE unit.

(** What stops a call from returning to its caller. *)
Inductive Fault :=
| NullDestination    (* [memcpy] into a [NULL] destination *)
| InvalidParameter   (* a [NULL] string handed to the C runtime:
                        its invalid-parameter handler ends the process *)
| LiteralOverrun.    (* a read past the terminator of a string literal *)

(** ** Programs over the platform *)

Inductive Prog (A : Type) : Type :=
| Ret (a : A)
| Crash (f : Fault)
| Vis (R : Type) (e : winE R) (k : R -> Prog A).

Arguments Ret {A} a.
Arguments Crash {A} f.
Arguments Vis {A R} e k.

Fixpoint bind {A B : Type} (p : Prog A) (f : A -> Prog B) : Prog B :=
  match p with
  | Ret a => f a
  | Crash x => Crash x
  | Vis e k => Vis e (fun r => bind (k r) f)
  end.

Definition call {R : Type} (e : winE R) : Prog R := Vis e Ret.

Declare Scope prog_scope.
Delimit Scope prog_scope with prog.
Notation "x <- p ;; q" := (bind p (fun x => q))
  (at level 61, p at next level, right associativity) : prog_scope.
Notation "' pat <- p ;; q" := (bind p (fun x => match x with pat => q end))
  (at level 61, pat pattern, p at next level, right associativity) : prog_scope.
Notation "p ;; q" := (bind p (fun _ => q))
  (at level 61, right associativity) : prog_scope.
Local Open Scope prog_scope.

(** A call together with the platform's answer. *)
Inductive Event : Type :=
| Ev (R : Type) (e : winE R) (r : R).
Arguments Ev {R} e r.

Inductive Outcome (A : Type) : Type :=
| Returned (a : A)
| Faulted (f : Fault).
Arguments Returned {A} a.
Arguments Faulted {A} f.

(** A platform answers every call from its state and moves to a new one. *)
Definition Platform (World : Type) : Type :=
  forall R : Type, winE R -> World -> R * World.

Fixpoint run {World A : Type} (h : Platform World) (p : Prog A) (w : World)
  : Outcome A * World * list Event :=
  match p with
  | Ret a => (Returned a, w, [])
  | Crash f => (Faulted f, w, [])
  | Vis e k =>
      let (r, w1) := h _ e w in
      let '(o, w2, tr) := run h (k r) w1 in
      (o, w2, Ev e r :: tr)
  end.

(** ** [SD_VerifyEmbeddedSignature] *)

(** [lstrcpynW(dst, src, iMaxLength)]: at most [iMaxLength - 1] characters
    and the terminator; hands back [dst]. *)
Definition lstrcpynW (src : WSTR) (iMaxLength : Z) : option WSTR :=
  Some (substring 0 (Z.to_nat (iMaxLength - 1)) src).

(** [mbstowcs_s(&RetSize, dst, sizeInWords, src, _TRUNCATE)] in the "C"
    locale, where each byte converts to one wide character: the whole
    string when it fits with its terminator, else the first
    [sizeInWords - 1] characters and [STRUNCATE]. *)
Definition mbstowcs_s_TRUNCATE (sizeInWords : Z) (src : TSTR) : Z * WSTR :=
  if (Z.of_nat (String.length src) <? sizeInWords)%Z
  then (0, src)
  else (STRUNCATE, substring 0 (Z.to_nat (sizeInWords - 1)) src).

(** The [switch (lStatus)] of one pass: the value of [DoSecondPass] after
    it. *)
Definition switch_lStatus (lStatus : Z) (DoSecondPass : bool) : Prog bool :=
  if lStatus =? ERROR_SUCCESS then Ret DoSecondPass
  else if lStatus =? TRUST_E_NOSIGNATURE then
    dwLastError <- call GetLastError ;;
    if (to_DWORD TRUST_E_NOSIGNATURE =? dwLastError)
       || (to_DWORD TRUST_E_SUBJECT_FORM_UNKNOWN =? dwLastError)
       || (to_DWORD TRUST_E_PROVIDER_UNKNOWN =? dwLastError)
    then Ret DoSecondPass
    else Ret DoSecondPass
  else if lStatus =? TRUST_E_EXPLICIT_DISTRUST then Ret DoSecondPass
  else if lStatus =? TRUST_E_SUBJECT_NOT_TRUSTED then Ret DoSecondPass
  else if lStatus =? CRYPT_E_SECURITY_SETTINGS then Ret DoSecondPass
  else if lStatus =? TRUST_E_BAD_DIGEST then Ret DoSecondPass
  else if lStatus =? CERT_E_CHAINING then Ret true
  else Ret true.

(** The [WINTRUST_DATA] of one pass. *)
Definition WinTrustData_of (wszFileName : WSTR) (DoSecondPass : bool)
  : WINTRUST_DATA :=
  {| dwUIChoice := WTD_UI_NONE;
     fdwRevocationChecks := WTD_REVOKE_NONE;
     dwUnionChoice := WTD_CHOICE_FILE;
     pFile := {| pcwszFilePath := wszFileName |};
     dwStateAction := 0;
     dwProvFlags := if negb DoSecondPass then WTD_CACHE_ONLY_URL_RETRIEVAL else 0;
     dwUIContext := 0 |}.

(** The [do ... while ((DoSecondPass == TRUE) && (Count < 2))] loop, entered
    with the current [DoSecondPass] and [Count]; [fuel] bounds the number
    of passes the model unfolds. *)
Fixpoint verify_passes (fuel : nat) (wszFileName : WSTR)
         (DoSecondPass : bool) (Count : Z) : Prog Z :=
  lStatus <- call (WinVerifyTrust WINTRUST_ACTION_GENERIC_VERIFY_V2
                                  (WinTrustData_of wszFileName DoSecondPass)) ;;
  DoSecondPass' <- switch_lStatus lStatus DoSecondPass ;;
  let Count' := Count + 1 in
  if DoSecondPass' && (Count' <? 2)
  then match fuel with
       | O => Ret lStatus
       | S fuel' => verify_passes fuel' wszFileName DoSecondPass' Count'
       end
  else Ret lStatus.

Definition SD_VerifyEmbeddedSignature (UNICODE : bool) (pszSourceFile : TSTR)
  : Prog Z :=
  let wszFileName :=
    if UNICODE
    then match lstrcpynW pszSourceFile MAX_PATH with
         | Some d => d
         | None => EmptyString
         end
    else snd (mbstowcs_s_TRUNCATE MAX_PATH pszSourceFile) in
  verify_passes 2 wszFileName false 0.

(** ** [GetProgAndPublisherInfo] *)

Definition sizeof_WCHAR : Z := 2.
Definition sizeof_TCHAR (UNICODE : bool) : Z := if UNICODE then 2 else 1.

(** [AllocateAndCopyWideString]: [NULL] when the allocation fails, else a
    copy of the input. *)
Definition AllocateAndCopyWideString (inputString : WSTR) : Prog (option WSTR) :=
  outputString <-
    call (LocalAlloc ((Z.of_nat (String.length inputString) + 1) * sizeof_WCHAR)) ;;
  if outputString then Ret (Some inputString) else Ret None.

(** The body run for the attribute whose identifier is
    [SPC_SP_OPUS_INFO_OBJID], up to the [break], followed by the [__finally]
    block.  A [__leave] before the allocation finds [OpusInfo == NULL] and
    frees nothing. *)
Definition decode_opus_attribute (attr : CRYPT_ATTRIBUTE)
           (pInfo : SPROG_SIGNATUREINFO) : Prog SPROG_SIGNATUREINFO :=
  sz <- call (CryptDecodeObject_size (rgValue0 attr)) ;;
  match sz with
  | None => Ret pInfo
  | Some dwData =>
      allocated <- call (LocalAlloc dwData) ;;
      if negb allocated then Ret pInfo
      else
        decoded <- call (CryptDecodeObject (rgValue0 attr) dwData) ;;
        match decoded with
        | None => call LocalFree ;; Ret pInfo
        | Some OpusInfo =>
            name <- match pwszProgramName OpusInfo with
                    | Some s => AllocateAndCopyWideString s
                    | None => Ret None
                    end ;;
            let pInfo := set_lpszProgramName name pInfo in
            publisher <-
              match pPublisherInfo OpusInfo with
              | Some l =>
                  if dwLinkChoice l =? SPC_URL_LINK_CHOICE
                  then AllocateAndCopyWideString (pwszUrl l)
                  else if dwLinkChoice l =? SPC_FILE_LINK_CHOICE
                  then AllocateAndCopyWideString (pwszFile l)
                  else Ret None
              | None => Ret None
              end ;;
            let pInfo := set_lpszPublisherLink publisher pInfo in
            more <-
              match pMoreInfo OpusInfo with
              | Some l =>
                  if dwLinkChoice l =? SPC_URL_LINK_CHOICE
                  then AllocateAndCopyWideString (pwszUrl l)
                  else if dwLinkChoice l =? SPC_FILE_LINK_CHOICE
                  then AllocateAndCopyWideString (pwszFile l)
                  else Ret None
              | None => Ret None
              end ;;
            let pInfo := set_lpszMoreInfoLink more pInfo in
            call LocalFree ;;
            Ret pInfo
        end
  end.

(** The [for] loop over the authenticated attributes: the first attribute
    with the opus identifier is decoded and ends the loop. *)
Fixpoint scan_AuthAttrs (rgAttr : list CRYPT_ATTRIBUTE)
         (pInfo : SPROG_SIGNATUREINFO) : Prog SPROG_SIGNATUREINFO :=
  match rgAttr with
  | [] => Ret pInfo
  | attr :: rest =>
      if String.eqb SPC_SP_OPUS_INFO_OBJID (pszObjId attr)
      then decode_opus_attribute attr pInfo
      else scan_AuthAttrs rest pInfo
  end.

Definition GetProgAndPublisherInfo (pSignerInfo : CMSG_SIGNER_INFO)
           (pInfo : SPROG_SIGNATUREINFO) : Prog SPROG_SIGNATUREINFO :=
  scan_AuthAttrs (AuthAttrs pSignerInfo) pInfo.

(** ** [GetCertificateInfo] *)

(** The inner [__try] block for the issuer name: a [__leave] goes to the
    empty [__finally] and on to the subject name. *)
Definition get_IssuerName (UNICODE : bool) (pCertContext : CERT_CONTEXT)
           (pInfo : SPROG_SIGNATUREINFO) : Prog SPROG_SIGNATUREINFO :=
  dwData <- call (CertGetNameString_size pCertContext CERT_NAME_ISSUER_FLAG) ;;
  if dwData =? 0 then Ret pInfo
  else
    allocated <- call (VirtualAlloc (dwData * sizeof_TCHAR UNICODE)) ;;
    if negb allocated then Ret (set_lpszIssuerName None pInfo)
    else
      '(_, buffer) <- call (CertGetNameString pCertContext CERT_NAME_ISSUER_FLAG dwData) ;;
      Ret (set_lpszIssuerName (Some buffer) pInfo).

(** The inner [__try] block for the subject name. *)
Definition get_SubjectName (UNICODE : bool) (pCertContext : CERT_CONTEXT)
           (pInfo : SPROG_SIGNATUREINFO) : Prog SPROG_SIGNATUREINFO :=
  dwData <- call (CertGetNameString_size pCertContext 0) ;;
  if dwData =? 0 then Ret pInfo
  else
    allocated <- call (VirtualAlloc (dwData * sizeof_TCHAR UNICODE)) ;;
    if negb allocated then Ret (set_lpszSubjectName None pInfo)
    else
      '(_, buffer) <- call (CertGetNameString pCertContext 0 dwData) ;;
      Ret (set_lpszSubjectName (Some buffer) pInfo).

Definition GetCertificateInfo (UNICODE : bool) (hStore : HCERTSTORE)
           (pSignerInfo : CMSG_SIGNER_INFO) (pInfo : SPROG_SIGNATUREINFO)
  : Prog SPROG_SIGNATUREINFO :=
  call (OutputDebugStringA "TGBSYSDEP: => GetCertificateInfo") ;;
  pCertContext <-
    call (CertFindCertificateInStore hStore (Issuer pSignerInfo)
                                     (SerialNumber pSignerInfo)) ;;
  pInfo <-
    match pCertContext with
    | None =>
        call (OutputDebugStringA "TGBSYSDEP: GetCertificateInfo CheckPoint 1") ;;
        Ret pInfo
    | Some cert =>
        let dwData := Z.of_nat (List.length (certSerialNumber cert)) in
        let pInfo := set_cbSerialSize dwData pInfo in
        allocated <- call (VirtualAlloc dwData) ;;
        if negb allocated then Crash NullDestination
        else
          let pInfo := set_lpSerialNumber (Some (certSerialNumber cert)) pInfo in
          pInfo <- get_IssuerName UNICODE cert pInfo ;;
          pInfo <- get_SubjectName UNICODE cert pInfo ;;
          call (CertFreeCertificateContext cert) ;;
          Ret pInfo
    end ;;
  call (OutputDebugStringA "TGBSYSDEP: <= GetCertificateInfo") ;;
  Ret pInfo.

(** ** [SD_GetAuthenticodeInformation] *)

(** The conversion of the file name into [wszFileName]: [None] is the
    [__leave] taken when the conversion reports a failure. *)
Definition convert_FileName (UNICODE : bool) (lpszFileName : TSTR) : option WSTR :=
  if UNICODE
  then lstrcpynW lpszFileName MAX_PATH
  else let (err, wszFileName) := mbstowcs_s_TRUNCATE MAX_PATH lpszFileName in
       if negb (err =? 0) then None else Some wszFileName.

Definition SD_GetAuthenticodeInformation (UNICODE : bool) (lpszFileName : TSTR)
           (pInfo : SPROG_SIGNATUREINFO) : Prog (bool * SPROG_SIGNATUREINFO) :=
  match convert_FileName UNICODE lpszFileName with
  | None => Ret (false, pInfo)
  | Some wszFileName =>
      queried <- call (CryptQueryObject wszFileName) ;;
      match queried with
      | None => Ret (false, pInfo)
      | Some (hStore, hMsg) =>
          '(bRet, pInfo) <-
            (sz <- call (CryptMsgGetParam_size hMsg) ;;
             match sz with
             | None => Ret (false, pInfo)
             | Some dwSignerInfo =>
                 allocated <- call (LocalAlloc dwSignerInfo) ;;
                 if negb allocated then Ret (false, pInfo)
                 else
                   fetched <- call (CryptMsgGetParam hMsg dwSignerInfo) ;;
                   match fetched with
                   | None => call LocalFree ;; Ret (false, pInfo)
                   | Some pSignerInfo =>
                       pInfo <- GetProgAndPublisherInfo pSignerInfo pInfo ;;
                       pInfo <- GetCertificateInfo UNICODE hStore pSignerInfo pInfo ;;
                       call LocalFree ;;
                       Ret (true, pInfo)
                   end
             end) ;;
          call (CertCloseStore hStore) ;;
          call (CryptMsgClose hMsg) ;;
          Ret (bRet, pInfo)
      end
  end.

(** ** The exported [is_signed] *)

(** The character a string pointer points at (the terminator at the end of
    the string) and the pointer advanced by one. *)
Definition deref (s : string) : Z :=
  match s with
  | EmptyString => 0
  | String c _ => Z.of_N (N_of_ascii c)
  end.

Definition advance (s : string) : string :=
  match s with
  | EmptyString => EmptyString
  | String _ rest => rest
  end.

(** [tolower] of the "C" locale. *)
Definition tolower (c : Z) : Z :=
  if (65 <=? c) && (c <=? 90) then c + 32 else c.

(** The comparison loop of the C runtime behind [_tcsncicmp]: nothing to
    compare gives 0; else the lowered characters [f] and [l] of both
    strings are read in step while the count is not used up, [f] is not the
    terminator and [f == l]; the result is [f - l] of the last pair read. *)
Fixpoint strnicmp (first last : string) (count : nat) : Z :=
  match count with
  | O => 0
  | S count' =>
      let f := tolower (deref first) in
      let l := tolower (deref last) in
      if negb (Nat.eqb count' 0) && negb (f =? 0) && (f =? l)
      then strnicmp (advance first) (advance last) count'
      else f - l
  end.

(** The bytes of a narrow string literal, its terminator included. *)
Fixpoint bytes_of (s : string) : list Z :=
  match s with
  | EmptyString => [0]
  | String c rest => Z.of_N (N_of_ascii c) :: bytes_of rest
  end.

(** What a pointer to wide characters reads at the address of such a
    literal: its bytes two by two, the low byte first.  A byte left alone
    at the end belongs to a wide character that lies partly outside the
    literal. *)
Fixpoint wide_units (bytes : list Z) : list Z :=
  match bytes with
  | lo :: hi :: rest => (lo + 256 * hi) :: wide_units rest
  | _ => []
  end.

(** The same loop on wide characters, as [_wcsnicmp] runs it, with the wide
    characters found at the second pointer; [None] when the loop reads past
    them. *)
Fixpoint wcsnicmp (first : string) (last : list Z) (count : nat) : option Z :=
  match count with
  | O => Some 0
  | S count' =>
      match last with
      | [] => None
      | u :: last' =>
          let f := tolower (deref first) in
          let l := tolower u in
          if negb (Nat.eqb count' 0) && negb (f =? 0) && (f =? l)
          then wcsnicmp (advance first) last' count'
          else Some (f - l)
      end
  end.

(** [_tcsncicmp] validates its string arguments: a [NULL] string goes to the
    invalid-parameter handler.  Without [UNICODE] it is [_strnicmp].  With
    [UNICODE] it is [_wcsnicmp], and [string2], which [tgb_is_signed] passes
    as a narrow literal, is read as wide characters. *)
Definition _tcsncicmp (UNICODE : bool) (string1 : option TSTR) (string2 : string)
           (count : nat) : Prog Z :=
  match string1 with
  | None => Crash InvalidParameter
  | Some s =>
      if UNICODE
      then match wcsnicmp s (wide_units (bytes_of string2)) count with
           | Some d => Ret d
           | None => Crash LiteralOverrun
           end
      else Ret (strnicmp s string2 count)
  end.

Inductive PyObject :=
| PyUnicode (s : string)
| PyBool (b : bool)
| PyOther.

Definition PyBool_FromLong (v : Z) : PyObject := PyBool (negb (v =? 0)).

Fixpoint has_nul (s : string) : bool :=
  match s with
  | EmptyString => false
  | String c rest => (N_of_ascii c =? 0)%N || has_nul rest
  end.

(** [PyArg_ParseTuple(args, "s", &path)]: one argument, a text object with
    no embedded null character. *)
Definition PyArg_ParseTuple_s (args : list PyObject) : option string :=
  match args with
  | [PyUnicode s] => if has_nul s then None else Some s
  | _ => None
  end.

(** [tgb_is_signed]; [None] is the [NULL] return that leaves the
    interpreter's exception set.

    The function is written for the build without [UNICODE]: [path] is a
    byte string and the two prefixes are narrow literals, which is what its
    callees and [_tcsncicmp] take in that build.  With [UNICODE] the same
    pointers reach functions that read wide characters.  The comparison
    then runs on the literals as [wide_units] has them.  Which wide
    characters the callees find at [path] depends on the memory after the
    byte string; they are written here as [path] itself, and every
    statement below that depends on the characters of the file name is
    made for the build without [UNICODE]. *)
Definition tgb_is_signed (UNICODE : bool) (args : list PyObject)
  : Prog (option PyObject) :=
  match PyArg_ParseTuple_s args with
  | None => Ret None
  | Some path =>
      lStatus <- SD_VerifyEmbeddedSignature UNICODE path ;;
      if lStatus =? ERROR_SUCCESS then
        '(bRet, SignInfo) <- SD_GetAuthenticodeInformation UNICODE path ZeroMemory_info ;;
        if bRet then
          c1 <- _tcsncicmp UNICODE (lpszSubjectName SignInfo) "TheGreenBow" 11 ;;
          if c1 =? 0 then Ret (Some (PyBool_FromLong 1))
          else
            c2 <- _tcsncicmp UNICODE (lpszSubjectName SignInfo) "SISTECH" 7 ;;
            if c2 =? 0 then Ret (Some (PyBool_FromLong 1))
            else Ret (Some (PyBool_FromLong 0))
        else Ret (Some (PyBool_FromLong 0))
      else Ret (Some (PyBool_FromLong 0))
  end.

(** ** Reading a run *)

Definition outcome_of {World A : Type} (r : Outcome A * World * list Event)
  : Outcome A := fst (fst r).
Definition world_of {World A : Type} (r : Outcome A * World * list Event)
  : World := snd (fst r).
Definition trace_of {World A : Type} (r : Outcome A * World * list Event)
  : list Event := snd r.

Definition is_WinVerifyTrust (ev : Event) : bool :=
  match ev with
  | Ev (WinVerifyTrust _ _) _ => true
  | _ => false
  end.

(** The passes of the trust verification a trace shows. *)
Definition attempts (tr : list Event) : list Event := filter is_WinVerifyTrust tr.

(** The outcome of one verification request, as the cases of the [switch]
    name it. *)
Inductive TrustResult :=
| Success
| NotSigned
| SignatureInvalid
| ExplicitlyDistrusted
| UserDistrusted
| SecurityPolicyBlocked
| ChainingFailed
| Unknown (code : Z).

Definition TrustResult_of (lStatus : Z) : TrustResult :=
  if lStatus =? ERROR_SUCCESS then Success
  else if lStatus =? TRUST_E_NOSIGNATURE then NotSigned
  else if lStatus =? TRUST_E_EXPLICIT_DISTRUST then ExplicitlyDistrusted
  else if lStatus =? TRUST_E_SUBJECT_NOT_TRUSTED then UserDistrusted
  else if lStatus =? CRYPT_E_SECURITY_SETTINGS then SecurityPolicyBlocked
  else if lStatus =? TRUST_E_BAD_DIGEST then SignatureInvalid
  else if lStatus =? CERT_E_CHAINING then ChainingFailed
  else Unknown lStatus.

Definition terminal_at_once (t : TrustResult) : bool :=
  match t with
  | Success | NotSigned | ExplicitlyDistrusted | UserDistrusted
  | SecurityPolicyBlocked | SignatureInvalid => true
  | ChainingFailed | Unknown _ => false
  end.

(** The file name both passes hand to the platform. *)
Definition wszFileName_of (UNICODE : bool) (pszSourceFile : TSTR) : WSTR :=
  if UNICODE
  then substring 0 (Z.to_nat (MAX_PATH - 1)) pszSourceFile
  else snd (mbstowcs_s_TRUNCATE MAX_PATH pszSourceFile).

(** The call of the first pass and the call of the second. *)
Definition CacheOnlyAttempt (wszFileName : WSTR) : winE Z :=
  WinVerifyTrust WINTRUST_ACTION_GENERIC_VERIFY_V2
    (mkTrustData WTD_UI_NONE WTD_REVOKE_NONE WTD_CHOICE_FILE
                 (mkFileInfo wszFileName) 0 WTD_CACHE_ONLY_URL_RETRIEVAL 0).

Definition NetworkAttempt (wszFileName : WSTR) : winE Z :=
  WinVerifyTrust WINTRUST_ACTION_GENERIC_VERIFY_V2
    (mkTrustData WTD_UI_NONE WTD_REVOKE_NONE WTD_CHOICE_FILE
                 (mkFileInfo wszFileName) 0 0 0).

(** The certificate lookups and name fetches a trace shows. *)
Fixpoint certificate_found (tr : list Event) : option CERT_CONTEXT :=
  match tr with
  | [] => None
  | Ev (CertFindCertificateInStore _ _ _) (Some cert) :: _ => Some cert
  | _ :: rest => certificate_found rest
  end.

Fixpoint name_fetched (dwFlags : Z) (tr : list Event) : option TSTR :=
  match tr with
  | [] => None
  | Ev (CertGetNameString _ fl _) (_, buffer) :: rest =>
      if fl =? dwFlags then Some buffer else name_fetched dwFlags rest
  | _ :: rest => name_fetched dwFlags rest
  end.

Definition touches_certificate (ev : Event) : bool :=
  match ev with
  | Ev (CertFindCertificateInStore _ _ _) _ => true
  | Ev (CertGetNameString _ _ _) _ => true
  | _ => false
  end.

(** ** The publisher check in the words of the specification *)

(** The two prefixes [tgb_is_signed] compares against. *)
Definition allow_list : list string := ["TheGreenBow"; "SISTECH"].

(** The characters of a string, lowered. *)
Fixpoint lowered (s : string) : list Z :=
  match s with
  | EmptyString => []
  | String c rest => tolower (Z.of_N (N_of_ascii c)) :: lowered rest
  end.

(** [subject] matches [prefix] case-insensitively over exactly its first
    [length prefix] characters. *)
Definition matches_prefix (prefix subject : string) : Prop :=
  lowered (substring 0 (String.length prefix) subject) = lowered prefix.

(** The condition of the innermost [if] of [tgb_is_signed], in the build
    without [UNICODE]. *)
Definition subject_accepted (s : TSTR) : bool :=
  (strnicmp s "TheGreenBow" 11 =? 0) || (strnicmp s "SISTECH" 7 =? 0).

(** Equality of two strings letter case aside, in the words of the
    specification and without the C runtime: the strings have the same
    length and, at each position, the same character once a lower-case
    letter of the basic alphabet is replaced by its upper-case form. *)
Definition upper_case (c : ascii) : N :=
  let n := N_of_ascii c in
  if ((97 <=? n) && (n <=? 122))%N then (n - 32)%N else n.

Fixpoint equal_ignoring_case (s t : string) : bool :=
  match s, t with
  | EmptyString, EmptyString => true
  | String a s', String b t' =>
      (upper_case a =? upper_case b)%N && equal_ignoring_case s' t'
  | _, _ => false
  end.

(** The first [length prefix] characters of [subject] are [prefix], letter
    case aside. *)
Definition begins_with_ignoring_case (prefix subject : string) : bool :=
  equal_ignoring_case (substring 0 (String.length prefix) subject) prefix.

(** All three certificate fields are populated. *)
Definition populated (i : SPROG_SIGNATUREINFO) : Prop :=
  lpSerialNumber i <> None /\ lpszIssuerName i <> None /\ lpszSubjectName i <> None.

(** ** Two calls in a row *)

(** A pass made under the cache-only restriction. *)
Definition is_cache_only {R : Type} (e : winE R) : bool :=
  match e with
  | WinVerifyTrust _ d =>
      negb (Z.land (dwProvFlags d) WTD_CACHE_ONLY_URL_RETRIEVAL =? 0)
  | _ => false
  end.

Definition cache_only_event (ev : Event) : bool :=
  match ev with
  | Ev e _ => is_cache_only e
  end.

(** The file and the trust store stay as they are.  [sim] relates the
    states of the platform that hold the same file and the same trust
    store; they may differ in what the cache of retrieved chain data
    holds.  No call of the module leaves the class of the state it is made
    in.  Two states of one class answer every call alike, but for a
    cache-only pass, whose answer depends on the cache: that pass either
    asks for the network pass, or has found in the cache what the network
    pass would retrieve and answers as the network pass does. *)
Record unchanged_trust_state {World : Type} (h : Platform World)
       (sim : World -> World -> Prop) : Prop := {
  sim_symmetric : forall w1 w2, sim w1 w2 -> sim w2 w1;
  sim_transitive : forall w1 w2 w3, sim w1 w2 -> sim w2 w3 -> sim w1 w3;
  calls_keep_the_state :
    forall (R : Type) (e : winE R) (w : World), sim w (snd (h R e w));
  same_answer :
    forall (R : Type) (e : winE R) (w1 w2 : World),
      is_cache_only e = false -> sim w1 w2 -> fst (h R e w1) = fst (h R e w2);
  cache_coherent :
    forall (f : WSTR) (w : World),
      terminal_at_once (TrustResult_of (fst (h Z (CacheOnlyAttempt f) w))) = true ->
      fst (h Z (CacheOnlyAttempt f) w) = fst (h Z (NetworkAttempt f) w)
}.

(** ** Concrete platforms *)

(** A platform described by its answers; its state counts the calls it
    has answered. *)
Record Scenario := mkScenario {
  sc_cached_status : Z;
  sc_network_status : Z;
  sc_last_error : Z;
  sc_object : option (HCERTSTORE * HCRYPTMSG);
  sc_signer_size : option Z;
  sc_signer : option CMSG_SIGNER_INFO;
  sc_opus_size : option Z;
  sc_opus : option SPC_SP_OPUS_INFO;
  sc_cert : option CERT_CONTEXT;
  sc_issuer : Z * TSTR;
  sc_subject : Z * TSTR;
  sc_local_memory : bool;
  sc_virtual_memory : bool
}.

Definition scenario_platform (sc : Scenario) : Platform nat :=
  fun (R : Type) (e : winE R) (w : nat) =>
    (match e in winE T return T with
     | WinVerifyTrust _ d =>
         if dwProvFlags d =? WTD_CACHE_ONLY_URL_RETRIEVAL
         then sc_cached_status sc else sc_network_status sc
     | GetLastError => sc_last_error sc
     | CryptQueryObject _ => sc_object sc
     | CryptMsgGetParam_size _ => sc_signer_size sc
     | CryptMsgGetParam _ _ => sc_signer sc
     | LocalAlloc _ => sc_local_memory sc
     | LocalFree => tt
     | CertCloseStore _ => tt
     | CryptMsgClose _ => tt
     | CryptDecodeObject_size _ => sc_opus_size sc
     | CryptDecodeObject _ _ => sc_opus sc
     | OutputDebugStringA _ => tt
     | CertFindCertificateInStore _ _ _ => sc_cert sc
     | VirtualAlloc _ => sc_virtual_memory sc
     | CertGetNameString_size _ fl =>
         if fl =? CERT_NAME_ISSUER_FLAG then fst (sc_issuer sc) else fst (sc_subject sc)
     | CertGetNameString _ fl _ =>
         if fl =? CERT_NAME_ISSUER_FLAG then sc_issuer sc else sc_subject sc
     | CertFreeCertificateContext _ => tt
     end, S w).

Definition x01 : Byte.byte := Byte.x01.
Definition x2a : Byte.byte := Byte.x2a.

Definition opus_attribute : CRYPT_ATTRIBUTE :=
  mkAttr SPC_SP_OPUS_INFO_OBJID [x2a] [].

Definition other_attribute : CRYPT_ATTRIBUTE :=
  mkAttr "1.2.840.113549.1.9.4" [x01] [].

Definition signer_with_opus : CMSG_SIGNER_INFO :=
  mkSignerInfo [x01] [x2a; x01] [other_attribute; opus_attribute].

Definition signer_without_opus : CMSG_SIGNER_INFO :=
  mkSignerInfo [x01] [x2a; x01] [other_attribute].

Definition the_cert : CERT_CONTEXT := mkCert 7 [x2a; x01].

(** A file with a valid embedded signature of "TheGreenBow Networks", on a
    machine whose cache already holds the chain. *)
Definition signed_by_TheGreenBow : Scenario :=
  {| sc_cached_status := ERROR_SUCCESS;
     sc_network_status := ERROR_SUCCESS;
     sc_last_error := 0;
     sc_object := Some (11, 12);
     sc_signer_size := Some 64;
     sc_signer := Some signer_with_opus;
     sc_opus_size := Some 32;
     sc_opus := Some (mkOpus (Some "VPN Client")
                             (Some (mkLink SPC_MONIKER_LINK_CHOICE ""))
                             (Some (mkLink SPC_URL_LINK_CHOICE "https://example.org")));
     sc_cert := Some the_cert;
     sc_issuer := (8, "Some CA");
     sc_subject := (21, "TheGreenBow Networks");
     sc_local_memory := true;
     sc_virtual_memory := true |}.

Definition with_statuses (cached network : Z) (sc : Scenario) : Scenario :=
  mkScenario cached network (sc_last_error sc) (sc_object sc) (sc_signer_size sc)
             (sc_signer sc) (sc_opus_size sc) (sc_opus sc) (sc_cert sc)
             (sc_issuer sc) (sc_subject sc) (sc_local_memory sc)
             (sc_virtual_memory sc).

Definition with_subject (subject : Z * TSTR) (sc : Scenario) : Scenario :=
  mkScenario (sc_cached_status sc) (sc_network_status sc) (sc_last_error sc)
             (sc_object sc) (sc_signer_size sc) (sc_signer sc) (sc_opus_size sc)
             (sc_opus sc) (sc_cert sc) (sc_issuer sc) subject
             (sc_local_memory sc) (sc_virtual_memory sc).

Definition with_issuer (issuer : Z * TSTR) (sc : Scenario) : Scenario :=
  mkScenario (sc_cached_status sc) (sc_network_status sc) (sc_last_error sc)
             (sc_object sc) (sc_signer_size sc) (sc_signer sc) (sc_opus_size sc)
             (sc_opus sc) (sc_cert sc) issuer (sc_subject sc)
             (sc_local_memory sc) (sc_virtual_memory sc).

Definition with_cert (cert : option CERT_CONTEXT) (sc : Scenario) : Scenario :=
  mkScenario (sc_cached_status sc) (sc_network_status sc) (sc_last_error sc)
             (sc_object sc) (sc_signer_size sc) (sc_signer sc) (sc_opus_size sc)
             (sc_opus sc) cert (sc_issuer sc) (sc_subject sc)
             (sc_local_memory sc) (sc_virtual_memory sc).

Definition with_local_memory (available : bool) (sc : Scenario) : Scenario :=
  mkScenario (sc_cached_status sc) (sc_network_status sc) (sc_last_error sc)
             (sc_object sc) (sc_signer_size sc) (sc_signer sc) (sc_opus_size sc)
             (sc_opus sc) (sc_cert sc) (sc_issuer sc) (sc_subject sc)
             available (sc_virtual_memory sc).

Definition with_signer (signer : option CMSG_SIGNER_INFO) (sc : Scenario) : Scenario :=
  mkScenario (sc_cached_status sc) (sc_network_status sc) (sc_last_error sc)
             (sc_object sc) (sc_signer_size sc) signer (sc_opus_size sc)
             (sc_opus sc) (sc_cert sc) (sc_issuer sc) (sc_subject sc)
             (sc_local_memory sc) (sc_virtual_memory sc).

(** The same file when the store of the signed message does not hold the
    signer's certificate. *)
Definition signer_certificate_missing : Scenario :=
  with_cert None signed_by_TheGreenBow.

(** The same file when the chain is not in the local cache and the network
    pass builds it. *)
Definition chain_not_cached : Scenario :=
  with_statuses CERT_E_CHAINING ERROR_SUCCESS signed_by_TheGreenBow.

(** A path of [MAX_PATH] characters. *)
Fixpoint repeat_char (c : ascii) (n : nat) : string :=
  match n with
  | O => EmptyString
  | S n' => String c (repeat_char c n')
  end.

Definition long_path : TSTR := repeat_char "a"%char 260.

(** The opus structure a trace shows decoded, the answers to the calls of
    the signer-info retrieval, and the file the extraction opened. *)
Fixpoint opus_decoded (tr : list Event) : option SPC_SP_OPUS_INFO :=
  match tr with
  | [] => None
  | Ev (CryptDecodeObject _ _) (Some opus) :: _ => Some opus
  | _ :: rest => opus_decoded rest
  end.

Fixpoint object_queried (tr : list Event)
  : option (WSTR * option (HCERTSTORE * HCRYPTMSG)) :=
  match tr with
  | [] => None
  | Ev (CryptQueryObject f) r :: _ => Some (f, r)
  | _ :: rest => object_queried rest
  end.

Fixpoint signer_size_queried (tr : list Event) : option (option Z) :=
  match tr with
  | [] => None
  | Ev (CryptMsgGetParam_size _) r :: _ => Some r
  | _ :: rest => signer_size_queried rest
  end.

(** The first allocation of an extraction is the signer-info buffer. *)
Fixpoint first_LocalAlloc (tr : list Event) : option (Z * bool) :=
  match tr with
  | [] => None
  | Ev (LocalAlloc n) r :: _ => Some (n, r)
  | _ :: rest => first_LocalAlloc rest
  end.

Fixpoint signer_fetched (tr : list Event) : option (Z * option CMSG_SIGNER_INFO) :=
  match tr with
  | [] => None
  | Ev (CryptMsgGetParam _ n) r :: _ => Some (n, r)
  | _ :: rest => signer_fetched rest
  end.

(** No attribute carries the opus identifier. *)
Definition opus_absent (pSignerInfo : CMSG_SIGNER_INFO) : bool :=
  forallb (fun attr => negb (String.eqb SPC_SP_OPUS_INFO_OBJID (pszObjId attr)))
          (AuthAttrs pSignerInfo).

Definition no_certificate_event (tr : list Event) : bool :=
  forallb (fun ev => negb (touches_certificate ev)) tr.

(** ** The statements the specification makes about the extraction *)

(** Whenever the extraction reports success, the three certificate fields
    are populated together. *)
Definition extraction_is_atomic {World : Type} (UNICODE : bool)
           (h : Platform World) (w : World) (path : TSTR) : Prop :=
  forall pInfo',
    outcome_of (run h (SD_GetAuthenticodeInformation UNICODE path ZeroMemory_info) w)
    = Returned (true, pInfo') ->
    populated pInfo'.

(** The file could not be opened as a signed object; the size query or the
    fetch of the signer info failed. *)
Definition QueryFailed (tr : list Event) : Prop :=
  exists f, object_queried tr = Some (f, None).

Definition SignerInfoUnavailable (tr : list Event) : Prop :=
  signer_size_queried tr = Some None
  \/ exists n, signer_fetched tr = Some (n, None).

(** The extraction fails exactly on [QueryFailed] and on
    [SignerInfoUnavailable]. *)
Definition extraction_fails_exactly_on_query_or_signer_info {World : Type}
           (UNICODE : bool) (h : Platform World) (w : World) (path : TSTR) : Prop :=
  let r := run h (SD_GetAuthenticodeInformation UNICODE path ZeroMemory_info) w in
  (exists pInfo', outcome_of r = Returned (false, pInfo'))
  <-> QueryFailed (trace_of r) \/ SignerInfoUnavailable (trace_of r).

(** The path cut to fit the [MAX_PATH] buffer with its terminator. *)
Definition truncated (path : TSTR) : WSTR :=
  substring 0 (Z.to_nat (MAX_PATH - 1)) path.

(** Both the verification and the extraction go to the platform with the
    truncated path. *)
Definition both_operate_on_truncated_path {World : Type} (UNICODE : bool)
           (h : Platform World) (w : World) (path : TSTR) : Prop :=
  (exists r rest,
      trace_of (run h (SD_VerifyEmbeddedSignature UNICODE path) w)
      = Ev (CacheOnlyAttempt (truncated path)) r :: rest)
  /\ (forall w1, exists r rest,
      trace_of (run h (SD_GetAuthenticodeInformation UNICODE path ZeroMemory_info) w1)
      = Ev (CryptQueryObject (truncated path)) r :: rest).

Definition vpn_dll : TSTR := "C:\tgb\vpn.dll".

(** The same file when the certificate carries no issuer display name. *)
Definition issuer_name_missing : Scenario :=
  with_issuer (0, "") signed_by_TheGreenBow.

(** What the extraction leaves in the structure for [issuer_name_missing]. *)
Definition info_without_issuer : SPROG_SIGNATUREINFO :=
  {| lpszProgramName := Some "VPN Client";
     lpszPublisherLink := Some "https://example.org";
     lpszMoreInfoLink := None;
     cbSerialSize := 2;
     lpSerialNumber := Some [x2a; x01];
     lpszIssuerName := None;
     lpszSubjectName := Some "TheGreenBow Networks" |}.

(** What the extraction leaves in the structure for [signed_by_TheGreenBow]. *)
Definition info_with_issuer : SPROG_SIGNATUREINFO :=
  {| lpszProgramName := Some "VPN Client";
     lpszPublisherLink := Some "https://example.org";
     lpszMoreInfoLink := None;
     cbSerialSize := 2;
     lpSerialNumber := Some [x2a; x01];
     lpszIssuerName := Some "Some CA";
     lpszSubjectName := Some "TheGreenBow Networks" |}.

(** The same file with its subject name in another letter case. *)
Definition signed_by_THEGREENBOW : Scenario :=
  with_subject (16, "THEGREENBOW sas") signed_by_TheGreenBow.

(** A platform whose state is whether the cache holds the chain.  A
    cache-only pass answers [CERT_E_CHAINING] while it does not, and as the
    network pass once it does; the network pass leaves the chain in the
    cache.  Every other call is answered as the scenario has it. *)
Definition warming_cache (sc : Scenario) : Platform bool :=
  fun (R : Type) (e : winE R) (cached : bool) =>
    match e in winE T return T * bool with
    | WinVerifyTrust _ d =>
        if dwProvFlags d =? WTD_CACHE_ONLY_URL_RETRIEVAL
        then (if cached then sc_network_status sc else CERT_E_CHAINING, cached)
        else (sc_network_status sc, true)
    | e' => (fst (scenario_platform sc _ e' 0%nat), cached)
    end.

(** Every state of [warming_cache] holds the same file and trust store. *)
Definition whatever_the_cache (w1 w2 : bool) : Prop := True.

(** The same file signed by "SISTECH SA", the name in lower case. *)
Definition signed_by_sistech : Scenario :=
  with_subject (11, "sistech sa") signed_by_TheGreenBow.

(** An unsigned file. *)
Definition unsigned_file : Scenario :=
  with_statuses TRUST_E_NOSIGNATURE TRUST_E_NOSIGNATURE signed_by_TheGreenBow.

(** The same file when the local heap has no memory left. *)
Definition out_of_local_memory : Scenario :=
  with_local_memory false signed_by_TheGreenBow.

(** ** Stepping through a run *)

(** Name the platform's answer to the next call of the run in the goal. *)
Ltac answer h :=
  match goal with
  | |- context [h ?R ?e ?w] =>
      let r := fresh "r" in
      let w' := fresh "w" in
      destruct (h R e w) as [r w']
  end.

(** The same for an allocation, by cases on whether it succeeded. *)
Ltac alloc_step h :=
  cbn [run bind call]; answer h;
  match goal with
  | r : bool |- _ => destruct r
  end;
  cbn [run bind call].

(** ** Kinds of platform calls *)

(** The platform function an event is a call of. *)
Inductive Kind :=
| KWinVerifyTrust | KGetLastError
| KCryptQueryObject | KCryptMsgGetParam_size | KCryptMsgGetParam
| KLocalAlloc | KLocalFree | KCertCloseStore | KCryptMsgClose
| KCryptDecodeObject_size | KCryptDecodeObject | KOutputDebugStringA
| KCertFindCertificateInStore | KVirtualAlloc
| KCertGetNameString_size | KCertGetNameString | KCertFreeCertificateContext.

Definition kind_of (ev : Event) : Kind :=
  match ev with
  | Ev (WinVerifyTrust _ _) _ => KWinVerifyTrust
  | Ev GetLastError _ => KGetLastError
  | Ev (CryptQueryObject _) _ => KCryptQueryObject
  | Ev (CryptMsgGetParam_size _) _ => KCryptMsgGetParam_size
  | Ev (CryptMsgGetParam _ _) _ => KCryptMsgGetParam
  | Ev (LocalAlloc _) _ => KLocalAlloc
  | Ev LocalFree _ => KLocalFree
  | Ev (CertCloseStore _) _ => KCertCloseStore
  | Ev (CryptMsgClose _) _ => KCryptMsgClose
  | Ev (CryptDecodeObject_size _) _ => KCryptDecodeObject_size
  | Ev (CryptDecodeObject _ _) _ => KCryptDecodeObject
  | Ev (OutputDebugStringA _) _ => KOutputDebugStringA
  | Ev (CertFindCertificateInStore _ _ _) _ => KCertFindCertificateInStore
  | Ev (VirtualAlloc _) _ => KVirtualAlloc
  | Ev (CertGetNameString_size _ _) _ => KCertGetNameString_size
  | Ev (CertGetNameString _ _ _) _ => KCertGetNameString
  | Ev (CertFreeCertificateContext _) _ => KCertFreeCertificateContext
  end.

(** The calls of the trust verification, of the opus-info reader, of the
    certificate reader and of the whole extraction. *)
Definition verification_kind (k : Kind) : bool :=
  match k with
  | KWinVerifyTrust | KGetLastError => true
  | _ => false
  end.

Definition opus_kind (k : Kind) : bool :=
  match k with
  | KCryptDecodeObject_size | KCryptDecodeObject | KLocalAlloc | KLocalFree => true
  | _ => false
  end.

Definition certificate_kind (k : Kind) : bool :=
  match k with
  | KOutputDebugStringA | KCertFindCertificateInStore | KVirtualAlloc
  | KCertGetNameString_size | KCertGetNameString
  | KCertFreeCertificateContext => true
  | _ => false
  end.

Definition extraction_kind (k : Kind) : bool :=
  match k with
  | KWinVerifyTrust | KGetLastError => false
  | _ => true
  end.

Definition uses_only (allowed : Kind -> bool) (tr : list Event) : bool :=
  forallb (fun ev => allowed (kind_of ev)) tr.

(** The status the last pass of a trace was answered with. *)
Fixpoint last_status_from (seen : option Z) (tr : list Event) : option Z :=
  match tr with
  | [] => seen
  | Ev (WinVerifyTrust _ _) r :: rest => last_status_from (Some r) rest
  | _ :: rest => last_status_from seen rest
  end.

Definition last_status (tr : list Event) : option Z := last_status_from None tr.

(** A pass as the module makes every one: on file [f], chosen as a file,
    with the user interface off, no revocation check, no state action, and
    no provider flag but the cache-only one. *)
Definition quiet_pass_on (f : WSTR) (ev : Event) : Prop :=
  match ev with
  | Ev (WinVerifyTrust g d) _ =>
      g = WINTRUST_ACTION_GENERIC_VERIFY_V2
      /\ pcwszFilePath (pFile d) = f
      /\ dwUIChoice d = WTD_UI_NONE
      /\ fdwRevocationChecks d = WTD_REVOKE_NONE
      /\ dwUnionChoice d = WTD_CHOICE_FILE
      /\ dwStateAction d = 0
      /\ (dwProvFlags d = WTD_CACHE_ONLY_URL_RETRIEVAL \/ dwProvFlags d = 0)
  | _ => False
  end.

(** ** Accounting of memory and handles *)

Fixpoint count_events (p : Event -> bool) (tr : list Event) : nat :=
  match tr with
  | [] => 0%nat
  | ev :: rest => ((if p ev then 1 else 0) + count_events p rest)%nat
  end.

Definition is_LocalAlloc_ok (ev : Event) : bool :=
  match ev with
  | Ev (LocalAlloc _) true => true
  | _ => false
  end.

Definition is_VirtualAlloc_ok (ev : Event) : bool :=
  match ev with
  | Ev (VirtualAlloc _) true => true
  | _ => false
  end.

Definition Kind_eq_dec (k1 k2 : Kind) : {k1 = k2} + {k1 <> k2}.
Proof. decide equality. Defined.

Definition is_kind (k : Kind) (ev : Event) : bool :=
  if Kind_eq_dec (kind_of ev) k then true else false.

(** No allocation of the local heap failed. *)
Definition every_LocalAlloc_ok (tr : list Event) : bool :=
  forallb (fun ev => match ev with
                     | Ev (LocalAlloc _) false => false
                     | _ => true
                     end) tr.

(** The string a decoded link stands for: the URL or the file name, and
    nothing under any other choice. *)
Definition link_text (link : option SPC_LINK) : option WSTR :=
  match link with
  | Some l =>
      if dwLinkChoice l =? SPC_URL_LINK_CHOICE then Some (pwszUrl l)
      else if dwLinkChoice l =? SPC_FILE_LINK_CHOICE then Some (pwszFile l)
      else None
  | None => None
  end.

Definition held {A : Type} (field : option A) : nat :=
  match field with
  | Some _ => 1%nat
  | None => 0%nat
  end.

(** The strings the opus-info reader left in the structure, and the
    buffers the certificate reader left there. *)
Definition strings_held (i : SPROG_SIGNATUREINFO) : nat :=
  (held (lpszProgramName i) + held (lpszPublisherLink i)
   + held (lpszMoreInfoLink i))%nat.

Definition buffers_held (i : SPROG_SIGNATUREINFO) : nat :=
  (held (lpSerialNumber i) + held (lpszIssuerName i)
   + held (lpszSubjectName i))%nat.

Definition reader_kind (k : Kind) : bool := opus_kind k || certificate_kind k.

(** Whether a trace shows the file opened as a signed object. *)
Definition object_opened (tr : list Event) : nat :=
  match object_queried tr with
  | Some (_, Some _) => 1%nat
  | _ => 0%nat
  end.

(** Settle a fact about every event of some kinds by cases on the call. *)
Ltac by_kind :=
  let ev := fresh "ev" in
  let R := fresh "R" in
  let e := fresh "e" in
  let r := fresh "r" in
  intros ev; destruct ev as [R e r]; destruct e; cbn;
  intro; try discriminate; try reflexivity;
  try (destruct r; reflexivity).

(** Settle the accounting of an extraction that reported failure. *)
Ltac failed_extraction Hs Hb :=
  let bRet := fresh "bRet" in
  let p := fresh "p" in
  let E := fresh "E" in
  intros bRet p E; inversion E; subst bRet p;
  rewrite Hs, Hb;
  do 5 (split; [reflexivity |]);
  split; [intros _; reflexivity | let E1 := fresh "E" in intro E1; discriminate E1].

(** A second opus attribute, and a signer info that carries it after the
    first. *)
Definition second_opus_attribute : CRYPT_ATTRIBUTE :=
  mkAttr SPC_SP_OPUS_INFO_OBJID [x01; x01] [].

(** What the opus-info reader leaves in a zeroed structure for
    [signed_by_TheGreenBow]. *)
Definition info_after_opus : SPROG_SIGNATUREINFO :=
  {| lpszProgramName := Some "VPN Client";
     lpszPublisherLink := Some "https://example.org";
     lpszMoreInfoLink := None;
     cbSerialSize := 0;
     lpSerialNumber := None;
     lpszIssuerName := None;
     lpszSubjectName := None |}.

(** What the certificate reader leaves in a zeroed structure for
    [signed_by_TheGreenBow]. *)
Definition info_after_certificate : SPROG_SIGNATUREINFO :=
  {| lpszProgramName := None;
     lpszPublisherLink := None;
     lpszMoreInfoLink := None;
     cbSerialSize := 2;
     lpSerialNumber := Some [x2a; x01];
     lpszIssuerName := Some "Some CA";
     lpszSubjectName := Some "TheGreenBow Networks" |}.

(** * The two bootstrap programs

    [parsec-bootstrap.c] and [program-bootstrap.c] hold the same [main] but
    for the script they hand to the interpreter.  The calls into the
    interpreter's runtime are the events of [pyE].  The process ends where
    [main] calls [exit], and it can end inside the runtime: the
    initialisation of the interpreter stops the process when it fails, and
    [PyRun_SimpleString] does not come back from a script that raises
    [SystemExit], as a command-line entry point does when it is done. *)

Module Bootstrap.

(** What a call that can end the process hands back: its result, or
    nothing, the process having ended inside the call with [status]. *)
Inductive Reply (R : Type) : Type :=
| Back (r : R)
| Gone (status : Z).
Arguments Back {R} r.
Arguments Gone {R} status.

(** A decoded argument is a block of the raw allocator; [PyMem_RawFree]
    names it by the string it holds. *)
Inductive pyE : Type -> Type :=
| PyMem_Malloc (size : Z) : pyE bool
| Py_DecodeLocale (arg : string) : pyE (option WSTR)
| fprintf_stderr (msg : string) : pyE unit
| Py_SetProgramName (name : WSTR) : pyE unit
| Py_Initialize : pyE (Reply unit)
| PySys_SetArgv (argc : Z) (argv : list WSTR) : pyE (Reply unit)
| PyRun_SimpleString (command : string) : pyE (Reply Z)
| PyMem_RawFree (arg : WSTR) : pyE unit
| Py_FinalizeEx : pyE Z.

(** The operations of [main] for which neither C nor the interface of the
    interpreter defines a behaviour.  A run is followed up to the first of
    them and no further. *)
Inductive Undefined :=
| StoreThroughNullArray  (* [_argv[i] = arg] with [_argv == NULL] *)
| ReadOfMissingArgument  (* [_argv[0]] read when [argc] is 0 *)
| ForeignBlockFreed.     (* [PyMem_RawFree] of a block of [PyMem_Malloc] *)

Inductive Prog (A : Type) : Type :=
| Ret (a : A)
| Exit (status : Z)
| Undef (u : Undefined)
| Vis (R : Type) (e : pyE R) (k : R -> Prog A).

Arguments Ret {A} a.
Arguments Exit {A} status.
Arguments Undef {A} u.
Arguments Vis {A R} e k.

Fixpoint bind {A B : Type} (p : Prog A) (f : A -> Prog B) : Prog B :=
  match p with
  | Ret a => f a
  | Exit s => Exit s
  | Undef u => Undef u
  | Vis e k => Vis e (fun r => bind (k r) f)
  end.

Definition call {R : Type} (e : pyE R) : Prog R := Vis e Ret.

Declare Scope boot_scope.
Delimit Scope boot_scope with boot.
Notation "x <- p ;; q" := (bind p (fun x => q))
  (at level 61, p at next level, right associativity) : boot_scope.
Notation "p ;; q" := (bind p (fun _ => q))
  (at level 61, right associativity) : boot_scope.
Local Open Scope boot_scope.

(** A call that may end the process. *)
Definition call_or_end {R : Type} (e : pyE (Reply R)) : Prog R :=
  reply <- call e ;;
  match reply with
  | Back r => Ret r
  | Gone status => Exit status
  end.

Inductive Event : Type :=
| Ev (R : Type) (e : pyE R) (r : R).
Arguments Ev {R} e r.

(** How a run ends: [main] returns, the process ends with a status, or the
    run has come to an operation without defined behaviour. *)
Inductive Outcome (A : Type) : Type :=
| Returned (a : A)
| Exited (status : Z)
| Undefined_at (u : Undefined).
Arguments Returned {A} a.
Arguments Exited {A} status.
Arguments Undefined_at {A} u.

Definition Runtime (World : Type) : Type :=
  forall R : Type, pyE R -> World -> R * World.

Fixpoint run {World A : Type} (h : Runtime World) (p : Prog A) (w : World)
  : Outcome A * World * list Event :=
  match p with
  | Ret a => (Returned a, w, [])
  | Exit s => (Exited s, w, [])
  | Undef u => (Undefined_at u, w, [])
  | Vis e k =>
      let (r, w1) := h _ e w in
      let '(o, w2, tr) := run h (k r) w1 in
      (o, w2, Ev e r :: tr)
  end.

Definition outcome_of {World A : Type} (r : Outcome A * World * list Event)
  : Outcome A := fst (fst r).
Definition trace_of {World A : Type} (r : Outcome A * World * list Event)
  : list Event := snd r.

Definition newline : string := String (ascii_of_nat 10) EmptyString.

Definition cannot_decode : string :=
  ("Fatal error: cannot decode argv" ++ newline)%string.

(** The first loop, entered at argument [i] with the arguments decoded so
    far; [array] tells whether [_argv] was allocated. *)
Fixpoint decode_arguments (array : bool) (argv : list string)
         (decoded : list WSTR) : Prog (list WSTR) :=
  match argv with
  | [] => Ret decoded
  | a :: rest =>
      arg <- call (Py_DecodeLocale a) ;;
      match arg with
      | None => call (fprintf_stderr cannot_decode) ;; Exit 1
      | Some s =>
          if array then decode_arguments array rest (decoded ++ [s])
          else Undef StoreThroughNullArray
      end
  end.

(** The second loop: each decoded argument goes back to the raw allocator,
    which handed it out. *)
Fixpoint free_arguments (_argv : list WSTR) : Prog unit :=
  match _argv with
  | [] => Ret tt
  | a :: rest => call (PyMem_RawFree a) ;; free_arguments rest
  end.

(** [PyMem_RawFree(_argv)].  The array is a block of [PyMem_Malloc], and
    the raw allocator releases only what the raw allocator handed out: the
    call has no defined behaviour, unless the pointer is [NULL], which
    [PyMem_RawFree] ignores. *)
Definition free_array (array : bool) : Prog unit :=
  if array then Undef ForeignBlockFreed else Ret tt.

(** [main] of both files, for the script of the file; [sizeof_pointer] is
    the size of a pointer to a wide string and [argv] holds the [argc] arguments. *)
Definition main (script : string) (sizeof_pointer : Z) (argv : list string)
  : Prog Z :=
  let argc := Z.of_nat (List.length argv) in
  array <- call (PyMem_Malloc (sizeof_pointer * argc)) ;;
  _argv <- decode_arguments array argv [] ;;
  match _argv with
  | [] => Undef ReadOfMissingArgument
  | name :: _ =>
      call (Py_SetProgramName name) ;;
      call_or_end Py_Initialize ;;
      call_or_end (PySys_SetArgv argc _argv) ;;
      _ <- call_or_end (PyRun_SimpleString script) ;;
      free_arguments _argv ;;
      free_array array ;;
      status <- call Py_FinalizeEx ;;
      if status <? 0 then Exit 120 else Ret 0
  end.

(** The script of [parsec-bootstrap.c]. *)
Definition parsec_script : string :=
  ("import os, sys" ++ newline
   ++ "from parsec.cli import cli" ++ newline
   ++ "os.environ['SENTRY_URL'] = 'https://863e60bbef39406896d2b7a5dbd491bb@sentry.io/1212848'"
   ++ newline
   ++ "os.environ['PREFERRED_ORG_CREATION_BACKEND_ADDR'] = 'parsec://saas.parsec.cloud'"
   ++ newline
   ++ "os.makedirs(os.path.expandvars('%APPDATA%\\parsec'), exist_ok=True)"
   ++ newline
   ++ "cli(args=['core', 'gui', *sys.argv[1:]])" ++ newline)%string.

(** The script of [program-bootstrap.c]. *)
Definition resana_script : string :=
  ("from resana_secure.cli import run_cli" ++ newline
   ++ "run_cli()" ++ newline)%string.

Definition parsec_bootstrap_main := main parsec_script.
Definition program_bootstrap_main := main resana_script.

(** Reading a trace: the answers to the decoding calls, the script that
    was run with what came of it, the arguments freed, the answers of
    [Py_FinalizeEx]. *)
Fixpoint decoding_answers (tr : list Event) : list (string * option WSTR) :=
  match tr with
  | [] => []
  | Ev (Py_DecodeLocale a) r :: rest => (a, r) :: decoding_answers rest
  | _ :: rest => decoding_answers rest
  end.

Fixpoint scripts_run (tr : list Event) : list (string * Reply Z) :=
  match tr with
  | [] => []
  | Ev (PyRun_SimpleString s) v :: rest => (s, v) :: scripts_run rest
  | _ :: rest => scripts_run rest
  end.

Fixpoint arguments_freed (tr : list Event) : list WSTR :=
  match tr with
  | [] => []
  | Ev (PyMem_RawFree a) _ :: rest => a :: arguments_freed rest
  | _ :: rest => arguments_freed rest
  end.

Fixpoint finalize_answers (tr : list Event) : list Z :=
  match tr with
  | [] => []
  | Ev Py_FinalizeEx v :: rest => v :: finalize_answers rest
  | _ :: rest => finalize_answers rest
  end.

Definition is_Py_Initialize (ev : Event) : bool :=
  match ev with
  | Ev Py_Initialize _ => true
  | _ => false
  end.

(** The status with which the process ended inside a call of the runtime,
    when it did. *)
Fixpoint ended_inside (tr : list Event) : option Z :=
  match tr with
  | [] => None
  | Ev Py_Initialize (Gone c) :: _ => Some c
  | Ev (PySys_SetArgv _ _) (Gone c) :: _ => Some c
  | Ev (PyRun_SimpleString _) (Gone c) :: _ => Some c
  | _ :: rest => ended_inside rest
  end.

(** Whether the array of the arguments was allocated. *)
Definition array_allocated (tr : list Event) : option bool :=
  match tr with
  | Ev (PyMem_Malloc _) r :: _ => Some r
  | _ => None
  end.

(** The events of the two loops when every argument decodes. *)
Definition decode_events (argv : list string) (decoded : list WSTR) : list Event :=
  map (fun p => Ev (Py_DecodeLocale (fst p)) (Some (snd p))) (combine argv decoded).

Definition free_events (decoded : list WSTR) : list Event :=
  map (fun s => Ev (PyMem_RawFree s) tt) decoded.

(** The events between the two loops, up to a script that comes back with
    status [v]. *)
Definition start_and_run (script : string) (argc : Z) (name : WSTR)
           (_argv : list WSTR) (v : Z) : list Event :=
  [Ev (Py_SetProgramName name) tt; Ev Py_Initialize (Back tt);
   Ev (PySys_SetArgv argc _argv) (Back tt); Ev (PyRun_SimpleString script) (Back v)].

(** The same events up to the call inside which the process ends with
    status [c]: the initialisation, the setting of the argument vector, or
    the script. *)
Inductive EndsInside (script : string) (argc : Z) (name : WSTR)
          (_argv : list WSTR) (c : Z) : list Event -> Prop :=
| InInitialize :
    EndsInside script argc name _argv c
      [Ev (Py_SetProgramName name) tt; Ev Py_Initialize (Gone c)]
| InSetArgv :
    EndsInside script argc name _argv c
      [Ev (Py_SetProgramName name) tt; Ev Py_Initialize (Back tt);
       Ev (PySys_SetArgv argc _argv) (Gone c)]
| InScript :
    EndsInside script argc name _argv c
      [Ev (Py_SetProgramName name) tt; Ev Py_Initialize (Back tt);
       Ev (PySys_SetArgv argc _argv) (Back tt);
       Ev (PyRun_SimpleString script) (Gone c)].

(** The ways a run of [main] goes, with the whole trace of each after the
    allocation of the array. *)
Inductive Shape (script : string) (argc : Z) (argv : list string)
  : Outcome Z -> bool -> list Event -> Prop :=
| CannotDecode (array : bool) (ds : list WSTR) (a : string) :
    nth_error argv (List.length ds) = Some a ->
    Shape script argc argv (Exited 1) array
          (decode_events argv ds
           ++ [Ev (Py_DecodeLocale a) None; Ev (fprintf_stderr cannot_decode) tt])
| StoreThroughNull (a : string) (rest : list string) (s : WSTR) :
    argv = a :: rest ->
    Shape script argc argv (Undefined_at StoreThroughNullArray) false
          [Ev (Py_DecodeLocale a) (Some s)]
| NoArgument (array : bool) :
    argv = [] ->
    Shape script argc argv (Undefined_at ReadOfMissingArgument) array []
| EndedInside (name : WSTR) (rest : list WSTR) (c : Z) (tr : list Event) :
    List.length (name :: rest) = List.length argv ->
    EndsInside script argc name (name :: rest) c tr ->
    Shape script argc argv (Exited c) true
          (decode_events argv (name :: rest) ++ tr)
| ScriptCameBack (name : WSTR) (rest : list WSTR) (v : Z) :
    List.length (name :: rest) = List.length argv ->
    Shape script argc argv (Undefined_at ForeignBlockFreed) true
          (decode_events argv (name :: rest)
           ++ start_and_run script argc name (name :: rest) v
           ++ free_events (name :: rest)).

(** A runtime that decodes every argument to itself but the ones listed
    as undecodable, starts the interpreter, and answers the script as
    told; its state counts the calls. *)
Definition runtime (undecodable : list string) (memory : bool)
           (script_reply : Reply Z) : Runtime nat :=
  fun (R : Type) (e : pyE R) (w : nat) =>
    (match e in pyE T return T with
     | PyMem_Malloc _ => memory
     | Py_DecodeLocale a =>
         if existsb (String.eqb a) undecodable then None else Some a
     | fprintf_stderr _ => tt
     | Py_SetProgramName _ => tt
     | Py_Initialize => Back tt
     | PySys_SetArgv _ _ => Back tt
     | PyRun_SimpleString _ => script_reply
     | PyMem_RawFree _ => tt
     | Py_FinalizeEx => 0
     end, S w).

End Bootstrap.

(** ** General facts about runs *)

Lemma run_bind {World A B : Type} (h : Platform World) (p : Prog A)
      (f : A -> Prog B) (w : World) :
  run h (bind p f) w =
  match run h p w with
  | (Returned a, w1, tr1) =>
      let '(o, w2, tr2) := run h (f a) w1 in (o, w2, tr1 ++ tr2)
  | (Faulted x, w1, tr1) => (Faulted x, w1, tr1)
  end.
Proof.
  revert w. induction p as [a | x | R e k IH]; intro w; simpl.
  - destruct (run h (f a) w) as [[o w2] tr2]. reflexivity.
  - reflexivity.
  - destruct (h R e w) as [r w1]. rewrite IH.
    destruct (run h (k r) w1) as [[[a | x] w2] tr1]; simpl.
    + destruct (run h (f a) w2) as [[o w3] tr2]. reflexivity.
    + reflexivity.
Qed.


Lemma run_switch_lStatus {World : Type} (h : Platform World) (lStatus : Z)
      (DoSecondPass : bool) (w : World) :
  outcome_of (run h (switch_lStatus lStatus DoSecondPass) w) =
    Returned (if terminal_at_once (TrustResult_of lStatus)
              then DoSecondPass else true)
  /\ attempts (trace_of (run h (switch_lStatus lStatus DoSecondPass) w)) = [].
Proof.
  unfold switch_lStatus, TrustResult_of.
  repeat match goal with
         | |- context [if ?x =? ?c then _ else _] => destruct (x =? c)
         end; simpl; auto.
  destruct (h Z GetLastError w) as [e w1].
  destruct (_ || _); simpl; auto.
Qed.

Lemma first_pass_call (f : WSTR) :
  WinVerifyTrust WINTRUST_ACTION_GENERIC_VERIFY_V2 (WinTrustData_of f false)
  = CacheOnlyAttempt f.
Proof. reflexivity. Qed.

Lemma second_pass_call (f : WSTR) :
  WinVerifyTrust WINTRUST_ACTION_GENERIC_VERIFY_V2 (WinTrustData_of f true)
  = NetworkAttempt f.
Proof. reflexivity. Qed.

Lemma SD_Verify_file (UNICODE : bool) (path : TSTR) :
  SD_VerifyEmbeddedSignature UNICODE path
  = verify_passes 2 (wszFileName_of UNICODE path) false 0.
Proof.
  unfold SD_VerifyEmbeddedSignature, wszFileName_of, lstrcpynW.
  destruct UNICODE; reflexivity.
Qed.

(** One pass that ends the loop: the status is handed back after the
    calls of the [switch]. *)
Lemma run_last_pass {World : Type} (h : Platform World) (fuel : nat) (f : WSTR)
      (d : bool) (c : Z) (w : World) :
  let r := fst (h Z (WinVerifyTrust WINTRUST_ACTION_GENERIC_VERIFY_V2 (WinTrustData_of f d)) w) in
  (c + 1 <? 2) = false \/ (d = false /\ terminal_at_once (TrustResult_of r) = true) ->
  exists w' tr,
    run h (verify_passes fuel f d c) w =
      (Returned r, w',
       Ev (WinVerifyTrust WINTRUST_ACTION_GENERIC_VERIFY_V2 (WinTrustData_of f d)) r :: tr)
    /\ attempts tr = [].
Proof.
  intros r H.
  destruct fuel; simpl; subst r;
  destruct (h Z _ w) as [r w1]; simpl in *; rewrite run_bind;
  pose proof (run_switch_lStatus h r d w1) as [Ho Ht];
  destruct (run h (switch_lStatus r d) w1) as [[o w2] tr]; simpl in *;
  unfold outcome_of, trace_of in *; simpl in *; subst o;
  (destruct H as [H | [Hd H]];
   [ rewrite H, andb_false_r; simpl; exists w2, tr; rewrite app_nil_r; auto
   | subst d; rewrite H; simpl; exists w2, tr; rewrite app_nil_r; auto ]).
Qed.

Lemma run_switch_retry {World : Type} (h : Platform World) (lStatus : Z)
      (DoSecondPass : bool) (w : World) :
  terminal_at_once (TrustResult_of lStatus) = false ->
  run h (switch_lStatus lStatus DoSecondPass) w = (Returned true, w, []).
Proof.
  unfold switch_lStatus, TrustResult_of.
  repeat match goal with
         | |- context [if ?x =? ?c then _ else _] => destruct (x =? c)
         end; simpl; intro H; try discriminate; reflexivity.
Qed.

(** The whole loop from its entry, for any fuel that allows a second pass:
    either the first status ends it, or the second pass runs from the state
    the first one left and its status is handed back. *)
Lemma run_verify_passes {World : Type} (h : Platform World) (n : nat) (f : WSTR)
      (w : World) :
  let r1 := fst (h Z (CacheOnlyAttempt f) w) in
  let w1 := snd (h Z (CacheOnlyAttempt f) w) in
  let r2 := fst (h Z (NetworkAttempt f) w1) in
  exists w' tr,
    attempts tr = [] /\
    run h (verify_passes (S n) f false 0) w =
      if terminal_at_once (TrustResult_of r1)
      then (Returned r1, w', Ev (CacheOnlyAttempt f) r1 :: tr)
      else (Returned r2, w',
            Ev (CacheOnlyAttempt f) r1 :: Ev (NetworkAttempt f) r2 :: tr).
Proof.
  intros r1 w1 r2.
  destruct (terminal_at_once (TrustResult_of r1)) eqn:T.
  - destruct (run_last_pass h (S n) f false 0 w) as (w' & tr & E & Ha).
    { right. split; [reflexivity | exact T]. }
    exists w', tr. split; [exact Ha | exact E].
  - destruct (run_last_pass h n f true 1 w1) as (w' & tr & E & Ha).
    { left. reflexivity. }
    exists w', tr. split; [exact Ha |].
    subst r1 w1 r2. rewrite <- first_pass_call in *. rewrite <- second_pass_call.
    cbn [verify_passes bind call]. cbn [run].
    destruct (h Z (WinVerifyTrust _ (WinTrustData_of f false)) w) as [a w1] eqn:Eh.
    cbn [fst snd] in *. cbn [bind]. rewrite run_bind.
    rewrite (run_switch_retry h a false w1 T).
    cbn [andb Z.add Z.ltb Z.compare Pos.add Pos.succ Pos.compare Pos.compare_cont].
    rewrite E. reflexivity.
Qed.

Lemma terminal_at_once_true (t : TrustResult) :
  terminal_at_once t = true <->
  In t [Success; NotSigned; ExplicitlyDistrusted; UserDistrusted;
        SecurityPolicyBlocked; SignatureInvalid].
Proof.
  split.
  - destruct t; simpl; intro H; try discriminate; tauto.
  - simpl. intros [H | [H | [H | [H | [H | [H | []]]]]]]; subst t; reflexivity.
Qed.

Lemma terminal_at_once_false (t : TrustResult) :
  terminal_at_once t = false <->
  t = ChainingFailed \/ exists code, t = Unknown code.
Proof.
  split.
  - destruct t; simpl; intro H; try discriminate; eauto.
  - intros [H | [code H]]; subst t; reflexivity.
Qed.

(** C3: the first pass is the cache-only call on the file; a second pass is
    made exactly when the first status is [CERT_E_CHAINING] or a status
    none of the other cases names; [Success], [NotSigned],
    [ExplicitlyDistrusted], [UserDistrusted], [SecurityPolicyBlocked] and
    [SignatureInvalid] end the verification after one pass; there are one
    or two passes, never more. *)
Theorem C3_second_pass_exactly_on_chaining_or_unknown
        (UNICODE : bool) (World : Type) (h : Platform World) (w : World)
        (path : TSTR) :
  let f := wszFileName_of UNICODE path in
  let first := fst (h Z (CacheOnlyAttempt f) w) in
  let tr := trace_of (run h (SD_VerifyEmbeddedSignature UNICODE path) w) in
  hd_error tr = Some (Ev (CacheOnlyAttempt f) first)
  /\ (List.length (attempts tr) = 2%nat <->
      TrustResult_of first = ChainingFailed
      \/ exists code, TrustResult_of first = Unknown code)
  /\ (List.length (attempts tr) = 1%nat <->
      In (TrustResult_of first)
         [Success; NotSigned; ExplicitlyDistrusted; UserDistrusted;
          SecurityPolicyBlocked; SignatureInvalid])
  /\ (List.length (attempts tr) = 1%nat \/ List.length (attempts tr) = 2%nat).
Proof.
  intros f first tr. subst tr. rewrite SD_Verify_file. fold f.
  destruct (run_verify_passes h 1 f w) as (w' & tr' & Ha & E).
  fold first in E. rewrite E.
  rewrite <- terminal_at_once_false, <- terminal_at_once_true.
  destruct (terminal_at_once (TrustResult_of first));
    unfold trace_of, attempts in *;
    cbn [snd filter is_WinVerifyTrust CacheOnlyAttempt NetworkAttempt hd_error];
    rewrite Ha; cbn [List.length];
    repeat split; intros; try discriminate; auto.
Qed.

(** The characters of a string are below 256, and lowering keeps them
    there. *)
Lemma deref_range (s : string) : 0 <= deref s < 256.
Proof.
  destruct s as [| c s]; cbn [deref]; [lia |].
  pose proof (N_ascii_bounded c). lia.
Qed.

Lemma tolower_range (c : Z) : 0 <= c < 256 -> 0 <= tolower c < 256.
Proof.
  unfold tolower. intro H.
  destruct (65 <=? c) eqn:E1; destruct (c <=? 90) eqn:E2; cbn [andb]; lia.
Qed.

(** In a [UNICODE] build the comparison ends on the first wide character:
    the one read at the address of a narrow literal of two characters or
    more is none of the characters a subject name holds here. *)
Lemma wcsnicmp_narrow_literal (s lit : string) (count : nat) :
  (exists u rest, wide_units (bytes_of lit) = u :: rest /\ 256 <= u) ->
  exists d, wcsnicmp s (wide_units (bytes_of lit)) (S count) = Some d
            /\ (d =? 0) = false.
Proof.
  intros (u & rest & E & Hu). rewrite E. cbn [wcsnicmp].
  pose proof (tolower_range (deref s) (deref_range s)) as Hf.
  assert (Hl : tolower u = u).
  { unfold tolower. destruct ((65 <=? u) && (u <=? 90)) eqn:E2; [| reflexivity].
    apply andb_prop in E2. lia. }
  rewrite Hl.
  assert (Hne : (tolower (deref s) =? u) = false) by (apply Z.eqb_neq; lia).
  rewrite Hne, andb_false_r. eexists. split; [reflexivity |].
  apply Z.eqb_neq. lia.
Qed.

(** [tgb_is_signed] on a text argument, in terms of the runs of the two
    functions it calls. *)
Lemma run_tgb_is_signed {World : Type} (UNICODE : bool) (h : Platform World)
      (w : World) (path : TSTR) :
  has_nul path = false ->
  run h (tgb_is_signed UNICODE [PyUnicode path]) w =
  match run h (SD_VerifyEmbeddedSignature UNICODE path) w with
  | (Returned lStatus, w1, tr1) =>
      if lStatus =? ERROR_SUCCESS then
        match run h (SD_GetAuthenticodeInformation UNICODE path ZeroMemory_info) w1 with
        | (Returned (true, info), w2, tr2) =>
            (match lpszSubjectName info with
             | Some s => Returned (Some (PyBool (negb UNICODE && subject_accepted s)))
             | None => Faulted InvalidParameter
             end, w2, tr1 ++ tr2)
        | (Returned (false, _), w2, tr2) =>
            (Returned (Some (PyBool false)), w2, tr1 ++ tr2)
        | (Faulted x, w2, tr2) => (Faulted x, w2, tr1 ++ tr2)
        end
      else (Returned (Some (PyBool false)), w1, tr1)
  | (Faulted x, w1, tr1) => (Faulted x, w1, tr1)
  end.
Proof.
  intro Hnul. unfold tgb_is_signed, PyArg_ParseTuple_s. rewrite Hnul.
  rewrite run_bind.
  destruct (run h (SD_VerifyEmbeddedSignature UNICODE path) w) as [[[lStatus | x] w1] tr1];
    [| reflexivity].
  destruct (lStatus =? ERROR_SUCCESS); [| simpl; rewrite app_nil_r; reflexivity].
  rewrite run_bind.
  destruct (run h (SD_GetAuthenticodeInformation UNICODE path ZeroMemory_info) w1)
    as [[[[bRet info] | x] w2] tr2]; [| reflexivity].
  destruct bRet; [| simpl; rewrite app_nil_r; reflexivity].
  unfold subject_accepted.
  destruct (lpszSubjectName info) as [s |]; cbn [_tcsncicmp bind run];
    [| rewrite app_nil_r; reflexivity].
  destruct UNICODE; cbn [negb andb].
  - destruct (wcsnicmp_narrow_literal s "TheGreenBow" 10) as (d1 & E1 & N1).
    { vm_compute. do 2 eexists. split; [reflexivity | discriminate]. }
    destruct (wcsnicmp_narrow_literal s "SISTECH" 6) as (d2 & E2 & N2).
    { vm_compute. do 2 eexists. split; [reflexivity | discriminate]. }
    rewrite E1. cbn [bind run]. rewrite N1, E2. cbn [bind run]. rewrite N2.
    cbn [run]. rewrite app_nil_r. reflexivity.
  - cbn [bind run].
    destruct (strnicmp s "TheGreenBow" 11 =? 0); cbn [orb run];
      [rewrite app_nil_r; reflexivity |].
    destruct (strnicmp s "SISTECH" 7 =? 0); cbn [run]; rewrite app_nil_r; reflexivity.
Qed.

(** The three ways [tgb_is_signed] ends without the publisher check: after
    a verification that did not succeed it answers false and makes no
    further call; after an extraction that reported failure it answers
    false; after an extraction that reported success without a subject
    name it ends in the fault of the comparison. *)
Lemma tgb_is_signed_without_subject {World : Type} (UNICODE : bool)
      (h : Platform World) (w : World) (path : TSTR) :
  has_nul path = false ->
  let verification := run h (SD_VerifyEmbeddedSignature UNICODE path) w in
  let extraction :=
    run h (SD_GetAuthenticodeInformation UNICODE path ZeroMemory_info)
        (world_of verification) in
  let whole := run h (tgb_is_signed UNICODE [PyUnicode path]) w in
  (forall lStatus,
      outcome_of verification = Returned lStatus ->
      lStatus <> ERROR_SUCCESS ->
      whole = (Returned (Some (PyBool false)), world_of verification,
               trace_of verification))
  /\ (forall pInfo',
         outcome_of verification = Returned ERROR_SUCCESS ->
         outcome_of extraction = Returned (false, pInfo') ->
         outcome_of whole = Returned (Some (PyBool false)))
  /\ (forall pInfo',
         outcome_of verification = Returned ERROR_SUCCESS ->
         outcome_of extraction = Returned (true, pInfo') ->
         lpszSubjectName pInfo' = None ->
         outcome_of whole = Faulted InvalidParameter).
Proof.
  intros Hnul verification extraction whole.
  subst whole extraction. rewrite (run_tgb_is_signed UNICODE h w path Hnul).
  fold verification.
  destruct verification as [[o w1] tr1].
  unfold outcome_of, world_of, trace_of. cbn [fst snd].
  split; [| split].
  - intros lStatus Ho Hl. subst o. apply Z.eqb_neq in Hl. rewrite Hl. reflexivity.
  - intros pInfo' Ho He. subst o. cbn [Z.eqb ERROR_SUCCESS].
    destruct (run h _ w1) as [[o2 w2] tr2]. cbn [fst] in He. subst o2. reflexivity.
  - intros pInfo' Ho He Hs. subst o. cbn [Z.eqb ERROR_SUCCESS].
    destruct (run h _ w1) as [[o2 w2] tr2]. cbn [fst] in He. subst o2.
    rewrite Hs. reflexivity.
Qed.

(** The verification always hands back a status. *)
Lemma SD_Verify_returns {World : Type} (UNICODE : bool) (h : Platform World)
      (w : World) (path : TSTR) :
  exists lStatus, outcome_of (run h (SD_VerifyEmbeddedSignature UNICODE path) w)
                  = Returned lStatus.
Proof.
  rewrite SD_Verify_file.
  destruct (run_verify_passes h 1 (wszFileName_of UNICODE path) w) as (w' & tr & _ & E).
  rewrite E. destruct (terminal_at_once _); eexists; reflexivity.
Qed.

(** C4: after [CERT_E_CHAINING] on the first pass there is exactly one more
    pass, made with no provider flag (so without the cache-only
    restriction) and with revocation checking still off; its status is
    what the verification hands back, whatever it is.  This holds in both
    builds of [SD_VerifyEmbeddedSignature].  In the build without
    [UNICODE], the one [tgb_is_signed] is written for: when that status is
    [ERROR_SUCCESS], [tgb_is_signed] goes on to the extraction, and the
    publisher check decides once the extraction has delivered a subject
    name; when it is not, [tgb_is_signed] answers false after these two
    passes and nothing else. *)
Theorem C4_one_retry_after_chaining_failure
        (UNICODE : bool) (World : Type) (h : Platform World) (w : World)
        (path : TSTR)
        (Hpath : has_nul path = false)
        (Hfirst : fst (h Z (CacheOnlyAttempt (wszFileName_of UNICODE path)) w)
                  = CERT_E_CHAINING) :
  let f := wszFileName_of UNICODE path in
  let w1 := snd (h Z (CacheOnlyAttempt f) w) in
  let second := fst (h Z (NetworkAttempt f) w1) in
  let verification := run h (SD_VerifyEmbeddedSignature UNICODE path) w in
  let whole := run h (tgb_is_signed UNICODE [PyUnicode path]) w in
  outcome_of verification = Returned second
  /\ attempts (trace_of verification)
     = [Ev (CacheOnlyAttempt f) CERT_E_CHAINING; Ev (NetworkAttempt f) second]
  /\ match NetworkAttempt f with
     | WinVerifyTrust _ d =>
         dwProvFlags d = 0 /\ fdwRevocationChecks d = WTD_REVOKE_NONE
     | _ => False
     end
  /\ (UNICODE = false ->
      (second = ERROR_SUCCESS ->
       let extraction :=
         run h (SD_GetAuthenticodeInformation UNICODE path ZeroMemory_info)
             (world_of verification) in
       trace_of whole = trace_of verification ++ trace_of extraction
       /\ (forall info s,
              outcome_of extraction = Returned (true, info) ->
              lpszSubjectName info = Some s ->
              outcome_of whole = Returned (Some (PyBool (subject_accepted s))))
       /\ (forall info,
              outcome_of extraction = Returned (false, info) ->
              outcome_of whole = Returned (Some (PyBool false))))
      /\ (second <> ERROR_SUCCESS ->
          outcome_of whole = Returned (Some (PyBool false))
          /\ trace_of whole = trace_of verification)).
Proof.
  intros f w1 second verification whole.
  assert (T : terminal_at_once (TrustResult_of (fst (h Z (CacheOnlyAttempt f) w))) = false).
  { fold f in Hfirst. rewrite Hfirst. reflexivity. }
  destruct (run_verify_passes h 1 f w) as (w' & tr & Ha & E).
  rewrite T in E. fold f in Hfirst. rewrite Hfirst in E. fold w1 second in E.
  assert (Ev' : verification
                = (Returned second, w',
                   Ev (CacheOnlyAttempt f) CERT_E_CHAINING
                      :: Ev (NetworkAttempt f) second :: tr)).
  { subst verification. rewrite SD_Verify_file. exact E. }
  pose proof (run_tgb_is_signed UNICODE h w path Hpath) as Ew.
  fold whole verification in Ew.
  rewrite Ew, Ev'. clear Ew Ev' E.
  unfold outcome_of, trace_of, world_of. cbn [fst snd].
  split; [reflexivity |].
  split.
  { unfold attempts in *. cbn [filter is_WinVerifyTrust CacheOnlyAttempt NetworkAttempt].
    rewrite Ha. reflexivity. }
  split; [split; reflexivity |].
  intro HU. rewrite HU. cbn [negb andb]. split.
  - intro Hs. rewrite Hs. cbn [Z.eqb ERROR_SUCCESS].
    destruct (run h (SD_GetAuthenticodeInformation false path ZeroMemory_info) w')
      as [[[[bRet info] | x] w2] tr2]; cbn [fst snd].
    + destruct bRet; cbn [fst snd].
      * split; [reflexivity |]. split.
        -- intros info' s Hi Hsub. inversion Hi; subst info'. rewrite Hsub. reflexivity.
        -- intros info' Hi. discriminate Hi.
      * split; [reflexivity |]. split.
        -- intros info' s Hi. discriminate Hi.
        -- reflexivity.
    + split; [reflexivity |]. split; intros; discriminate.
  - intro Hs. apply Z.eqb_neq in Hs. rewrite Hs. cbn [fst snd]. split; reflexivity.
Qed.

(** ** The opus-info reader *)

Lemma decode_opus_attribute_spec {World : Type} (h : Platform World)
      (attr : CRYPT_ATTRIBUTE) (pInfo : SPROG_SIGNATUREINFO) (w : World) :
  exists pInfo' w' tr,
    run h (decode_opus_attribute attr pInfo) w = (Returned pInfo', w', tr)
    /\ cbSerialSize pInfo' = cbSerialSize pInfo
    /\ lpSerialNumber pInfo' = lpSerialNumber pInfo
    /\ lpszIssuerName pInfo' = lpszIssuerName pInfo
    /\ lpszSubjectName pInfo' = lpszSubjectName pInfo
    /\ no_certificate_event tr = true
    /\ forall opus l,
        opus_decoded tr = Some opus ->
        dwLinkChoice l <> SPC_URL_LINK_CHOICE ->
        dwLinkChoice l <> SPC_FILE_LINK_CHOICE ->
        (pPublisherInfo opus = Some l -> lpszPublisherLink pInfo' = None)
        /\ (pMoreInfo opus = Some l -> lpszMoreInfoLink pInfo' = None).
Proof.
  unfold decode_opus_attribute, AllocateAndCopyWideString.
  cbn [run bind call]. answer h. destruct r as [dwData |]; cbn [run bind call].
  2: { do 3 eexists. do 6 (split; [reflexivity |]). discriminate. }
  answer h. destruct r; cbn [run bind call negb].
  2: { do 3 eexists. do 6 (split; [reflexivity |]). discriminate. }
  answer h. destruct r as [opus |]; cbn [run bind call].
  2: { answer h. do 3 eexists. do 6 (split; [reflexivity |]). discriminate. }
  destruct opus as [name more publisher].
  cbn [pwszProgramName pPublisherInfo pMoreInfo].
  assert (Hlink : forall (l l' : SPC_LINK),
             dwLinkChoice l' <> SPC_URL_LINK_CHOICE ->
             dwLinkChoice l' <> SPC_FILE_LINK_CHOICE ->
             Some l = Some l' ->
             (dwLinkChoice l =? SPC_URL_LINK_CHOICE) = false
             /\ (dwLinkChoice l =? SPC_FILE_LINK_CHOICE) = false).
  { intros l l' H1 H2 E. inversion E; subst l'. split; apply Z.eqb_neq; assumption. }
  destruct name as [s |]; cbn [run bind call]; [alloc_step h |];
    (destruct publisher as [lp |];
     [destruct (dwLinkChoice lp =? SPC_URL_LINK_CHOICE) eqn:Ep1;
      [alloc_step h
      | destruct (dwLinkChoice lp =? SPC_FILE_LINK_CHOICE) eqn:Ep2;
        [alloc_step h | cbn [run bind call]]]
     | cbn [run bind call]]);
    (destruct more as [lm |];
     [destruct (dwLinkChoice lm =? SPC_URL_LINK_CHOICE) eqn:Em1;
      [alloc_step h
      | destruct (dwLinkChoice lm =? SPC_FILE_LINK_CHOICE) eqn:Em2;
        [alloc_step h | cbn [run bind call]]]
     | cbn [run bind call]]);
    answer h;
    (do 3 eexists; split; [reflexivity |];
     do 5 (split; [reflexivity |]);
     intros o l Ho H1 H2; cbn in Ho; inversion Ho; subst o;
     cbn [pPublisherInfo pMoreInfo];
     split; intro E;
     try reflexivity; try discriminate E;
     destruct (Hlink _ _ H1 H2 E); congruence).
Qed.

Lemma GetProgAndPublisherInfo_spec {World : Type} (h : Platform World)
      (pSignerInfo : CMSG_SIGNER_INFO) (pInfo : SPROG_SIGNATUREINFO) (w : World) :
  exists pInfo' w' tr,
    run h (GetProgAndPublisherInfo pSignerInfo pInfo) w = (Returned pInfo', w', tr)
    /\ cbSerialSize pInfo' = cbSerialSize pInfo
    /\ lpSerialNumber pInfo' = lpSerialNumber pInfo
    /\ lpszIssuerName pInfo' = lpszIssuerName pInfo
    /\ lpszSubjectName pInfo' = lpszSubjectName pInfo
    /\ no_certificate_event tr = true
    /\ forall opus l,
        opus_decoded tr = Some opus ->
        dwLinkChoice l <> SPC_URL_LINK_CHOICE ->
        dwLinkChoice l <> SPC_FILE_LINK_CHOICE ->
        (pPublisherInfo opus = Some l -> lpszPublisherLink pInfo' = None)
        /\ (pMoreInfo opus = Some l -> lpszMoreInfoLink pInfo' = None).
Proof.
  unfold GetProgAndPublisherInfo.
  induction (AuthAttrs pSignerInfo) as [| attr rest IH]; cbn [scan_AuthAttrs].
  - exists pInfo, w, []. do 6 (split; [reflexivity |]). discriminate.
  - destruct (String.eqb SPC_SP_OPUS_INFO_OBJID (pszObjId attr)).
    + apply decode_opus_attribute_spec.
    + exact IH.
Qed.

Lemma GetProgAndPublisherInfo_absent {World : Type} (h : Platform World)
      (pSignerInfo : CMSG_SIGNER_INFO) (pInfo : SPROG_SIGNATUREINFO) (w : World) :
  opus_absent pSignerInfo = true ->
  run h (GetProgAndPublisherInfo pSignerInfo pInfo) w = (Returned pInfo, w, []).
Proof.
  unfold GetProgAndPublisherInfo, opus_absent.
  induction (AuthAttrs pSignerInfo) as [| attr rest IH]; cbn [scan_AuthAttrs forallb].
  - reflexivity.
  - intro H. apply andb_prop in H. destruct H as [Ha Hr].
    apply negb_true_iff in Ha. rewrite Ha. apply IH. exact Hr.
Qed.

(** C6: the opus-info reader has no failure result and always returns.
    When no authenticated attribute carries the opus identifier it makes no
    platform call and leaves the structure as it received it, so the three
    fields of a zeroed structure stay empty.  When the attribute was decoded
    and a link's choice is neither the URL nor the file choice, the field of
    that link is [NULL]. *)
Theorem C6_opus_reader_never_fails
        (World : Type) (h : Platform World) (w : World)
        (pSignerInfo : CMSG_SIGNER_INFO) (pInfo : SPROG_SIGNATUREINFO) :
  let r := run h (GetProgAndPublisherInfo pSignerInfo pInfo) w in
  (exists pInfo', outcome_of r = Returned pInfo')
  /\ (opus_absent pSignerInfo = true ->
      r = (Returned pInfo, w, [])
      /\ (pInfo = ZeroMemory_info ->
          forall pInfo', outcome_of r = Returned pInfo' ->
            lpszProgramName pInfo' = None
            /\ lpszPublisherLink pInfo' = None
            /\ lpszMoreInfoLink pInfo' = None))
  /\ (forall pInfo' opus l,
         outcome_of r = Returned pInfo' ->
         opus_decoded (trace_of r) = Some opus ->
         dwLinkChoice l <> SPC_URL_LINK_CHOICE ->
         dwLinkChoice l <> SPC_FILE_LINK_CHOICE ->
         (pPublisherInfo opus = Some l -> lpszPublisherLink pInfo' = None)
         /\ (pMoreInfo opus = Some l -> lpszMoreInfoLink pInfo' = None)).
Proof.
  intro r.
  destruct (GetProgAndPublisherInfo_spec h pSignerInfo pInfo w)
    as (pInfo1 & w1 & tr & E & _ & _ & _ & _ & _ & Hlinks).
  split; [| split].
  - exists pInfo1. subst r. rewrite E. reflexivity.
  - intro Habs. subst r.
    rewrite (GetProgAndPublisherInfo_absent h pSignerInfo pInfo w Habs).
    split; [reflexivity |].
    intros Hz pInfo' Ho. inversion Ho; subst pInfo' pInfo. repeat split.
  - intros pInfo' opus l Ho Hd H1 H2. subst r. rewrite E in Ho, Hd.
    inversion Ho; subst pInfo'. exact (Hlinks opus l Hd H1 H2).
Qed.

(** ** The certificate reader *)

Lemma certificate_found_app (tr1 tr2 : list Event) :
  certificate_found (tr1 ++ tr2) =
  match certificate_found tr1 with
  | Some cert => Some cert
  | None => certificate_found tr2
  end.
Proof.
  induction tr1 as [| [R e r] tr1 IH]; [reflexivity |].
  destruct e; cbn [app certificate_found]; try exact IH.
  destruct r; [reflexivity | exact IH].
Qed.

Lemma name_fetched_app (dwFlags : Z) (tr1 tr2 : list Event) :
  name_fetched dwFlags (tr1 ++ tr2) =
  match name_fetched dwFlags tr1 with
  | Some buffer => Some buffer
  | None => name_fetched dwFlags tr2
  end.
Proof.
  induction tr1 as [| [R e r] tr1 IH]; [reflexivity |].
  destruct e; cbn [app name_fetched]; try exact IH.
  destruct r as [n buffer]. destruct (dwFlags0 =? dwFlags); [reflexivity | exact IH].
Qed.

Lemma no_certificate_event_found (tr : list Event) :
  no_certificate_event tr = true -> certificate_found tr = None.
Proof.
  unfold no_certificate_event.
  induction tr as [| [R e r] tr IH]; [reflexivity |].
  destruct e; cbn [forallb touches_certificate negb andb certificate_found];
    try exact IH; discriminate.
Qed.

Lemma no_certificate_event_fetched (dwFlags : Z) (tr : list Event) :
  no_certificate_event tr = true -> name_fetched dwFlags tr = None.
Proof.
  unfold no_certificate_event.
  induction tr as [| [R e r] tr IH]; [reflexivity |].
  destruct e; cbn [forallb touches_certificate negb andb name_fetched];
    try exact IH; discriminate.
Qed.

(** What [GetCertificateInfo] leaves in a structure whose certificate
    fields were empty: each field holds what its own platform call
    delivered, and is empty when that call was not reached. *)
Lemma GetCertificateInfo_spec {World : Type} (UNICODE : bool) (h : Platform World)
      (hStore : HCERTSTORE) (pSignerInfo : CMSG_SIGNER_INFO)
      (pInfo : SPROG_SIGNATUREINFO) (w : World) :
  lpSerialNumber pInfo = None ->
  lpszIssuerName pInfo = None ->
  lpszSubjectName pInfo = None ->
  exists o w' tr,
    run h (GetCertificateInfo UNICODE hStore pSignerInfo pInfo) w = (o, w', tr)
    /\ forall pInfo',
        o = Returned pInfo' ->
        lpSerialNumber pInfo' = option_map certSerialNumber (certificate_found tr)
        /\ lpszIssuerName pInfo' = name_fetched CERT_NAME_ISSUER_FLAG tr
        /\ lpszSubjectName pInfo' = name_fetched 0 tr
        /\ (certificate_found tr = None ->
            name_fetched CERT_NAME_ISSUER_FLAG tr = None
            /\ name_fetched 0 tr = None).
Proof.
  intros Hser Hiss Hsub.
  unfold GetCertificateInfo, get_IssuerName, get_SubjectName.
  cbn [run bind call]. answer h. answer h.
  destruct r0 as [cert |]; cbn [run bind call].
  2: { answer h. answer h. do 3 eexists. split; [reflexivity |].
       intros pInfo' E. inversion E; subst pInfo'. cbn. auto. }
  answer h. destruct r0; cbn [run bind call negb].
  2: { do 3 eexists. split; [reflexivity |]. intros pInfo' E. discriminate E. }
  answer h. destruct (r0 =? 0); cbn [run bind call];
    [| answer h; destruct r1; cbn [run bind call negb];
       [answer h; destruct r1 as [n1 b1]; cbn [run bind call] |]];
    (answer h;
     match goal with
     | |- context [if ?z =? 0 then _ else _] => destruct (z =? 0)
     end; cbn [run bind call];
     [| answer h;
        match goal with
        | a : bool |- _ => destruct a
        end; cbn [run bind call negb];
        [answer h;
         match goal with
         | a : (Z * TSTR)%type |- _ => destruct a as [n2 b2]
         end; cbn [run bind call] |]]);
    answer h; answer h;
    (do 3 eexists; split; [reflexivity |];
     intros pInfo' E; inversion E; subst pInfo'; cbn;
     repeat (split; auto); discriminate).
Qed.

(** ** The extraction *)

(** The block of [SD_GetAuthenticodeInformation] that runs once the signer
    info is fetched, up to [bRet = TRUE]. *)
Lemma run_readers {World : Type} (UNICODE : bool) (h : Platform World)
      (hStore : HCERTSTORE) (pSignerInfo : CMSG_SIGNER_INFO)
      (pInfo : SPROG_SIGNATUREINFO) (w : World) :
  lpSerialNumber pInfo = None ->
  lpszIssuerName pInfo = None ->
  lpszSubjectName pInfo = None ->
  exists o w' tr,
    run h (pInfo <- GetProgAndPublisherInfo pSignerInfo pInfo ;;
           pInfo <- GetCertificateInfo UNICODE hStore pSignerInfo pInfo ;;
           call LocalFree ;;
           Ret (true, pInfo)) w = (o, w', tr)
    /\ forall bRet pInfo',
        o = Returned (bRet, pInfo') ->
        bRet = true
        /\ lpSerialNumber pInfo' = option_map certSerialNumber (certificate_found tr)
        /\ lpszIssuerName pInfo' = name_fetched CERT_NAME_ISSUER_FLAG tr
        /\ lpszSubjectName pInfo' = name_fetched 0 tr
        /\ (certificate_found tr = None ->
            name_fetched CERT_NAME_ISSUER_FLAG tr = None
            /\ name_fetched 0 tr = None).
Proof.
  intros Hser Hiss Hsub.
  destruct (GetProgAndPublisherInfo_spec h pSignerInfo pInfo w)
    as (pInfo1 & w1 & trP & EP & _ & Hser1 & Hiss1 & Hsub1 & HnoP & _).
  rewrite Hser in Hser1. rewrite Hiss in Hiss1. rewrite Hsub in Hsub1.
  destruct (GetCertificateInfo_spec UNICODE h hStore pSignerInfo pInfo1 w1 Hser1 Hiss1 Hsub1)
    as (oC & w2 & trC & EC & HC).
  rewrite run_bind, EP, run_bind, EC.
  destruct oC as [pInfo2 | x].
  - cbn [run bind call]. answer h. do 3 eexists. split; [reflexivity |].
    intros bRet pInfo' E. inversion E; subst bRet pInfo'.
    destruct (HC pInfo2 eq_refl) as (H1 & H2 & H3 & H4).
    split; [reflexivity |].
    rewrite !certificate_found_app, !name_fetched_app.
    rewrite (no_certificate_event_found trP HnoP).
    rewrite !(no_certificate_event_fetched _ trP HnoP).
    rewrite H1, H2, H3.
    destruct (certificate_found trC).
    + destruct (name_fetched CERT_NAME_ISSUER_FLAG trC), (name_fetched 0 trC);
        cbn; repeat (split; auto); discriminate.
    + destruct (H4 eq_refl) as [H5 H6]. rewrite H5, H6. cbn. auto.
  - do 3 eexists. split; [reflexivity |]. intros bRet pInfo' E. discriminate E.
Qed.

(** Whatever the structure held, the block hands back [TRUE] when it
    returns. *)
Lemma run_readers_TRUE {World : Type} (UNICODE : bool) (h : Platform World)
      (hStore : HCERTSTORE) (pSignerInfo : CMSG_SIGNER_INFO)
      (pInfo : SPROG_SIGNATUREINFO) (w : World) :
  exists o w' tr,
    run h (pInfo <- GetProgAndPublisherInfo pSignerInfo pInfo ;;
           pInfo <- GetCertificateInfo UNICODE hStore pSignerInfo pInfo ;;
           call LocalFree ;;
           Ret (true, pInfo)) w = (o, w', tr)
    /\ forall bRet pInfo', o = Returned (bRet, pInfo') -> bRet = true.
Proof.
  destruct (GetProgAndPublisherInfo_spec h pSignerInfo pInfo w)
    as (pInfo1 & w1 & trP & EP & _).
  rewrite run_bind, EP, run_bind.
  destruct (run h (GetCertificateInfo UNICODE hStore pSignerInfo pInfo1) w1)
    as [[[pInfo2 | x] w2] trC].
  - cbn [run bind call]. answer h. do 3 eexists. split; [reflexivity |].
    intros bRet pInfo' E. inversion E. reflexivity.
  - do 3 eexists. split; [reflexivity |]. intros bRet pInfo' E. discriminate E.
Qed.

(** C1, as the code has it: when the extraction reports success, each of the
    three certificate fields holds what its own platform call delivered and
    is empty when that call was not reached.  The serial number is the one
    of the certificate the store lookup found, the issuer name is the buffer
    of the issuer-name fetch, the subject name is the buffer of the
    subject-name fetch; when the lookup found no certificate all three are
    empty, and the extraction has reported success all the same. *)
Theorem C1_certificate_fields_are_best_effort
        (UNICODE : bool) (World : Type) (h : Platform World) (w : World)
        (path : TSTR) (pInfo' : SPROG_SIGNATUREINFO) :
  let r := run h (SD_GetAuthenticodeInformation UNICODE path ZeroMemory_info) w in
  outcome_of r = Returned (true, pInfo') ->
  lpSerialNumber pInfo'
  = option_map certSerialNumber (certificate_found (trace_of r))
  /\ lpszIssuerName pInfo' = name_fetched CERT_NAME_ISSUER_FLAG (trace_of r)
  /\ lpszSubjectName pInfo' = name_fetched 0 (trace_of r)
  /\ (certificate_found (trace_of r) = None ->
      lpSerialNumber pInfo' = None
      /\ lpszIssuerName pInfo' = None
      /\ lpszSubjectName pInfo' = None).
Proof.
  intro r. subst r. unfold SD_GetAuthenticodeInformation.
  destruct (convert_FileName UNICODE path) as [f |]; [| intro E; discriminate E].
  cbn [run bind call]. answer h.
  destruct r as [[hStore hMsg] |]; cbn [run bind call]; [| intro E; discriminate E].
  answer h. destruct r as [n |]; cbn [run bind call];
    [| answer h; answer h; intro E; discriminate E].
  answer h. destruct r; cbn [run bind call negb];
    [| answer h; answer h; intro E; discriminate E].
  answer h. destruct r as [si |]; cbn [run bind call];
    [| answer h; answer h; answer h; intro E; discriminate E].
  rewrite run_bind.
  destruct (run_readers UNICODE h hStore si ZeroMemory_info w3 eq_refl eq_refl eq_refl)
    as (o & w4 & tr & E & H).
  cbn [bind call] in E. rewrite E.
  destruct o as [[bRet pInfo2] | x]; [| intro E'; discriminate E'].
  cbn [run bind call]. answer h. answer h.
  unfold outcome_of, trace_of. cbn [fst snd certificate_found name_fetched].
  intro E'. inversion E'; subst bRet pInfo2.
  destruct (H true pInfo' eq_refl) as (_ & H1 & H2 & H3 & H4).
  rewrite certificate_found_app, !name_fetched_app. cbn.
  rewrite H1, H2, H3.
  destruct (certificate_found tr).
  - destruct (name_fetched CERT_NAME_ISSUER_FLAG tr), (name_fetched 0 tr);
      cbn; repeat (split; auto); discriminate.
  - destruct (H4 eq_refl) as [H5 H6]. rewrite H5, H6. cbn. repeat (split; auto).
Qed.

(** C7, as the code has it: the extraction reports failure exactly when the
    file name does not convert into the [MAX_PATH] buffer, or the file is
    not opened as a signed object, or the size query fails, or the buffer
    for the signer info is not allocated, or the fetch fails.  When it
    reports success it has opened the converted file name, queried the
    size, allocated a buffer of that size and fetched the signer info with
    that size, in this order. *)
Theorem C7_extraction_failure_causes
        (UNICODE : bool) (World : Type) (h : Platform World) (w : World)
        (path : TSTR) (pInfo : SPROG_SIGNATUREINFO) :
  let r := run h (SD_GetAuthenticodeInformation UNICODE path pInfo) w in
  ((exists pInfo', outcome_of r = Returned (false, pInfo')) <->
   convert_FileName UNICODE path = None
   \/ QueryFailed (trace_of r)
   \/ SignerInfoUnavailable (trace_of r)
   \/ exists n, first_LocalAlloc (trace_of r) = Some (n, false))
  /\ (forall pInfo',
         outcome_of r = Returned (true, pInfo') ->
         exists f hStore hMsg n si rest,
           convert_FileName UNICODE path = Some f
           /\ trace_of r
              = Ev (CryptQueryObject f) (Some (hStore, hMsg))
                :: Ev (CryptMsgGetParam_size hMsg) (Some n)
                :: Ev (LocalAlloc n) true
                :: Ev (CryptMsgGetParam hMsg n) (Some si)
                :: rest).
Proof.
  intro r. subst r.
  unfold SD_GetAuthenticodeInformation, QueryFailed, SignerInfoUnavailable,
    outcome_of, trace_of.
  destruct (convert_FileName UNICODE path) as [f |].
  2: { cbn. split; [| intros p E; discriminate E].
       split; [auto | intros _; eexists; reflexivity]. }
  cbn [run bind call]. answer h.
  destruct r as [[hStore hMsg] |]; cbn [run bind call].
  2: { cbn. split; [| intros p E; discriminate E].
       split; [intros _; right; left; eexists; reflexivity
              | intros _; eexists; reflexivity]. }
  answer h. destruct r as [n |]; cbn [run bind call].
  2: { answer h. answer h. cbn. split; [| intros p E; discriminate E].
       split; [intros _; right; right; left; left; reflexivity
              | intros _; eexists; reflexivity]. }
  answer h. destruct r; cbn [run bind call negb].
  2: { answer h. answer h. cbn. split; [| intros p E; discriminate E].
       split; [intros _; right; right; right; eexists; reflexivity
              | intros _; eexists; reflexivity]. }
  answer h. destruct r as [si |]; cbn [run bind call].
  2: { answer h. answer h. answer h. cbn. split; [| intros p E; discriminate E].
       split; [intros _; right; right; left; right; eexists; reflexivity
              | intros _; eexists; reflexivity]. }
  rewrite run_bind.
  destruct (run_readers_TRUE UNICODE h hStore si pInfo w3)
    as (o & w4 & tr & E & H).
  cbn [bind call] in E. rewrite E.
  assert (Hnot : forall tr',
             ~ (Some f = None
                \/ (exists f0, object_queried
                                 (Ev (CryptQueryObject f) (Some (hStore, hMsg))
                                  :: Ev (CryptMsgGetParam_size hMsg) (Some n)
                                  :: Ev (LocalAlloc n) true
                                  :: Ev (CryptMsgGetParam hMsg n) (Some si) :: tr')
                               = Some (f0, None))
                \/ (signer_size_queried
                      (Ev (CryptQueryObject f) (Some (hStore, hMsg))
                       :: Ev (CryptMsgGetParam_size hMsg) (Some n)
                       :: Ev (LocalAlloc n) true
                       :: Ev (CryptMsgGetParam hMsg n) (Some si) :: tr')
                    = Some None
                    \/ exists n0, signer_fetched
                                    (Ev (CryptQueryObject f) (Some (hStore, hMsg))
                                     :: Ev (CryptMsgGetParam_size hMsg) (Some n)
                                     :: Ev (LocalAlloc n) true
                                     :: Ev (CryptMsgGetParam hMsg n) (Some si) :: tr')
                                  = Some (n0, None))
                \/ exists n0, first_LocalAlloc
                                (Ev (CryptQueryObject f) (Some (hStore, hMsg))
                                 :: Ev (CryptMsgGetParam_size hMsg) (Some n)
                                 :: Ev (LocalAlloc n) true
                                 :: Ev (CryptMsgGetParam hMsg n) (Some si) :: tr')
                              = Some (n0, false))).
  { intros tr' [A | [[f0 A] | [[A | [n0 A]] | [n0 A]]]]; cbn in A; discriminate A. }
  destruct o as [[bRet pInfo2] | x].
  - pose proof (H bRet pInfo2 eq_refl) as Hb. subst bRet.
    cbn [run bind call]. answer h. answer h. cbn [fst snd].
    split.
    + split; [intros [p E']; discriminate E' | intro A; destruct (Hnot _ A)].
    + intros p _. exists f, hStore, hMsg, n, si. eexists. split; reflexivity.
  - cbn [fst snd]. split.
    + split; [intros [p E']; discriminate E' | intro A; destruct (Hnot _ A)].
    + intros p E'. discriminate E'.
Qed.

(** ** The publisher check *)

Lemma tolower_zero (c : Z) : tolower c = 0 <-> c = 0.
Proof.
  unfold tolower.
  destruct ((65 <=? c) && (c <=? 90)) eqn:E; [| tauto].
  apply andb_prop in E. lia.
Qed.

Lemma substring_0_0 (s : string) : substring 0 0 s = EmptyString.
Proof. destruct s; reflexivity. Qed.

Lemma length_zero_empty (s : string) : String.length s = 0%nat -> s = EmptyString.
Proof. destruct s; [reflexivity | discriminate]. Qed.

(** The comparison of the C runtime over the length of a prefix without a
    null character is 0 exactly when the subject matches the prefix in the
    words of the specification. *)
Lemma strnicmp_matches_prefix (prefix : string) :
  has_nul prefix = false ->
  forall subject,
    strnicmp subject prefix (String.length prefix) = 0
    <-> matches_prefix prefix subject.
Proof.
  unfold matches_prefix.
  induction prefix as [| c prefix IH]; intros Hnul subject.
  - cbn. rewrite substring_0_0. tauto.
  - cbn [has_nul] in Hnul. apply orb_false_iff in Hnul. destruct Hnul as [Hc Hnul].
    apply N.eqb_neq in Hc.
    assert (Hl : tolower (Z.of_N (N_of_ascii c)) <> 0).
    { rewrite tolower_zero. lia. }
    cbn [String.length strnicmp deref advance lowered].
    destruct subject as [| a subject]; cbn [deref advance substring lowered].
    + change (tolower 0) with 0. cbn [Z.eqb negb andb].
      rewrite andb_false_r. cbn [andb]. split; [lia | discriminate].
    + set (f := tolower (Z.of_N (N_of_ascii a))) in *.
      set (l := tolower (Z.of_N (N_of_ascii c))) in *.
      destruct (f =? l) eqn:Efl.
      * apply Z.eqb_eq in Efl.
        assert (Hf : (f =? 0) = false) by (apply Z.eqb_neq; lia).
        rewrite Hf. cbn [negb andb].
        destruct (Nat.eqb (String.length prefix) 0) eqn:En; cbn [negb andb].
        -- apply Nat.eqb_eq in En. rewrite En, substring_0_0.
           rewrite (length_zero_empty prefix En). cbn [lowered].
           split; [intros _; rewrite Efl; reflexivity | lia].
        -- rewrite (IH Hnul subject). rewrite Efl.
           split; [intro H; rewrite H; reflexivity | intro H; inversion H; reflexivity].
      * rewrite andb_false_r. apply Z.eqb_neq in Efl.
        split; [lia | intro H; inversion H; contradiction].
Qed.

Lemma subject_accepted_allow_list (s : TSTR) :
  subject_accepted s = true <-> exists p, In p allow_list /\ matches_prefix p s.
Proof.
  unfold subject_accepted. rewrite orb_true_iff, !Z.eqb_eq.
  rewrite (strnicmp_matches_prefix "TheGreenBow" eq_refl s).
  rewrite (strnicmp_matches_prefix "SISTECH" eq_refl s).
  unfold allow_list. split.
  - intros [H | H]; eexists; (split; [| exact H]); cbn; auto.
  - intros [p [[Hp | [Hp | []]] H]]; subst p; auto.
Qed.

Lemma TrustResult_of_Success (lStatus : Z) :
  TrustResult_of lStatus = Success <-> lStatus = ERROR_SUCCESS.
Proof.
  unfold TrustResult_of.
  destruct (lStatus =? ERROR_SUCCESS) eqn:E.
  - apply Z.eqb_eq in E. tauto.
  - apply Z.eqb_neq in E.
    repeat match goal with
           | |- context [if ?x =? ?c then _ else _] => destruct (x =? c)
           end; split; intro H; try discriminate H; contradiction.
Qed.

(** The equality of the specification is the equality of the lowered
    characters the C runtime compares. *)
Lemma upper_case_tolower (a b : ascii) :
  (upper_case a =? upper_case b)%N = true
  <-> tolower (Z.of_N (N_of_ascii a)) = tolower (Z.of_N (N_of_ascii b)).
Proof.
  unfold upper_case, tolower. rewrite N.eqb_eq.
  pose proof (N_ascii_bounded a) as Ha. pose proof (N_ascii_bounded b) as Hb.
  set (x := N_of_ascii a) in *. set (y := N_of_ascii b) in *.
  destruct (97 <=? x)%N eqn:A1; destruct (x <=? 122)%N eqn:A2;
    destruct (97 <=? y)%N eqn:B1; destruct (y <=? 122)%N eqn:B2;
    destruct (65 <=? Z.of_N x) eqn:C1; destruct (Z.of_N x <=? 90) eqn:C2;
    destruct (65 <=? Z.of_N y) eqn:D1; destruct (Z.of_N y <=? 90) eqn:D2;
    cbn [andb];
    try apply N.leb_le in A1; try apply N.leb_gt in A1;
    try apply N.leb_le in A2; try apply N.leb_gt in A2;
    try apply N.leb_le in B1; try apply N.leb_gt in B1;
    try apply N.leb_le in B2; try apply N.leb_gt in B2;
    try apply Z.leb_le in C1; try apply Z.leb_gt in C1;
    try apply Z.leb_le in C2; try apply Z.leb_gt in C2;
    try apply Z.leb_le in D1; try apply Z.leb_gt in D1;
    try apply Z.leb_le in D2; try apply Z.leb_gt in D2;
    lia.
Qed.

Lemma equal_ignoring_case_lowered (s t : string) :
  equal_ignoring_case s t = true <-> lowered s = lowered t.
Proof.
  revert t. induction s as [| a s IH]; intros [| b t]; cbn [equal_ignoring_case lowered].
  - tauto.
  - split; intro H; discriminate H.
  - split; intro H; discriminate H.
  - rewrite andb_true_iff, upper_case_tolower, IH. split.
    + intros [H1 H2]. rewrite H1, H2. reflexivity.
    + intro H. inversion H. auto.
Qed.

Lemma begins_with_matches_prefix (prefix subject : string) :
  begins_with_ignoring_case prefix subject = true <-> matches_prefix prefix subject.
Proof. apply equal_ignoring_case_lowered. Qed.

Lemma subject_accepted_ignoring_case (s : TSTR) :
  subject_accepted s = true
  <-> exists p, In p allow_list /\ begins_with_ignoring_case p s = true.
Proof.
  rewrite subject_accepted_allow_list. split; intros (p & Hin & Hm); exists p;
    (split; [exact Hin | apply begins_with_matches_prefix; exact Hm]).
Qed.

(** C2, in the build [tgb_is_signed] is written for: with the status of the
    trust verification and the subject name the extraction delivered,
    [tgb_is_signed] answers true exactly when the status is [Success] and
    the first characters of the subject name are those of a prefix of the
    allow-list, letter case aside, over exactly the length of that prefix;
    it answers true or false; and a subject name that carries a prefix
    further in, as "Not TheGreenBow Inc" does, gets false. *)
Theorem C2_publisher_policy
        (World : Type) (h : Platform World) (w : World)
        (path : TSTR) (lStatus : Z) (w1 : World) (tr1 : list Event)
        (pInfo : SPROG_SIGNATUREINFO) (w2 : World) (tr2 : list Event) (s : TSTR)
        (Hpath : has_nul path = false)
        (Hv : run h (SD_VerifyEmbeddedSignature false path) w
              = (Returned lStatus, w1, tr1))
        (He : run h (SD_GetAuthenticodeInformation false path ZeroMemory_info) w1
              = (Returned (true, pInfo), w2, tr2))
        (Hs : lpszSubjectName pInfo = Some s) :
  let verdict := outcome_of (run h (tgb_is_signed false [PyUnicode path]) w) in
  (verdict = Returned (Some (PyBool true)) <->
   TrustResult_of lStatus = Success
   /\ exists p, In p allow_list /\ begins_with_ignoring_case p s = true)
  /\ (verdict = Returned (Some (PyBool true))
      \/ verdict = Returned (Some (PyBool false)))
  /\ (s = "Not TheGreenBow Inc" -> verdict = Returned (Some (PyBool false))).
Proof.
  intro verdict. subst verdict.
  rewrite (run_tgb_is_signed false h w path Hpath), Hv. cbn [negb andb].
  rewrite TrustResult_of_Success, <- subject_accepted_ignoring_case.
  destruct (lStatus =? ERROR_SUCCESS) eqn:E.
  - apply Z.eqb_eq in E. rewrite He, Hs. unfold outcome_of. cbn [fst].
    split; [| split].
    + split.
      * intro H. inversion H. auto.
      * intros [_ H]. rewrite H. reflexivity.
    + destruct (subject_accepted s); auto.
    + intro Hn. subst s. reflexivity.
  - apply Z.eqb_neq in E. unfold outcome_of. cbn [fst].
    split; [| split].
    + split; [intro H; discriminate H | intros [H _]; contradiction].
    + auto.
    + reflexivity.
Qed.

(** C9, in the build [tgb_is_signed] is written for: once the trust
    verification has succeeded and the extraction has delivered a subject
    name, [tgb_is_signed] answers true exactly when the first 11 characters
    of the name are "TheGreenBow" or its first 7 characters are "SISTECH",
    letter case aside, and false otherwise.  This holds on every platform
    and in every platform state: nothing outside the function supplies the
    prefixes. *)
Theorem C9_two_hardcoded_prefixes
        (World : Type) (h : Platform World) (w : World)
        (path : TSTR) (w1 : World) (tr1 : list Event)
        (pInfo : SPROG_SIGNATUREINFO) (w2 : World) (tr2 : list Event) (s : TSTR)
        (Hpath : has_nul path = false)
        (Hv : run h (SD_VerifyEmbeddedSignature false path) w
              = (Returned ERROR_SUCCESS, w1, tr1))
        (He : run h (SD_GetAuthenticodeInformation false path ZeroMemory_info) w1
              = (Returned (true, pInfo), w2, tr2))
        (Hs : lpszSubjectName pInfo = Some s) :
  let verdict := outcome_of (run h (tgb_is_signed false [PyUnicode path]) w) in
  (verdict = Returned (Some (PyBool true)) <->
   equal_ignoring_case (substring 0 11 s) "TheGreenBow" = true
   \/ equal_ignoring_case (substring 0 7 s) "SISTECH" = true)
  /\ (verdict <> Returned (Some (PyBool true)) ->
      verdict = Returned (Some (PyBool false))).
Proof.
  intro verdict. subst verdict.
  rewrite (run_tgb_is_signed false h w path Hpath), Hv.
  cbn [Z.eqb ERROR_SUCCESS negb andb]. rewrite He, Hs. unfold outcome_of. cbn [fst].
  pose proof (strnicmp_matches_prefix "TheGreenBow" eq_refl s) as H1.
  pose proof (strnicmp_matches_prefix "SISTECH" eq_refl s) as H2.
  rewrite <- begins_with_matches_prefix in H1, H2.
  unfold begins_with_ignoring_case in H1, H2. cbn [String.length] in H1, H2.
  rewrite <- H1, <- H2. clear H1 H2.
  unfold subject_accepted.
  rewrite <- !Z.eqb_eq, <- orb_true_iff.
  destruct (_ || _); split.
  - tauto.
  - intro H. contradiction H. reflexivity.
  - split; intro H; discriminate H.
  - reflexivity.
Qed.

(** ** Paths that do not fit the buffer *)

Lemma length_substring_0 (n : nat) (s : string) :
  String.length (substring 0 n s) = Nat.min n (String.length s).
Proof.
  revert s. induction n as [| n IH]; intro s.
  - rewrite substring_0_0. reflexivity.
  - destruct s as [| c s]; [reflexivity |].
    cbn [substring String.length Nat.min]. rewrite IH. reflexivity.
Qed.

Lemma wszFileName_of_long (UNICODE : bool) (path : TSTR) :
  MAX_PATH <= Z.of_nat (String.length path) ->
  wszFileName_of UNICODE path = truncated path.
Proof.
  intro Hlong. unfold wszFileName_of, truncated, mbstowcs_s_TRUNCATE.
  destruct UNICODE; [reflexivity |].
  destruct (Z.of_nat (String.length path) <? MAX_PATH) eqn:E; [| reflexivity].
  apply Z.ltb_lt in E. lia.
Qed.

Lemma convert_FileName_long (path : TSTR) :
  MAX_PATH <= Z.of_nat (String.length path) ->
  convert_FileName false path = None.
Proof.
  intro Hlong. unfold convert_FileName, mbstowcs_s_TRUNCATE.
  destruct (Z.of_nat (String.length path) <? MAX_PATH) eqn:E; [| reflexivity].
  apply Z.ltb_lt in E. lia.
Qed.

(** C10, as the code has it: for a path of [MAX_PATH] characters or more the
    trust verification makes its passes on the first [MAX_PATH - 1]
    characters.  In a [UNICODE] build the extraction opens that truncated
    name as well.  In the build without [UNICODE] the extraction takes the
    truncation the conversion reports as a failure: it makes no platform
    call and reports failure, so [tgb_is_signed] answers false for such a
    path whatever the platform holds under the truncated name. *)
Theorem C10_long_path_truncated_then_rejected
        (UNICODE : bool) (World : Type) (h : Platform World) (w : World)
        (path : TSTR)
        (Hlong : MAX_PATH <= Z.of_nat (String.length path)) :
  String.length (truncated path) = Z.to_nat (MAX_PATH - 1)
  /\ (exists r1,
         attempts (trace_of (run h (SD_VerifyEmbeddedSignature UNICODE path) w))
         = [Ev (CacheOnlyAttempt (truncated path)) r1]
         \/ exists r2,
           attempts (trace_of (run h (SD_VerifyEmbeddedSignature UNICODE path) w))
           = [Ev (CacheOnlyAttempt (truncated path)) r1;
              Ev (NetworkAttempt (truncated path)) r2])
  /\ (UNICODE = true ->
      forall w1 pInfo, exists r rest,
        trace_of (run h (SD_GetAuthenticodeInformation UNICODE path pInfo) w1)
        = Ev (CryptQueryObject (truncated path)) r :: rest)
  /\ (UNICODE = false ->
      (forall w1 pInfo,
          run h (SD_GetAuthenticodeInformation UNICODE path pInfo) w1
          = (Returned (false, pInfo), w1, []))
      /\ (has_nul path = false ->
          outcome_of (run h (tgb_is_signed UNICODE [PyUnicode path]) w)
          = Returned (Some (PyBool false)))).
Proof.
  split; [| split; [| split]].
  - unfold truncated. rewrite length_substring_0. unfold MAX_PATH in *. lia.
  - rewrite SD_Verify_file, (wszFileName_of_long UNICODE path Hlong).
    destruct (run_verify_passes h 1 (truncated path) w) as (w' & tr & Ha & E).
    rewrite E. eexists.
    destruct (terminal_at_once _); [left | right; eexists];
      unfold trace_of, attempts in *;
      cbn [snd filter is_WinVerifyTrust CacheOnlyAttempt NetworkAttempt];
      rewrite Ha; reflexivity.
  - intros HU w1 pInfo. subst UNICODE.
    unfold SD_GetAuthenticodeInformation, convert_FileName, lstrcpynW.
    fold (truncated path). cbn [run bind call]. answer h.
    destruct r as [[hStore hMsg] |].
    + destruct (run h _ w0) as [[o w2] tr]. do 2 eexists. reflexivity.
    + do 2 eexists. reflexivity.
  - intro HU. subst UNICODE.
    assert (Hx : forall w1 pInfo,
               run h (SD_GetAuthenticodeInformation false path pInfo) w1
               = (Returned (false, pInfo), w1, [])).
    { intros w1 pInfo. unfold SD_GetAuthenticodeInformation.
      rewrite (convert_FileName_long path Hlong). reflexivity. }
    split; [exact Hx |].
    intro Hnul. rewrite (run_tgb_is_signed false h w path Hnul).
    destruct (run h (SD_VerifyEmbeddedSignature false path) w) as [[[lStatus | x] w1] tr1] eqn:Ev.
    + destruct (lStatus =? ERROR_SUCCESS); [rewrite Hx |]; reflexivity.
    + destruct (SD_Verify_returns false h w path) as [l Hl].
      rewrite Ev in Hl. discriminate Hl.
Qed.

(** ** The loop needs no more fuel *)

Lemma last_pass_any_fuel {World : Type} (h : Platform World) (fuel : nat)
      (f : WSTR) (d : bool) (c : Z) (w : World) :
  (c + 1 <? 2) = false ->
  run h (verify_passes fuel f d c) w = run h (verify_passes 0 f d c) w.
Proof.
  intro H. destruct fuel; [reflexivity |].
  cbn [verify_passes bind call run].
  destruct (h Z _ w) as [r1 w1]. rewrite !run_bind.
  destruct (run h (switch_lStatus r1 d) w1) as [[[d' | x] w2] tr]; [| reflexivity].
  rewrite H, andb_false_r. reflexivity.
Qed.

Lemma verify_passes_unfold (fuel : nat) (f : WSTR) (d : bool) (c : Z) :
  verify_passes fuel f d c =
  (lStatus <- call (WinVerifyTrust WINTRUST_ACTION_GENERIC_VERIFY_V2
                                   (WinTrustData_of f d)) ;;
   d' <- switch_lStatus lStatus d ;;
   if d' && (c + 1 <? 2)
   then match fuel with
        | O => Ret lStatus
        | S fuel' => verify_passes fuel' f d' (c + 1)
        end
   else Ret lStatus).
Proof. destruct fuel; reflexivity. Qed.

(** Two passes are all the loop can make: with any larger fuel the run is
    the one of [SD_VerifyEmbeddedSignature]. *)
Lemma verify_passes_fuel_suffices {World : Type} (h : Platform World) (n : nat)
      (f : WSTR) (w : World) :
  run h (verify_passes (2 + n) f false 0) w = run h (verify_passes 2 f false 0) w.
Proof.
  rewrite (verify_passes_unfold (2 + n)), (verify_passes_unfold 2).
  cbn [Nat.add bind call run].
  destruct (h Z _ w) as [r1 w1]. rewrite !run_bind.
  destruct (run h (switch_lStatus r1 false) w1) as [[[d | x] w2] tr]; [| reflexivity].
  destruct (d && (0 + 1 <? 2)); [| reflexivity].
  rewrite (last_pass_any_fuel h (S n) f d (0 + 1) w2 eq_refl).
  rewrite (last_pass_any_fuel h 1 f d (0 + 1) w2 eq_refl). reflexivity.
Qed.

(** ** The claims on concrete platforms *)

(** C1 fails as stated: on a platform whose store does not hold the
    signer's certificate the extraction reports success and leaves the
    serial number, the issuer name and the subject name empty. *)
Lemma C1_success_with_empty_certificate_fields :
  (exists pInfo',
      outcome_of (run (scenario_platform signer_certificate_missing)
                      (SD_GetAuthenticodeInformation false vpn_dll ZeroMemory_info)
                      0%nat)
      = Returned (true, pInfo')
      /\ lpSerialNumber pInfo' = None
      /\ lpszIssuerName pInfo' = None
      /\ lpszSubjectName pInfo' = None)
  /\ ~ extraction_is_atomic false (scenario_platform signer_certificate_missing)
                            0%nat vpn_dll.
Proof.
  split.
  - eexists. split; [vm_compute; reflexivity |]. repeat split.
  - intro H.
    destruct (H _ ltac:(vm_compute; reflexivity)) as [Hs _].
    apply Hs. reflexivity.
Qed.

(** When the certificate has no issuer display name the extraction reports
    success with the serial number and the subject name and no issuer
    name. *)
Lemma C1_witness_issuer_name_missing :
  outcome_of (run (scenario_platform issuer_name_missing)
                  (SD_GetAuthenticodeInformation false vpn_dll ZeroMemory_info)
                  0%nat)
  = Returned (true, info_without_issuer)
  /\ lpSerialNumber info_without_issuer = Some (certSerialNumber the_cert)
  /\ lpszIssuerName info_without_issuer = None
  /\ lpszSubjectName info_without_issuer = Some "TheGreenBow Networks".
Proof.
  assert (H : outcome_of (run (scenario_platform issuer_name_missing)
                              (SD_GetAuthenticodeInformation false vpn_dll ZeroMemory_info)
                              0%nat)
              = Returned (true, info_without_issuer))
    by (vm_compute; reflexivity).
  split; [exact H |].
  destruct (C1_certificate_fields_are_best_effort
              false nat (scenario_platform issuer_name_missing) 0%nat vpn_dll
              info_without_issuer H) as (H1 & H2 & H3 & _).
  rewrite H1, H2, H3. vm_compute. repeat split.
Defined.

(** A validly signed file whose subject name spells the prefix in upper
    case is trusted. *)
Lemma C2_witness_upper_case_subject :
  outcome_of (run (scenario_platform signed_by_THEGREENBOW)
                  (tgb_is_signed false [PyUnicode vpn_dll]) 0%nat)
  = Returned (Some (PyBool true)).
Proof.
  refine (proj2 (proj1 (C2_publisher_policy
                          nat (scenario_platform signed_by_THEGREENBOW) 0%nat
                          vpn_dll ERROR_SUCCESS _ _ _ _ _ "THEGREENBOW sas"
                          _ _ _ _)) _).
  - reflexivity.
  - vm_compute. reflexivity.
  - vm_compute. reflexivity.
  - reflexivity.
  - split; [reflexivity |].
    exists "TheGreenBow". split; [left; reflexivity | reflexivity].
Defined.

(** A chain that only the network pass can build: two passes, then the
    extraction and a true answer. *)
Lemma C4_witness_chain_not_cached :
  attempts (trace_of (run (scenario_platform chain_not_cached)
                          (SD_VerifyEmbeddedSignature false vpn_dll) 0%nat))
  = [Ev (CacheOnlyAttempt vpn_dll) CERT_E_CHAINING;
     Ev (NetworkAttempt vpn_dll) ERROR_SUCCESS]
  /\ outcome_of (run (scenario_platform chain_not_cached)
                     (tgb_is_signed false [PyUnicode vpn_dll]) 0%nat)
     = Returned (Some (PyBool true)).
Proof.
  destruct (C4_one_retry_after_chaining_failure
              false nat (scenario_platform chain_not_cached) 0%nat vpn_dll
              eq_refl ltac:(vm_compute; reflexivity))
    as (_ & Ha & _ & Hs).
  split; [exact Ha |].
  destruct (Hs eq_refl) as (Hsuccess & _).
  destruct (Hsuccess eq_refl) as (_ & Hacc & _).
  exact (Hacc info_with_issuer "TheGreenBow Networks"
              ltac:(vm_compute; reflexivity) eq_refl).
Defined.

(** C5 at the failing input: the trust verification succeeds, the
    extraction reports success although the store does not hold the
    signer's certificate, and [tgb_is_signed] hands the [NULL] subject name
    to the comparison: the call ends in the invalid-parameter fault instead
    of answering false. *)
Theorem C5_missing_certificate_faults_instead_of_false :
  let h := scenario_platform signer_certificate_missing in
  let verification := run h (SD_VerifyEmbeddedSignature false vpn_dll) 0%nat in
  let extraction :=
    run h (SD_GetAuthenticodeInformation false vpn_dll ZeroMemory_info)
        (world_of verification) in
  outcome_of verification = Returned ERROR_SUCCESS
  /\ (exists pInfo',
         outcome_of extraction = Returned (true, pInfo')
         /\ lpszSubjectName pInfo' = None)
  /\ outcome_of (run h (tgb_is_signed false [PyUnicode vpn_dll]) 0%nat)
     = Faulted InvalidParameter.
Proof.
  cbv zeta. split; [vm_compute; reflexivity |].
  split; [| vm_compute; reflexivity].
  eexists. split; [vm_compute; reflexivity | reflexivity].
Qed.

(** C7 fails as stated.  In the build without [UNICODE], on a platform that
    opens every file as a signed object and answers every query, the
    extraction of a path of [MAX_PATH] characters reports failure without
    a single platform call.  And when the buffer for the signer info is not
    allocated, the extraction reports failure although the file was opened,
    the size query was answered and no fetch was made.  Neither run shows
    [QueryFailed] or [SignerInfoUnavailable]. *)
Lemma C7_failure_without_query_or_signer_info_failure :
  (run (scenario_platform signed_by_TheGreenBow)
       (SD_GetAuthenticodeInformation false long_path ZeroMemory_info) 0%nat
   = (Returned (false, ZeroMemory_info), 0%nat, [])
   /\ ~ extraction_fails_exactly_on_query_or_signer_info
        false (scenario_platform signed_by_TheGreenBow) 0%nat long_path)
  /\ (run (scenario_platform out_of_local_memory)
          (SD_GetAuthenticodeInformation false vpn_dll ZeroMemory_info) 0%nat
      = (Returned (false, ZeroMemory_info), 5%nat,
         [Ev (CryptQueryObject vpn_dll) (Some (11, 12));
          Ev (CryptMsgGetParam_size 12) (Some 64);
          Ev (LocalAlloc 64) false;
          Ev (CertCloseStore 11) tt;
          Ev (CryptMsgClose 12) tt])
      /\ ~ extraction_fails_exactly_on_query_or_signer_info
           false (scenario_platform out_of_local_memory) 0%nat vpn_dll).
Proof.
  assert (E1 : run (scenario_platform signed_by_TheGreenBow)
                   (SD_GetAuthenticodeInformation false long_path ZeroMemory_info) 0%nat
               = (Returned (false, ZeroMemory_info), 0%nat, []))
    by (vm_compute; reflexivity).
  assert (E2 : run (scenario_platform out_of_local_memory)
                   (SD_GetAuthenticodeInformation false vpn_dll ZeroMemory_info) 0%nat
               = (Returned (false, ZeroMemory_info), 5%nat,
                  [Ev (CryptQueryObject vpn_dll) (Some (11, 12));
                   Ev (CryptMsgGetParam_size 12) (Some 64);
                   Ev (LocalAlloc 64) false;
                   Ev (CertCloseStore 11) tt;
                   Ev (CryptMsgClose 12) tt]))
    by (vm_compute; reflexivity).
  split; (split; [assumption |]);
    unfold extraction_fails_exactly_on_query_or_signer_info, QueryFailed,
      SignerInfoUnavailable;
    [rewrite E1 | rewrite E2];
    unfold outcome_of, trace_of; cbn [fst snd];
    intros [H _];
    destruct (H (ex_intro _ ZeroMemory_info eq_refl)) as [[f A] | [A | [n A]]];
    discriminate A.
Qed.

(** A subject name that begins with "sistech" in lower case is accepted. *)
Lemma C9_witness_sistech_lower_case :
  outcome_of (run (scenario_platform signed_by_sistech)
                  (tgb_is_signed false [PyUnicode vpn_dll]) 0%nat)
  = Returned (Some (PyBool true)).
Proof.
  refine (proj2 (proj1 (C9_two_hardcoded_prefixes
                          nat (scenario_platform signed_by_sistech) 0%nat
                          vpn_dll _ _ _ _ _ "sistech sa" _ _ _ _)) _).
  - reflexivity.
  - vm_compute. reflexivity.
  - vm_compute. reflexivity.
  - reflexivity.
  - right. reflexivity.
Defined.

(** C10 fails as stated: in the build without [UNICODE] the extraction of a
    path of [MAX_PATH] characters makes no call on the truncated path; it
    reports failure, and [tgb_is_signed] answers false although the
    platform holds a validly signed file under the truncated name. *)
Lemma C10_extraction_rejects_long_path :
  trace_of (run (scenario_platform signed_by_TheGreenBow)
                (SD_GetAuthenticodeInformation false long_path ZeroMemory_info)
                0%nat) = []
  /\ outcome_of (run (scenario_platform signed_by_TheGreenBow)
                     (tgb_is_signed false [PyUnicode long_path]) 0%nat)
     = Returned (Some (PyBool false))
  /\ ~ both_operate_on_truncated_path
       false (scenario_platform signed_by_TheGreenBow) 0%nat long_path.
Proof.
  split; [vm_compute; reflexivity |].
  split; [vm_compute; reflexivity |].
  intros [_ H]. destruct (H 0%nat) as (r & rest & E).
  vm_compute in E. discriminate E.
Qed.

(** A path of [MAX_PATH] characters in the build without [UNICODE]. *)
Lemma C10_witness_long_path :
  String.length (truncated long_path) = 259%nat
  /\ (forall w1 pInfo,
         run (scenario_platform signed_by_TheGreenBow)
             (SD_GetAuthenticodeInformation false long_path pInfo) w1
         = (Returned (false, pInfo), w1, []))
  /\ outcome_of (run (scenario_platform signed_by_TheGreenBow)
                     (tgb_is_signed false [PyUnicode long_path]) 0%nat)
     = Returned (Some (PyBool false)).
Proof.
  destruct (C10_long_path_truncated_then_rejected
              false nat (scenario_platform signed_by_TheGreenBow) 0%nat long_path
              ltac:(vm_compute; discriminate))
    as (Hl & _ & _ & Hf).
  destruct (Hf eq_refl) as [Hx Hv].
  split; [exact Hl |]. split; [exact Hx | exact (Hv eq_refl)].
Defined.

(** ** Further runs *)

Example unsigned_file_one_pass :
  run (scenario_platform unsigned_file)
      (tgb_is_signed false [PyUnicode vpn_dll]) 0%nat
  = (Returned (Some (PyBool false)), 2%nat,
     [Ev (CacheOnlyAttempt vpn_dll) TRUST_E_NOSIGNATURE;
      Ev GetLastError 0]).
Proof. vm_compute. reflexivity. Qed.

Example prefix_further_in_is_refused :
  outcome_of (run (scenario_platform
                     (with_subject (20, "Not TheGreenBow Inc") signed_by_TheGreenBow))
                  (tgb_is_signed false [PyUnicode vpn_dll]) 0%nat)
  = Returned (Some (PyBool false)).
Proof. vm_compute. reflexivity. Qed.

Example no_opus_attribute_still_trusted :
  outcome_of (run (scenario_platform
                     (with_signer (Some signer_without_opus) signed_by_TheGreenBow))
                  (SD_GetAuthenticodeInformation false vpn_dll ZeroMemory_info) 0%nat)
  = Returned (true,
              mkInfo None None None 2 (Some [x2a; x01]) (Some "Some CA")
                     (Some "TheGreenBow Networks"))
  /\ outcome_of (run (scenario_platform
                        (with_signer (Some signer_without_opus) signed_by_TheGreenBow))
                     (tgb_is_signed false [PyUnicode vpn_dll]) 0%nat)
     = Returned (Some (PyBool true)).
Proof. split; vm_compute; reflexivity. Qed.

Example not_a_text_argument :
  run (scenario_platform signed_by_TheGreenBow)
      (tgb_is_signed false [PyOther]) 0%nat
  = (Returned None, 0%nat, []).
Proof. reflexivity. Qed.

(** ** Which calls each function makes, and what it keeps allocated *)

Lemma uses_only_app (allowed : Kind -> bool) (tr1 tr2 : list Event) :
  uses_only allowed (tr1 ++ tr2) = uses_only allowed tr1 && uses_only allowed tr2.
Proof. unfold uses_only. apply forallb_app. Qed.

Lemma uses_only_weaken (a b : Kind -> bool) (tr : list Event) :
  (forall k, a k = true -> b k = true) ->
  uses_only a tr = true -> uses_only b tr = true.
Proof.
  intros Hab. unfold uses_only. rewrite !forallb_forall.
  intros H ev Hin. apply Hab, H, Hin.
Qed.

Lemma count_events_app (p : Event -> bool) (tr1 tr2 : list Event) :
  count_events p (tr1 ++ tr2) = (count_events p tr1 + count_events p tr2)%nat.
Proof.
  induction tr1 as [| ev tr1 IH]; [reflexivity |].
  cbn [app count_events]. rewrite IH. lia.
Qed.

Lemma count_events_none (p : Event -> bool) (allowed : Kind -> bool)
      (tr : list Event) :
  (forall ev, allowed (kind_of ev) = true -> p ev = false) ->
  uses_only allowed tr = true -> count_events p tr = 0%nat.
Proof.
  intros Hp. unfold uses_only.
  induction tr as [| ev tr IH]; [reflexivity |].
  cbn [forallb count_events]. intro H. apply andb_prop in H. destruct H as [H1 H2].
  rewrite (Hp ev H1), (IH H2). reflexivity.
Qed.

Lemma decode_opus_attribute_accounting {World : Type} (h : Platform World)
      (attr : CRYPT_ATTRIBUTE) (pInfo : SPROG_SIGNATUREINFO) (w : World) :
  strings_held pInfo = 0%nat ->
  exists pInfo' w' tr,
    run h (decode_opus_attribute attr pInfo) w = (Returned pInfo', w', tr)
    /\ uses_only opus_kind tr = true
    /\ count_events is_LocalAlloc_ok tr
       = (count_events (is_kind KLocalFree) tr + strings_held pInfo')%nat
    /\ (count_events (is_kind KCryptDecodeObject_size) tr = 1)%nat
    /\ forall opus,
        opus_decoded tr = Some opus ->
        every_LocalAlloc_ok tr = true ->
        lpszProgramName pInfo' = pwszProgramName opus
        /\ lpszPublisherLink pInfo' = link_text (pPublisherInfo opus)
        /\ lpszMoreInfoLink pInfo' = link_text (pMoreInfo opus).
Proof.
  intro Hzero.
  unfold decode_opus_attribute, AllocateAndCopyWideString.
  cbn [run bind call]. answer h. destruct r as [dwData |]; cbn [run bind call].
  2: { do 3 eexists. split; [reflexivity |].
       split; [reflexivity |]. split; [rewrite Hzero; reflexivity |].
       split; [reflexivity |]. discriminate. }
  answer h. destruct r; cbn [run bind call negb].
  2: { do 3 eexists. split; [reflexivity |].
       split; [reflexivity |]. split; [rewrite Hzero; reflexivity |].
       split; [reflexivity |]. discriminate. }
  answer h. destruct r as [opus |]; cbn [run bind call].
  2: { answer h. do 3 eexists. split; [reflexivity |].
       split; [reflexivity |]. split; [rewrite Hzero; reflexivity |].
       split; [reflexivity |]. discriminate. }
  destruct opus as [name more publisher].
  cbn [pwszProgramName pPublisherInfo pMoreInfo].
  destruct name as [s |]; cbn [run bind call]; [alloc_step h |];
    (destruct publisher as [lp |];
     [destruct (dwLinkChoice lp =? SPC_URL_LINK_CHOICE) eqn:Ep1;
      [alloc_step h
      | destruct (dwLinkChoice lp =? SPC_FILE_LINK_CHOICE) eqn:Ep2;
        [alloc_step h | cbn [run bind call]]]
     | cbn [run bind call]]);
    (destruct more as [lm |];
     [destruct (dwLinkChoice lm =? SPC_URL_LINK_CHOICE) eqn:Em1;
      [alloc_step h
      | destruct (dwLinkChoice lm =? SPC_FILE_LINK_CHOICE) eqn:Em2;
        [alloc_step h | cbn [run bind call]]]
     | cbn [run bind call]]);
    answer h;
    (do 3 eexists; split; [reflexivity |];
     split; [reflexivity |];
     split; [reflexivity |];
     split; [reflexivity |];
     intros o Ho Hall; cbn in Ho; inversion Ho; subst o;
     cbn in Hall; try discriminate Hall;
     unfold link_text; cbn [pwszProgramName pPublisherInfo pMoreInfo];
     rewrite ?Ep1, ?Ep2, ?Em1, ?Em2; repeat split).
Qed.

Lemma GetProgAndPublisherInfo_accounting {World : Type} (h : Platform World)
      (pSignerInfo : CMSG_SIGNER_INFO) (pInfo : SPROG_SIGNATUREINFO) (w : World) :
  strings_held pInfo = 0%nat ->
  exists pInfo' w' tr,
    run h (GetProgAndPublisherInfo pSignerInfo pInfo) w = (Returned pInfo', w', tr)
    /\ uses_only opus_kind tr = true
    /\ count_events is_LocalAlloc_ok tr
       = (count_events (is_kind KLocalFree) tr + strings_held pInfo')%nat
    /\ (count_events (is_kind KCryptDecodeObject_size) tr <= 1)%nat
    /\ forall opus,
        opus_decoded tr = Some opus ->
        every_LocalAlloc_ok tr = true ->
        lpszProgramName pInfo' = pwszProgramName opus
        /\ lpszPublisherLink pInfo' = link_text (pPublisherInfo opus)
        /\ lpszMoreInfoLink pInfo' = link_text (pMoreInfo opus).
Proof.
  intro Hzero. unfold GetProgAndPublisherInfo.
  induction (AuthAttrs pSignerInfo) as [| attr rest IH]; cbn [scan_AuthAttrs].
  - exists pInfo, w, []. split; [reflexivity |]. split; [reflexivity |].
    split; [rewrite Hzero; reflexivity |]. split; [cbn; lia |]. discriminate.
  - destruct (String.eqb SPC_SP_OPUS_INFO_OBJID (pszObjId attr)).
    + destruct (decode_opus_attribute_accounting h attr pInfo w Hzero)
        as (p & w' & tr & E & H1 & H2 & H3 & H4).
      exists p, w', tr. rewrite H3. repeat split; auto; apply (H4 opus); assumption.
    + exact IH.
Qed.

(** The certificate reader from a structure that holds no buffer: what it
    allocates it leaves in the structure, it releases the certificate
    context it found, and its only fault is the copy of the serial number
    into a buffer that was not allocated. *)
Lemma GetCertificateInfo_accounting {World : Type} (UNICODE : bool)
      (h : Platform World) (hStore : HCERTSTORE) (pSignerInfo : CMSG_SIGNER_INFO)
      (pInfo : SPROG_SIGNATUREINFO) (w : World) :
  buffers_held pInfo = 0%nat ->
  exists o w' tr,
    run h (GetCertificateInfo UNICODE hStore pSignerInfo pInfo) w = (o, w', tr)
    /\ uses_only certificate_kind tr = true
    /\ (forall pInfo',
           o = Returned pInfo' ->
           count_events is_VirtualAlloc_ok tr = buffers_held pInfo'
           /\ count_events (is_kind KCertFreeCertificateContext) tr
              = held (certificate_found tr)
           /\ strings_held pInfo' = strings_held pInfo)
    /\ (forall f,
           o = Faulted f ->
           f = NullDestination
           /\ count_events (is_kind KCertFreeCertificateContext) tr = 0%nat
           /\ exists cert pre,
               certificate_found tr = Some cert
               /\ tr = pre ++ [Ev (VirtualAlloc
                                     (Z.of_nat (List.length (certSerialNumber cert))))
                                  false]).
Proof.
  intro Hzero.
  assert (Hser : lpSerialNumber pInfo = None)
    by (unfold buffers_held in Hzero; destruct (lpSerialNumber pInfo); [discriminate | reflexivity]).
  assert (Hiss : lpszIssuerName pInfo = None)
    by (unfold buffers_held in Hzero; rewrite Hser in Hzero;
        destruct (lpszIssuerName pInfo); [discriminate | reflexivity]).
  assert (Hsub : lpszSubjectName pInfo = None)
    by (unfold buffers_held in Hzero; rewrite Hser, Hiss in Hzero;
        destruct (lpszSubjectName pInfo); [discriminate | reflexivity]).
  unfold GetCertificateInfo, get_IssuerName, get_SubjectName.
  cbn [run bind call]. answer h. answer h.
  destruct r0 as [cert |]; cbn [run bind call].
  2: { answer h. answer h. do 3 eexists. split; [reflexivity |].
       split; [reflexivity |]. split.
       - intros pInfo' E. inversion E; subst pInfo'. rewrite Hzero. repeat split.
       - intros f E. discriminate E. }
  answer h. destruct r0; cbn [run bind call negb].
  2: { do 3 eexists. split; [reflexivity |]. split; [reflexivity |]. split.
       - intros pInfo' E. discriminate E.
       - intros f E. inversion E. split; [reflexivity |]. split; [reflexivity |].
         exists cert. eexists. split; [reflexivity |].
         instantiate (1 := [_; _]). reflexivity. }
  answer h. destruct (r0 =? 0); cbn [run bind call];
    [| answer h; destruct r1; cbn [run bind call negb];
       [answer h; destruct r1 as [n1 b1]; cbn [run bind call] |]];
    (answer h;
     match goal with
     | |- context [if ?z =? 0 then _ else _] => destruct (z =? 0)
     end; cbn [run bind call];
     [| answer h;
        match goal with
        | a : bool |- _ => destruct a
        end; cbn [run bind call negb];
        [answer h;
         match goal with
         | a : (Z * TSTR)%type |- _ => destruct a as [n2 b2]
         end; cbn [run bind call] |]]);
    answer h; answer h;
    (do 3 eexists; split; [reflexivity |];
     split; [reflexivity |]; split;
     [ intros pInfo' E; inversion E; subst pInfo';
       unfold buffers_held, strings_held; cbn;
       rewrite ?Hiss, ?Hsub; cbn; repeat split
     | intros f E; discriminate E ]).
Qed.

Lemma buffers_held_zero (i : SPROG_SIGNATUREINFO) :
  lpSerialNumber i = None -> lpszIssuerName i = None -> lpszSubjectName i = None ->
  buffers_held i = 0%nat.
Proof. intros H1 H2 H3. unfold buffers_held. rewrite H1, H2, H3. reflexivity. Qed.

Lemma buffers_held_zero_inv (i : SPROG_SIGNATUREINFO) :
  buffers_held i = 0%nat ->
  lpSerialNumber i = None /\ lpszIssuerName i = None /\ lpszSubjectName i = None.
Proof.
  unfold buffers_held.
  destruct (lpSerialNumber i), (lpszIssuerName i), (lpszSubjectName i);
    cbn; intro H; try discriminate H; auto.
Qed.

Lemma reader_kind_opus (k : Kind) : opus_kind k = true -> reader_kind k = true.
Proof. unfold reader_kind. intro H. rewrite H. reflexivity. Qed.

Lemma reader_kind_certificate (k : Kind) :
  certificate_kind k = true -> reader_kind k = true.
Proof. unfold reader_kind. intro H. rewrite H. apply orb_true_r. Qed.

(** The block of the extraction that runs once the signer info is fetched,
    from a structure that holds nothing: its calls, what it leaves
    allocated (the buffer of the signer info, allocated before the block,
    is released in it), and its only fault. *)
Lemma run_readers_accounting {World : Type} (UNICODE : bool) (h : Platform World)
      (hStore : HCERTSTORE) (pSignerInfo : CMSG_SIGNER_INFO)
      (pInfo : SPROG_SIGNATUREINFO) (w : World) :
  strings_held pInfo = 0%nat ->
  buffers_held pInfo = 0%nat ->
  exists o w' tr,
    run h (pInfo <- GetProgAndPublisherInfo pSignerInfo pInfo ;;
           pInfo <- GetCertificateInfo UNICODE hStore pSignerInfo pInfo ;;
           call LocalFree ;;
           Ret (true, pInfo)) w = (o, w', tr)
    /\ uses_only reader_kind tr = true
    /\ (forall bRet pInfo',
           o = Returned (bRet, pInfo') ->
           (count_events is_LocalAlloc_ok tr + 1
            = count_events (is_kind KLocalFree) tr + strings_held pInfo')%nat
           /\ count_events is_VirtualAlloc_ok tr = buffers_held pInfo'
           /\ count_events (is_kind KCertFreeCertificateContext) tr
              = held (certificate_found tr))
    /\ (forall f,
           o = Faulted f ->
           f = NullDestination
           /\ count_events (is_kind KCertFreeCertificateContext) tr = 0%nat
           /\ exists cert pre,
               certificate_found tr = Some cert
               /\ tr = pre ++ [Ev (VirtualAlloc
                                     (Z.of_nat (List.length (certSerialNumber cert))))
                                  false]).
Proof.
  intros Hs Hb.
  destruct (buffers_held_zero_inv pInfo Hb) as (Hb1 & Hb2 & Hb3).
  destruct (GetProgAndPublisherInfo_spec h pSignerInfo pInfo w)
    as (pInfo1 & w1 & trP & EP & _ & Hser1 & Hiss1 & Hsub1 & HnoP & _).
  destruct (GetProgAndPublisherInfo_accounting h pSignerInfo pInfo w Hs)
    as (pInfo1' & w1' & trP' & EP' & HuP & HaP & _).
  rewrite EP in EP'. inversion EP'; subst pInfo1' w1' trP'. clear EP'.
  rewrite Hb1 in Hser1. rewrite Hb2 in Hiss1. rewrite Hb3 in Hsub1.
  destruct (GetCertificateInfo_accounting UNICODE h hStore pSignerInfo pInfo1 w1
              (buffers_held_zero pInfo1 Hser1 Hiss1 Hsub1))
    as (oC & w2 & trC & EC & HuC & HretC & HfaultC).
  assert (HPv : count_events is_VirtualAlloc_ok trP = 0%nat)
    by (apply (count_events_none _ opus_kind); [by_kind | exact HuP]).
  assert (HPc : count_events (is_kind KCertFreeCertificateContext) trP = 0%nat)
    by (apply (count_events_none _ opus_kind); [by_kind | exact HuP]).
  assert (HCa : count_events is_LocalAlloc_ok trC = 0%nat)
    by (apply (count_events_none _ certificate_kind); [by_kind | exact HuC]).
  assert (HCf : count_events (is_kind KLocalFree) trC = 0%nat)
    by (apply (count_events_none _ certificate_kind); [by_kind | exact HuC]).
  pose proof (uses_only_weaken _ _ trP reader_kind_opus HuP) as HuP'.
  pose proof (uses_only_weaken _ _ trC reader_kind_certificate HuC) as HuC'.
  rewrite run_bind, EP, run_bind, EC.
  destruct oC as [pInfo2 | x].
  - cbn [run bind call]. answer h. do 3 eexists. split; [reflexivity |].
    split.
    { rewrite !uses_only_app, HuP', HuC'. reflexivity. }
    split; [| intros f E; discriminate E].
    intros bRet pInfo' E. inversion E; subst bRet pInfo'.
    destruct (HretC pInfo2 eq_refl) as (H1 & H2 & H3).
    rewrite !count_events_app, !certificate_found_app.
    rewrite (no_certificate_event_found trP HnoP).
    rewrite HPv, HPc, HCa, HCf, H1, H2, H3, HaP. cbn.
    destruct (certificate_found trC); repeat split; lia.
  - do 3 eexists. split; [reflexivity |].
    split.
    { rewrite uses_only_app, HuP', HuC'. reflexivity. }
    split; [intros bRet pInfo' E; discriminate E |].
    intros f E. inversion E; subst f.
    destruct (HfaultC x eq_refl) as (Hx & Hcf & cert & pre & Hc & Htr).
    split; [exact Hx |].
    split; [rewrite count_events_app, HPc, Hcf; reflexivity |].
    exists cert, (trP ++ pre). split.
    + rewrite certificate_found_app, (no_certificate_event_found trP HnoP). exact Hc.
    + rewrite Htr, app_assoc. reflexivity.
Qed.

Lemma extraction_kind_reader (k : Kind) :
  reader_kind k = true -> extraction_kind k = true.
Proof. destruct k; cbn; intro H; try discriminate H; reflexivity. Qed.

(** Everything the later theorems need about one run of the extraction
    from a structure that holds nothing. *)
Lemma run_extraction {World : Type} (UNICODE : bool) (h : Platform World)
      (path : TSTR) (pInfo : SPROG_SIGNATUREINFO) (w : World) :
  strings_held pInfo = 0%nat ->
  buffers_held pInfo = 0%nat ->
  exists o w' tr,
    run h (SD_GetAuthenticodeInformation UNICODE path pInfo) w = (o, w', tr)
    /\ uses_only extraction_kind tr = true
    /\ (forall f r, object_queried tr = Some (f, r) ->
                    convert_FileName UNICODE path = Some f)
    /\ (forall bRet pInfo',
           o = Returned (bRet, pInfo') ->
           count_events is_LocalAlloc_ok tr
           = (count_events (is_kind KLocalFree) tr + strings_held pInfo')%nat
           /\ count_events is_VirtualAlloc_ok tr = buffers_held pInfo'
           /\ count_events (is_kind KCertCloseStore) tr = object_opened tr
           /\ count_events (is_kind KCryptMsgClose) tr = object_opened tr
           /\ count_events (is_kind KCertFreeCertificateContext) tr
              = held (certificate_found tr)
           /\ (bRet = false -> pInfo' = pInfo)
           /\ (bRet = true ->
               object_opened tr = 1%nat
               /\ lpSerialNumber pInfo'
                  = option_map certSerialNumber (certificate_found tr)
               /\ lpszSubjectName pInfo' = name_fetched 0 tr
               /\ (certificate_found tr = None -> name_fetched 0 tr = None)))
    /\ (forall f,
           o = Faulted f ->
           f = NullDestination
           /\ count_events (is_kind KCertCloseStore) tr = 0%nat
           /\ count_events (is_kind KCryptMsgClose) tr = 0%nat
           /\ count_events (is_kind KCertFreeCertificateContext) tr = 0%nat
           /\ exists cert pre,
               certificate_found tr = Some cert
               /\ tr = pre ++ [Ev (VirtualAlloc
                                     (Z.of_nat (List.length (certSerialNumber cert))))
                                  false]).
Proof.
  intros Hs Hb.
  destruct (buffers_held_zero_inv pInfo Hb) as (Hb1 & Hb2 & Hb3).
  unfold SD_GetAuthenticodeInformation.
  destruct (convert_FileName UNICODE path) as [f |].
  2: { do 3 eexists. split; [reflexivity |]. split; [reflexivity |].
       split; [intros f r E; discriminate E |]. split.
       - failed_extraction Hs Hb.
       - intros f E. discriminate E. }
  cbn [run bind call]. answer h.
  destruct r as [[hStore hMsg] |]; cbn [run bind call].
  2: { do 3 eexists. split; [reflexivity |]. split; [reflexivity |].
       split; [intros f0 r E; cbn in E; inversion E; reflexivity |]. split.
       - failed_extraction Hs Hb.
       - intros f0 E. discriminate E. }
  answer h. destruct r as [n |]; cbn [run bind call].
  2: { answer h. answer h.
       do 3 eexists. split; [reflexivity |]. split; [reflexivity |].
       split; [intros f0 r1 E; cbn in E; inversion E; reflexivity |]. split.
       - failed_extraction Hs Hb.
       - intros f0 E. discriminate E. }
  answer h. destruct r; cbn [run bind call negb].
  2: { answer h. answer h.
       do 3 eexists. split; [reflexivity |]. split; [reflexivity |].
       split; [intros f0 r1 E; cbn in E; inversion E; reflexivity |]. split.
       - failed_extraction Hs Hb.
       - intros f0 E. discriminate E. }
  answer h. destruct r as [si |]; cbn [run bind call].
  2: { answer h. answer h. answer h.
       do 3 eexists. split; [reflexivity |]. split; [reflexivity |].
       split; [intros f0 r2 E; cbn in E; inversion E; reflexivity |]. split.
       - failed_extraction Hs Hb.
       - intros f0 E. discriminate E. }
  rewrite run_bind.
  destruct (run_readers UNICODE h hStore si pInfo w3 Hb1 Hb2 Hb3)
    as (o & w4 & tr & E & Hfields).
  destruct (run_readers_accounting UNICODE h hStore si pInfo w3 Hs Hb)
    as (o' & w4' & tr' & E' & Hu & Hacc & Hfault).
  rewrite E in E'. inversion E'; subst o' w4' tr'. clear E'.
  cbn [bind call] in E. rewrite E.
  pose proof (uses_only_weaken _ _ tr extraction_kind_reader Hu) as Hu'.
  assert (Hcs : count_events (is_kind KCertCloseStore) tr = 0%nat)
    by (apply (count_events_none _ reader_kind); [by_kind | exact Hu]).
  assert (Hcm : count_events (is_kind KCryptMsgClose) tr = 0%nat)
    by (apply (count_events_none _ reader_kind); [by_kind | exact Hu]).
  destruct o as [[bRet pInfo2] | x].
  - cbn [run bind call]. answer h. answer h.
    do 3 eexists. split; [reflexivity |]. split.
    { cbn [uses_only forallb kind_of extraction_kind andb].
      fold (uses_only extraction_kind (tr ++ [Ev (CertCloseStore hStore) r;
                                               Ev (CryptMsgClose hMsg) r0])).
      rewrite uses_only_app, Hu'. reflexivity. }
    split; [intros f0 r2 E0; cbn in E0; inversion E0; reflexivity |].
    split; [| intros f0 E0; discriminate E0].
    intros b p E0. inversion E0; subst b p.
    destruct (Hacc bRet pInfo2 eq_refl) as (A1 & A2 & A3).
    destruct (Hfields bRet pInfo2 eq_refl) as (B0 & B1 & _ & B3 & B4).
    subst bRet.
    cbn [count_events is_LocalAlloc_ok is_VirtualAlloc_ok is_kind kind_of
         Kind_eq_dec object_opened object_queried certificate_found name_fetched].
    rewrite !count_events_app, certificate_found_app, name_fetched_app.
    cbn. rewrite Hcs, Hcm, A2, A3, B1, B3.
    destruct (certificate_found tr) eqn:Hc.
    + destruct (name_fetched 0 tr);
        repeat split; try lia; intro E1; discriminate E1.
    + destruct (B4 eq_refl) as [_ B5]. rewrite B5.
      repeat split; try lia; intro E1; discriminate E1.
  - do 3 eexists. split; [reflexivity |]. split.
    { cbn [uses_only forallb kind_of extraction_kind andb]. exact Hu'. }
    split; [intros f0 r2 E0; cbn in E0; inversion E0; reflexivity |].
    split; [intros b p E0; discriminate E0 |].
    intros f0 E0. inversion E0; subst f0.
    destruct (Hfault x eq_refl) as (Hx & Hcf & cert & pre & Hc & Htr).
    split; [exact Hx |].
    cbn [count_events is_kind kind_of Kind_eq_dec certificate_found].
    cbn. rewrite Hcs, Hcm, Hcf. do 3 (split; [reflexivity |]).
    exists cert. eexists. split; [exact Hc |].
    rewrite Htr. rewrite !app_comm_cons. reflexivity.
Qed.

(** ** The calls of the trust verification *)

Lemma run_switch_lStatus_trace {World : Type} (h : Platform World) (lStatus : Z)
      (DoSecondPass : bool) (w : World) :
  exists w' tr,
    run h (switch_lStatus lStatus DoSecondPass) w
    = (Returned (if terminal_at_once (TrustResult_of lStatus)
                 then DoSecondPass else true), w', tr)
    /\ (tr = [] \/ exists e, tr = [Ev GetLastError e]).
Proof.
  unfold switch_lStatus, TrustResult_of.
  repeat match goal with
         | |- context [if ?x =? ?c then _ else _] => destruct (x =? c)
         end; cbn [run bind call terminal_at_once];
    try (do 2 eexists; split; [reflexivity | left; reflexivity]).
  answer h. destruct (_ || _); cbn [run];
    do 2 eexists; (split; [reflexivity | right; eexists; reflexivity]).
Qed.

Lemma GetLastError_tail (seen : option Z) (tr : list Event) :
  tr = [] \/ (exists e, tr = [Ev GetLastError e]) ->
  uses_only verification_kind tr = true
  /\ attempts tr = []
  /\ forall rest, last_status_from seen (tr ++ rest) = last_status_from seen rest.
Proof.
  intros [H | [e H]]; subst tr; repeat split.
Qed.

(** One run of the trust verification: its calls, the passes among them
    and the status it hands back. *)
Lemma run_verification {World : Type} (UNICODE : bool) (h : Platform World)
      (path : TSTR) (w : World) :
  exists lStatus w' tr,
    run h (SD_VerifyEmbeddedSignature UNICODE path) w = (Returned lStatus, w', tr)
    /\ uses_only verification_kind tr = true
    /\ last_status tr = Some lStatus
    /\ Forall (quiet_pass_on (wszFileName_of UNICODE path)) (attempts tr).
Proof.
  rewrite SD_Verify_file. set (f := wszFileName_of UNICODE path).
  rewrite (verify_passes_unfold 2). cbn [bind call run].
  destruct (h Z _ w) as [r1 w1]. rewrite run_bind.
  destruct (run_switch_lStatus_trace h r1 false w1) as (w2 & t1 & E1 & Ht1).
  rewrite E1. destruct (GetLastError_tail (Some r1) t1 Ht1) as (Hu1 & Ha1 & Hl1).
  assert (Q1 : quiet_pass_on f
                 (Ev (WinVerifyTrust WINTRUST_ACTION_GENERIC_VERIFY_V2
                                     (WinTrustData_of f false)) r1)).
  { cbn. repeat split. left. reflexivity. }
  destruct (terminal_at_once (TrustResult_of r1)).
  - cbn [andb run]. do 3 eexists. split; [reflexivity |].
    rewrite app_nil_r. unfold last_status, attempts in *.
    cbn [uses_only forallb kind_of verification_kind andb last_status_from
         filter is_WinVerifyTrust].
    fold (uses_only verification_kind t1). rewrite Hu1, Ha1.
    split; [reflexivity |]. split.
    + rewrite <- (app_nil_r t1), Hl1. reflexivity.
    + constructor; [exact Q1 | constructor].
  - cbn [andb Z.add Z.ltb Z.compare Pos.add Pos.succ Pos.compare Pos.compare_cont].
    rewrite (verify_passes_unfold 1). cbn [bind call run].
    destruct (h Z _ w2) as [r2 w3]. rewrite run_bind.
    destruct (run_switch_lStatus_trace h r2 true w3) as (w4 & t2 & E2 & Ht2).
    rewrite E2. destruct (GetLastError_tail (Some r2) t2 Ht2) as (Hu2 & Ha2 & Hl2).
    assert (D : (if terminal_at_once (TrustResult_of r2) then true else true) = true)
      by (destruct (terminal_at_once _); reflexivity).
    rewrite D. cbn [andb Z.add Z.ltb Z.compare Pos.add Pos.succ Pos.compare
                    Pos.compare_cont run].
    do 3 eexists. split; [reflexivity |].
    rewrite app_nil_r. unfold last_status, attempts in *.
    cbn [uses_only forallb kind_of verification_kind andb last_status_from
         filter is_WinVerifyTrust].
    fold (uses_only verification_kind (t1 ++ Ev (WinVerifyTrust
            WINTRUST_ACTION_GENERIC_VERIFY_V2 (WinTrustData_of f true)) r2 :: t2)).
    rewrite filter_app, Ha1. cbn [app filter is_WinVerifyTrust]. rewrite Ha2.
    rewrite uses_only_app, Hu1.
    cbn [uses_only forallb kind_of verification_kind andb].
    fold (uses_only verification_kind t2). rewrite Hu2.
    split; [reflexivity |]. split.
    + rewrite Hl1. cbn [last_status_from].
      rewrite <- (app_nil_r t2), Hl2. reflexivity.
    + constructor; [exact Q1 |]. constructor; [| constructor].
      cbn. repeat split. right. reflexivity.
Qed.

Lemma last_status_from_app (seen : option Z) (tr1 tr2 : list Event) :
  last_status_from seen (tr1 ++ tr2)
  = last_status_from (last_status_from seen tr1) tr2.
Proof.
  revert seen. induction tr1 as [| [R e r] tr1 IH]; intro seen; [reflexivity |].
  destruct e; cbn [app last_status_from]; apply IH.
Qed.

Lemma last_status_from_extraction (seen : option Z) (tr : list Event) :
  uses_only extraction_kind tr = true -> last_status_from seen tr = seen.
Proof.
  unfold uses_only. induction tr as [| [R e r] tr IH]; [reflexivity |].
  destruct e; cbn [forallb kind_of extraction_kind andb last_status_from];
    try exact IH; discriminate.
Qed.

Lemma attempts_extraction (tr : list Event) :
  uses_only extraction_kind tr = true -> attempts tr = [].
Proof.
  unfold uses_only, attempts. induction tr as [| [R e r] tr IH]; [reflexivity |].
  destruct e; cbn [forallb kind_of extraction_kind andb filter is_WinVerifyTrust];
    try exact IH; discriminate.
Qed.

Lemma verification_shows_no_extraction (tr1 tr2 : list Event) :
  uses_only verification_kind tr1 = true ->
  object_queried (tr1 ++ tr2) = object_queried tr2
  /\ certificate_found (tr1 ++ tr2) = certificate_found tr2
  /\ (forall fl, name_fetched fl (tr1 ++ tr2) = name_fetched fl tr2).
Proof.
  unfold uses_only. induction tr1 as [| [R e r] tr1 IH]; [repeat split |].
  destruct e;
    cbn [forallb kind_of verification_kind andb app object_queried
         certificate_found name_fetched];
    try exact IH; discriminate.
Qed.

Lemma convert_FileName_same (UNICODE : bool) (path : TSTR) (f : WSTR) :
  convert_FileName UNICODE path = Some f -> f = wszFileName_of UNICODE path.
Proof.
  unfold convert_FileName, wszFileName_of, lstrcpynW, mbstowcs_s_TRUNCATE.
  destruct UNICODE.
  - intro E. inversion E. reflexivity.
  - destruct (Z.of_nat (String.length path) <? MAX_PATH); cbn; intro E;
      [inversion E; reflexivity | discriminate E].
Qed.

(** One call of [tgb_is_signed] on a text argument, with what is known
    of its two parts. *)
Lemma run_is_signed {World : Type} (UNICODE : bool) (h : Platform World)
      (path : TSTR) (w : World) :
  has_nul path = false ->
  exists lStatus w1 tr1 o w2 tr2,
    run h (SD_VerifyEmbeddedSignature UNICODE path) w = (Returned lStatus, w1, tr1)
    /\ uses_only verification_kind tr1 = true
    /\ last_status tr1 = Some lStatus
    /\ Forall (quiet_pass_on (wszFileName_of UNICODE path)) (attempts tr1)
    /\ run h (SD_GetAuthenticodeInformation UNICODE path ZeroMemory_info) w1
       = (o, w2, tr2)
    /\ run h (tgb_is_signed UNICODE [PyUnicode path]) w
       = if lStatus =? ERROR_SUCCESS
         then (match o with
               | Returned (true, info) =>
                   match lpszSubjectName info with
                   | Some s =>
                       Returned (Some (PyBool (negb UNICODE && subject_accepted s)))
                   | None => Faulted InvalidParameter
                   end
               | Returned (false, _) => Returned (Some (PyBool false))
               | Faulted x => Faulted x
               end, w2, tr1 ++ tr2)
         else (Returned (Some (PyBool false)), w1, tr1).
Proof.
  intro Hnul.
  destruct (run_verification UNICODE h path w)
    as (lStatus & w1 & tr1 & Hv & Hu & Hl & Hq).
  destruct (run h (SD_GetAuthenticodeInformation UNICODE path ZeroMemory_info) w1)
    as [[o w2] tr2] eqn:Ee.
  exists lStatus, w1, tr1, o, w2, tr2.
  do 4 (split; [assumption |]). split; [exact Ee |].
  rewrite (run_tgb_is_signed UNICODE h w path Hnul), Hv.
  destruct (lStatus =? ERROR_SUCCESS); [| reflexivity].
  rewrite Ee. destruct o as [[[|] info] | x]; reflexivity.
Qed.

(** ** Further properties of the verifier *)

(** X1: the trust verification never faults; it calls nothing but
    [WinVerifyTrust] and [GetLastError]; every pass is made on the converted
    file name with the user interface off, revocation checking off and no
    provider flag but the cache-only one; and the status handed back is the
    answer to the last pass made, whatever made a second pass run. *)
Theorem X1_verification_hands_back_last_quiet_pass
        (UNICODE : bool) (World : Type) (h : Platform World) (w : World)
        (path : TSTR) :
  let r := run h (SD_VerifyEmbeddedSignature UNICODE path) w in
  exists lStatus,
    outcome_of r = Returned lStatus
    /\ last_status (trace_of r) = Some lStatus
    /\ uses_only verification_kind (trace_of r) = true
    /\ Forall (quiet_pass_on (wszFileName_of UNICODE path)) (attempts (trace_of r)).
Proof.
  intro r. subst r.
  destruct (run_verification UNICODE h path w) as (l & w1 & tr1 & E & Hu & Hl & Hq).
  rewrite E. exists l. repeat split; assumption.
Qed.

(** X2: [tgb_is_signed] makes all its verification calls before any
    extraction call, makes no extraction call unless the last pass answered
    [ERROR_SUCCESS], and opens for the extraction the very file name the
    passes were made on. *)
Theorem X2_is_signed_verifies_before_it_extracts
        (UNICODE : bool) (World : Type) (h : Platform World) (w : World)
        (args : list PyObject) :
  let tr := trace_of (run h (tgb_is_signed UNICODE args) w) in
  (exists tr1 tr2,
      tr = tr1 ++ tr2
      /\ uses_only verification_kind tr1 = true
      /\ uses_only extraction_kind tr2 = true
      /\ (last_status tr <> Some ERROR_SUCCESS -> tr2 = []))
  /\ (forall f r,
         object_queried tr = Some (f, r) ->
         last_status tr = Some ERROR_SUCCESS
         /\ Forall (quiet_pass_on f) (attempts tr)).
Proof.
  intro tr. subst tr.
  destruct (PyArg_ParseTuple_s args) as [path |] eqn:Hparse.
  2: { unfold tgb_is_signed. rewrite Hparse. cbn. split.
       - exists [], []. repeat split.
       - intros f r E. discriminate E. }
  assert (Hargs : args = [PyUnicode path] /\ has_nul path = false).
  { unfold PyArg_ParseTuple_s in Hparse.
    destruct args as [| [s | b |] [| a2 rest]]; try discriminate Hparse.
    destruct (has_nul s) eqn:Hn; [discriminate Hparse |].
    inversion Hparse; subst s. auto. }
  destruct Hargs as [Hargs Hnul]. subst args.
  destruct (run_is_signed UNICODE h path w Hnul)
    as (l & w1 & tr1 & o & w2 & tr2 & Hv & Hu1 & Hl & Hq & He & Hw).
  destruct (run_extraction UNICODE h path ZeroMemory_info w1 eq_refl eq_refl)
    as (o' & w2' & tr2' & He' & Hu2 & Hname & _).
  rewrite He in He'. inversion He'; subst o' w2' tr2'. clear He'.
  rewrite Hw. unfold trace_of.
  destruct (verification_shows_no_extraction tr1 tr2 Hu1) as (Hoq & _ & _).
  assert (Hls : last_status (tr1 ++ tr2) = Some l).
  { unfold last_status in *. rewrite last_status_from_app, Hl.
    apply last_status_from_extraction. exact Hu2. }
  assert (Hat : attempts (tr1 ++ tr2) = attempts tr1).
  { unfold attempts. rewrite filter_app. fold (attempts tr2).
    rewrite (attempts_extraction tr2 Hu2). apply app_nil_r. }
  destruct (l =? ERROR_SUCCESS) eqn:El; cbn [snd].
  - apply Z.eqb_eq in El. subst l. split.
    + exists tr1, tr2. repeat split; try assumption.
      intro Hneq. contradiction Hneq.
    + intros f r E. rewrite Hoq in E.
      pose proof (convert_FileName_same UNICODE path f (Hname f r E)) as Hf.
      subst f. rewrite Hat. split; assumption.
  - split.
    + exists tr1, []. rewrite app_nil_r. repeat split. exact Hu1.
    + intros f r E.
      destruct (verification_shows_no_extraction tr1 [] Hu1) as (Hoq' & _ & _).
      rewrite app_nil_r in Hoq'. rewrite Hoq' in E. discriminate E.
Qed.

(** X3: [tgb_is_signed] answers true only when the last pass of the trust
    verification answered [ERROR_SUCCESS], the file was opened as a signed
    object, the store lookup found the signer's certificate, the
    subject-name fetch was reached, and the name it delivered matches a
    prefix of the allow-list. *)
Theorem X3_true_only_for_an_accepted_certificate
        (UNICODE : bool) (World : Type) (h : Platform World) (w : World)
        (args : list PyObject)
        (Htrue : outcome_of (run h (tgb_is_signed UNICODE args) w)
                 = Returned (Some (PyBool true))) :
  let tr := trace_of (run h (tgb_is_signed UNICODE args) w) in
  last_status tr = Some ERROR_SUCCESS
  /\ object_opened tr = 1%nat
  /\ exists cert s,
      certificate_found tr = Some cert
      /\ name_fetched 0 tr = Some s
      /\ exists p, In p allow_list /\ matches_prefix p s.
Proof.
  intro tr. subst tr.
  destruct (PyArg_ParseTuple_s args) as [path |] eqn:Hparse.
  2: { unfold tgb_is_signed in Htrue. rewrite Hparse in Htrue. discriminate Htrue. }
  assert (Hargs : args = [PyUnicode path] /\ has_nul path = false).
  { unfold PyArg_ParseTuple_s in Hparse.
    destruct args as [| [s | b |] [| a2 rest]]; try discriminate Hparse.
    destruct (has_nul s) eqn:Hn; [discriminate Hparse |].
    inversion Hparse; subst s. auto. }
  destruct Hargs as [Hargs Hnul]. subst args.
  destruct (run_is_signed UNICODE h path w Hnul)
    as (l & w1 & tr1 & o & w2 & tr2 & Hv & Hu1 & Hl & Hq & He & Hw).
  destruct (run_extraction UNICODE h path ZeroMemory_info w1 eq_refl eq_refl)
    as (o' & w2' & tr2' & He' & Hu2 & _ & Hret & _).
  rewrite He in He'. inversion He'; subst o' w2' tr2'. clear He'.
  rewrite Hw in Htrue |- *. unfold trace_of, outcome_of in *.
  destruct (l =? ERROR_SUCCESS) eqn:El; cbn [fst snd] in *; [| discriminate Htrue].
  apply Z.eqb_eq in El. subst l.
  destruct o as [[[|] info] | x]; try discriminate Htrue.
  destruct (lpszSubjectName info) as [s |] eqn:Hs; [| discriminate Htrue].
  inversion Htrue as [Hacc]. apply andb_prop in Hacc. destruct Hacc as [_ Hacc].
  destruct (Hret true info eq_refl) as (_ & _ & _ & _ & _ & _ & Hok).
  destruct (Hok eq_refl) as (Hopen & Hser & Hsub & Hnone).
  destruct (verification_shows_no_extraction tr1 tr2 Hu1) as (Hoq & Hcf & Hnf).
  split.
  { unfold last_status in *. rewrite last_status_from_app, Hl.
    apply last_status_from_extraction. exact Hu2. }
  split.
  { unfold object_opened in *. rewrite Hoq. exact Hopen. }
  rewrite Hcf, Hnf. rewrite Hs in Hsub.
  destruct (certificate_found tr2) as [cert |] eqn:Hc.
  - exists cert, s. split; [reflexivity |]. split; [symmetry; exact Hsub |].
    apply subject_accepted_allow_list. exact Hacc.
  - exfalso. rewrite (Hnone eq_refl) in Hsub. discriminate Hsub.
Qed.

Lemma parsed_text_argument (args : list PyObject) (path : string) :
  PyArg_ParseTuple_s args = Some path ->
  args = [PyUnicode path] /\ has_nul path = false.
Proof.
  unfold PyArg_ParseTuple_s. intro Hparse.
  destruct args as [| [s | b |] [| a2 rest]]; try discriminate Hparse.
  destruct (has_nul s) eqn:Hn; [discriminate Hparse |].
  inversion Hparse; subst s. auto.
Qed.

Lemma verification_counts_nothing (p : Event -> bool) (tr1 tr2 : list Event) :
  (forall ev, verification_kind (kind_of ev) = true -> p ev = false) ->
  uses_only verification_kind tr1 = true ->
  count_events p (tr1 ++ tr2) = count_events p tr2.
Proof.
  intros Hp Hu. rewrite count_events_app.
  rewrite (count_events_none p verification_kind tr1 Hp Hu). reflexivity.
Qed.


(** X5: when [tgb_is_signed] answers, every handle it opened is closed
    (both handles of the signed object when it was opened, the certificate
    context when it was found) and the scratch buffers of the local heap
    are freed but for at most the three strings copied into [SignInfo].  No
    call follows the extraction: what [SignInfo] holds stays allocated,
    which for a true answer is at least the buffers of the serial number
    and of the subject name. *)
Theorem X5_is_signed_closes_handles_and_keeps_SignInfo
        (UNICODE : bool) (World : Type) (h : Platform World) (w : World)
        (args : list PyObject) (b : bool)
        (Hanswer : outcome_of (run h (tgb_is_signed UNICODE args) w)
                   = Returned (Some (PyBool b))) :
  let tr := trace_of (run h (tgb_is_signed UNICODE args) w) in
  count_events (is_kind KCertCloseStore) tr = object_opened tr
  /\ count_events (is_kind KCryptMsgClose) tr = object_opened tr
  /\ count_events (is_kind KCertFreeCertificateContext) tr
     = held (certificate_found tr)
  /\ (count_events (is_kind KLocalFree) tr <= count_events is_LocalAlloc_ok tr
      <= count_events (is_kind KLocalFree) tr + 3)%nat
  /\ (count_events is_VirtualAlloc_ok tr <= 3)%nat
  /\ (b = true -> (2 <= count_events is_VirtualAlloc_ok tr)%nat).
Proof.
  intro tr. subst tr.
  destruct (PyArg_ParseTuple_s args) as [path |] eqn:Hparse.
  2: { unfold tgb_is_signed in Hanswer. rewrite Hparse in Hanswer. discriminate Hanswer. }
  destruct (parsed_text_argument args path Hparse) as [Hargs Hnul]. subst args.
  destruct (run_is_signed UNICODE h path w Hnul)
    as (l & w1 & tr1 & o & w2 & tr2 & Hv & Hu1 & Hl & Hq & He & Hw).
  destruct (run_extraction UNICODE h path ZeroMemory_info w1 eq_refl eq_refl)
    as (o' & w2' & tr2' & He' & Hu2 & _ & Hret & _).
  rewrite He in He'. inversion He'; subst o' w2' tr2'. clear He'.
  rewrite Hw in Hanswer |- *. unfold trace_of, outcome_of in *.
  destruct (verification_shows_no_extraction tr1 tr2 Hu1) as (Hoq & Hcf & Hnf).
  destruct (verification_shows_no_extraction tr1 [] Hu1) as (Hoq0 & Hcf0 & _).
  rewrite app_nil_r in Hoq0, Hcf0.
  assert (C1 : forall tr', count_events (is_kind KCertCloseStore) (tr1 ++ tr')
                           = count_events (is_kind KCertCloseStore) tr')
    by (intro; apply verification_counts_nothing; [by_kind | exact Hu1]).
  assert (C2 : forall tr', count_events (is_kind KCryptMsgClose) (tr1 ++ tr')
                           = count_events (is_kind KCryptMsgClose) tr')
    by (intro; apply verification_counts_nothing; [by_kind | exact Hu1]).
  assert (C3 : forall tr', count_events (is_kind KCertFreeCertificateContext) (tr1 ++ tr')
                           = count_events (is_kind KCertFreeCertificateContext) tr')
    by (intro; apply verification_counts_nothing; [by_kind | exact Hu1]).
  assert (C4 : forall tr', count_events (is_kind KLocalFree) (tr1 ++ tr')
                           = count_events (is_kind KLocalFree) tr')
    by (intro; apply verification_counts_nothing; [by_kind | exact Hu1]).
  assert (C5 : forall tr', count_events is_LocalAlloc_ok (tr1 ++ tr')
                           = count_events is_LocalAlloc_ok tr')
    by (intro; apply verification_counts_nothing; [by_kind | exact Hu1]).
  assert (C6 : forall tr', count_events is_VirtualAlloc_ok (tr1 ++ tr')
                           = count_events is_VirtualAlloc_ok tr')
    by (intro; apply verification_counts_nothing; [by_kind | exact Hu1]).
  assert (Hheld : forall i, (strings_held i <= 3 /\ buffers_held i <= 3)%nat).
  { intro i. unfold strings_held, buffers_held.
    destruct (lpszProgramName i), (lpszPublisherLink i), (lpszMoreInfoLink i),
      (lpSerialNumber i), (lpszIssuerName i), (lpszSubjectName i); cbn; lia. }
  destruct (l =? ERROR_SUCCESS) eqn:El; cbn [fst snd] in *.
  - destruct o as [[bRet info] | x];
      [| destruct (l =? ERROR_SUCCESS); discriminate Hanswer].
    destruct (Hret bRet info eq_refl) as (A1 & A2 & A3 & A4 & A5 & _ & Hok).
    destruct (Hheld info) as [Hs3 Hb3].
    unfold object_opened in *.
    rewrite C1, C2, C3, C4, C5, C6, Hoq, Hcf, A1, A2, A3, A4, A5.
    do 3 (split; [reflexivity |]). split; [lia |]. split; [exact Hb3 |].
    intro Hb. subst b. destruct bRet; [| discriminate Hanswer].
    destruct (Hok eq_refl) as (_ & Hser & Hsub & Hnone).
    destruct (lpszSubjectName info) as [s |] eqn:Hs; [| discriminate Hanswer].
    unfold buffers_held. rewrite Hs, Hser.
    destruct (certificate_found tr2) eqn:Hc;
      [cbn; destruct (lpszIssuerName info); cbn; lia |].
    rewrite (Hnone eq_refl) in Hsub. discriminate Hsub.
  - rewrite <- (app_nil_r tr1), C1, C2, C3, C4, C5, C6, app_nil_r.
    unfold object_opened. rewrite Hoq0, Hcf0. cbn.
    repeat split; try lia. intro Hb. subst b. discriminate Hanswer.
Qed.

(** X6: the extraction, from a structure that holds nothing, accounts for
    everything it acquires when it returns: both handles of the signed
    object are closed when it was opened, the certificate context is freed
    when it was found, every buffer of the local heap is freed but for the
    strings left in the structure, and every virtual allocation is a
    buffer left in the structure.  When it reports failure the structure is
    as it was received. *)
Theorem X6_extraction_accounts_for_what_it_acquires
        (UNICODE : bool) (World : Type) (h : Platform World) (w : World)
        (path : TSTR) (pInfo : SPROG_SIGNATUREINFO)
        (bRet : bool) (pInfo' : SPROG_SIGNATUREINFO)
        (Hstrings : strings_held pInfo = 0%nat)
        (Hbuffers : buffers_held pInfo = 0%nat)
        (Hreturn : outcome_of (run h (SD_GetAuthenticodeInformation UNICODE path pInfo) w)
                   = Returned (bRet, pInfo')) :
  let tr := trace_of (run h (SD_GetAuthenticodeInformation UNICODE path pInfo) w) in
  count_events (is_kind KCertCloseStore) tr = object_opened tr
  /\ count_events (is_kind KCryptMsgClose) tr = object_opened tr
  /\ count_events (is_kind KCertFreeCertificateContext) tr
     = held (certificate_found tr)
  /\ count_events is_LocalAlloc_ok tr
     = (count_events (is_kind KLocalFree) tr + strings_held pInfo')%nat
  /\ count_events is_VirtualAlloc_ok tr = buffers_held pInfo'
  /\ (bRet = false -> pInfo' = pInfo)
  /\ (bRet = true -> object_opened tr = 1%nat).
Proof.
  intro tr. subst tr.
  destruct (run_extraction UNICODE h path pInfo w Hstrings Hbuffers)
    as (o & w' & tr & E & _ & _ & Hret & _).
  rewrite E in Hreturn |- *. unfold outcome_of, trace_of in *. cbn [fst snd] in *.
  destruct (Hret bRet pInfo' Hreturn) as (A1 & A2 & A3 & A4 & A5 & A6 & A7).
  repeat split; try assumption. intro Hb. apply (A7 Hb).
Qed.

(** ** Further properties of the opus-info reader *)

(** X7: the first authenticated attribute that carries the opus identifier
    decides: the attributes before it and every attribute after it, opus
    or not, are not looked at. *)
Theorem X7_first_opus_attribute_decides
        (issuer serial : BLOB) (before after : list CRYPT_ATTRIBUTE)
        (attr : CRYPT_ATTRIBUTE) (pInfo : SPROG_SIGNATUREINFO)
        (Hbefore : opus_absent (mkSignerInfo issuer serial before) = true)
        (Hattr : String.eqb SPC_SP_OPUS_INFO_OBJID (pszObjId attr) = true) :
  GetProgAndPublisherInfo (mkSignerInfo issuer serial (before ++ attr :: after)) pInfo
  = GetProgAndPublisherInfo (mkSignerInfo issuer serial [attr]) pInfo.
Proof.
  unfold GetProgAndPublisherInfo, opus_absent in *. cbn [AuthAttrs] in *.
  induction before as [| a before IH]; cbn [app scan_AuthAttrs forallb] in *.
  - rewrite Hattr. reflexivity.
  - apply andb_prop in Hbefore. destruct Hbefore as [Ha Hb].
    apply negb_true_iff in Ha. rewrite Ha. rewrite (IH Hb).
    cbn [scan_AuthAttrs]. reflexivity.
Qed.

(** X8: the opus-info reader, from a structure that holds no string, frees
    every buffer of the local heap it allocated but for the strings it left
    in the structure, and decodes at most one attribute.  When it decoded
    the opus structure and no allocation failed, the program name is the
    decoded one, and each link field is the URL under the URL choice, the
    file name under the file choice and [NULL] under any other choice or
    when the link is missing. *)
Theorem X8_opus_fields_copied_verbatim
        (World : Type) (h : Platform World) (w : World)
        (pSignerInfo : CMSG_SIGNER_INFO) (pInfo pInfo' : SPROG_SIGNATUREINFO)
        (Hstrings : strings_held pInfo = 0%nat)
        (Hreturn : outcome_of (run h (GetProgAndPublisherInfo pSignerInfo pInfo) w)
                   = Returned pInfo') :
  let tr := trace_of (run h (GetProgAndPublisherInfo pSignerInfo pInfo) w) in
  count_events is_LocalAlloc_ok tr
  = (count_events (is_kind KLocalFree) tr + strings_held pInfo')%nat
  /\ (count_events (is_kind KCryptDecodeObject_size) tr <= 1)%nat
  /\ (forall opus,
         opus_decoded tr = Some opus ->
         every_LocalAlloc_ok tr = true ->
         lpszProgramName pInfo' = pwszProgramName opus
         /\ lpszPublisherLink pInfo' = link_text (pPublisherInfo opus)
         /\ lpszMoreInfoLink pInfo' = link_text (pMoreInfo opus)).
Proof.
  intro tr. subst tr.
  destruct (GetProgAndPublisherInfo_accounting h pSignerInfo pInfo w Hstrings)
    as (p & w' & tr & E & _ & H1 & H2 & H3).
  rewrite E in Hreturn |- *. unfold outcome_of, trace_of in *. cbn [fst snd] in *.
  inversion Hreturn; subst p. repeat split; try assumption; apply (H3 opus); assumption.
Qed.

(** ** Further properties of the publisher check *)

Lemma tolower_deref (s : string) : tolower (deref s) = hd 0 (lowered s).
Proof. destruct s; reflexivity. Qed.

Lemma lowered_advance (s : string) : lowered (advance s) = tl (lowered s).
Proof. destruct s; reflexivity. Qed.

Lemma strnicmp_lowered (count : nat) :
  forall s s' p p',
    lowered s = lowered s' -> lowered p = lowered p' ->
    strnicmp s p count = strnicmp s' p' count.
Proof.
  induction count as [| n IH]; intros s s' p p' Hs Hp; [reflexivity |].
  cbn [strnicmp]. rewrite !tolower_deref, Hs, Hp.
  rewrite (IH (advance s) (advance s') (advance p) (advance p')).
  - reflexivity.
  - rewrite !lowered_advance, Hs. reflexivity.
  - rewrite !lowered_advance, Hp. reflexivity.
Qed.

(** X9: the publisher check looks at the subject name through its lowered
    characters only: two names that differ in the case of ASCII letters
    get the same answer. *)
Theorem X9_acceptance_ignores_letter_case (s s' : TSTR)
        (Hsame : lowered s = lowered s') :
  subject_accepted s = subject_accepted s'.
Proof.
  unfold subject_accepted.
  rewrite (strnicmp_lowered 11 s s' "TheGreenBow" "TheGreenBow" Hsame eq_refl).
  rewrite (strnicmp_lowered 7 s s' "SISTECH" "SISTECH" Hsame eq_refl).
  reflexivity.
Qed.

Lemma length_lowered (s : string) : List.length (lowered s) = String.length s.
Proof. induction s as [| c s IH]; [reflexivity |]. cbn. rewrite IH. reflexivity. Qed.

Lemma matches_prefix_length (p s : string) :
  matches_prefix p s -> (String.length p <= String.length s)%nat.
Proof.
  unfold matches_prefix. intro H. apply (f_equal (@List.length Z)) in H.
  rewrite !length_lowered, length_substring_0 in H. lia.
Qed.

Lemma substring_0_append (n : nat) (s t : string) :
  (n <= String.length s)%nat ->
  substring 0 n (s ++ t)%string = substring 0 n s.
Proof.
  revert s. induction n as [| n IH]; intros s Hn.
  - rewrite !substring_0_0. reflexivity.
  - destruct s as [| c s]; [cbn in Hn; lia |].
    cbn [String.append substring]. rewrite IH; [reflexivity |].
    cbn in Hn. lia.
Qed.

(** X10: a subject name that is accepted stays accepted whatever is
    appended to it: the check never looks past the prefix. *)
Theorem X10_accepted_name_accepted_with_any_suffix (s t : TSTR)
        (Haccepted : subject_accepted s = true) :
  subject_accepted (s ++ t)%string = true.
Proof.
  apply subject_accepted_allow_list in Haccepted.
  destruct Haccepted as (p & Hin & Hm).
  apply subject_accepted_allow_list. exists p. split; [exact Hin |].
  unfold matches_prefix in *.
  rewrite (substring_0_append _ s t (matches_prefix_length p s Hm)). exact Hm.
Qed.

(** X11: a subject name of fewer than 7 characters is refused; so is the
    empty name. *)
Theorem X11_short_name_refused (s : TSTR)
        (Hshort : (String.length s < 7)%nat) :
  subject_accepted s = false.
Proof.
  destruct (subject_accepted s) eqn:E; [| reflexivity].
  apply subject_accepted_allow_list in E. destruct E as (p & Hin & Hm).
  apply matches_prefix_length in Hm.
  destruct Hin as [Hp | [Hp | []]]; subst p; cbn in Hm; lia.
Qed.

(** X12: the certificate reader, from a structure that holds no buffer,
    calls nothing but the debug output, the store lookup, the virtual
    allocator, the name queries and the release of the certificate context.
    When it returns, every virtual allocation that succeeded is a buffer
    left in the structure, the certificate context is freed exactly when it
    was found, and the strings of the structure are untouched; a name
    buffer that cannot be allocated only leaves that name empty.  Its one
    fault is the copy of the serial number after the allocation of its
    buffer failed, and then the certificate context is not freed. *)
Theorem X12_certificate_reader_accounts_for_its_buffers
        (UNICODE : bool) (World : Type) (h : Platform World) (w : World)
        (hStore : HCERTSTORE) (pSignerInfo : CMSG_SIGNER_INFO)
        (pInfo : SPROG_SIGNATUREINFO)
        (Hbuffers : buffers_held pInfo = 0%nat) :
  let r := run h (GetCertificateInfo UNICODE hStore pSignerInfo pInfo) w in
  let tr := trace_of r in
  uses_only certificate_kind tr = true
  /\ (forall pInfo',
         outcome_of r = Returned pInfo' ->
         count_events is_VirtualAlloc_ok tr = buffers_held pInfo'
         /\ count_events (is_kind KCertFreeCertificateContext) tr
            = held (certificate_found tr)
         /\ strings_held pInfo' = strings_held pInfo)
  /\ (forall f,
         outcome_of r = Faulted f ->
         f = NullDestination
         /\ count_events (is_kind KCertFreeCertificateContext) tr = 0%nat
         /\ exists cert pre,
             certificate_found tr = Some cert
             /\ tr = pre ++ [Ev (VirtualAlloc
                                   (Z.of_nat (List.length (certSerialNumber cert))))
                                false]).
Proof.
  intros r tr. subst tr r.
  destruct (GetCertificateInfo_accounting UNICODE h hStore pSignerInfo pInfo w Hbuffers)
    as (o & w' & tr & E & Hu & Hret & Hflt).
  rewrite E. unfold outcome_of, trace_of. cbn [fst snd].
  split; [exact Hu |]. split.
  - intros p Ho. subst o. exact (Hret p eq_refl).
  - intros f Ho. subst o. exact (Hflt f eq_refl).
Qed.

(** ** The further properties on concrete platforms *)

(** A true answer: the last pass had answered [ERROR_SUCCESS]. *)
Lemma X3_witness_TheGreenBow :
  last_status (trace_of (run (scenario_platform chain_not_cached)
                             (tgb_is_signed false [PyUnicode vpn_dll]) 0%nat))
  = Some ERROR_SUCCESS.
Proof.
  exact (proj1 (X3_true_only_for_an_accepted_certificate
                  false nat (scenario_platform chain_not_cached) 0%nat
                  [PyUnicode vpn_dll] ltac:(vm_compute; reflexivity))).
Defined.


(** A true answer leaves at least two buffers allocated. *)
Lemma X5_witness_true_answer :
  (2 <= count_events is_VirtualAlloc_ok
          (trace_of (run (scenario_platform signed_by_TheGreenBow)
                         (tgb_is_signed false [PyUnicode vpn_dll]) 0%nat)))%nat.
Proof.
  destruct (X5_is_signed_closes_handles_and_keeps_SignInfo
              false nat (scenario_platform signed_by_TheGreenBow) 0%nat
              [PyUnicode vpn_dll] true ltac:(vm_compute; reflexivity))
    as (_ & _ & _ & _ & _ & H).
  exact (H eq_refl).
Defined.

(** An extraction that succeeds: two strings and three buffers stay. *)
Lemma X6_witness_successful_extraction :
  count_events is_LocalAlloc_ok
    (trace_of (run (scenario_platform signed_by_TheGreenBow)
                   (SD_GetAuthenticodeInformation false vpn_dll ZeroMemory_info)
                   0%nat))
  = (count_events (is_kind KLocalFree)
       (trace_of (run (scenario_platform signed_by_TheGreenBow)
                      (SD_GetAuthenticodeInformation false vpn_dll ZeroMemory_info)
                      0%nat))
     + strings_held info_with_issuer)%nat.
Proof.
  destruct (X6_extraction_accounts_for_what_it_acquires
              false nat (scenario_platform signed_by_TheGreenBow) 0%nat vpn_dll
              ZeroMemory_info true info_with_issuer eq_refl eq_refl
              ltac:(vm_compute; reflexivity))
    as (_ & _ & _ & H & _).
  exact H.
Defined.

(** A second opus attribute after the first is not looked at. *)
Lemma X7_witness_second_opus_attribute :
  GetProgAndPublisherInfo
    (mkSignerInfo [x01] [x2a]
                  ([other_attribute] ++ opus_attribute :: [second_opus_attribute]))
    ZeroMemory_info
  = GetProgAndPublisherInfo (mkSignerInfo [x01] [x2a] [opus_attribute])
                            ZeroMemory_info.
Proof.
  apply (X7_first_opus_attribute_decides
           [x01] [x2a] [other_attribute] [second_opus_attribute] opus_attribute
           ZeroMemory_info); reflexivity.
Defined.

(** The decoded program name and URL are copied; the moniker link is not. *)
Lemma X8_witness_decoded_opus :
  count_events is_LocalAlloc_ok
    (trace_of (run (scenario_platform signed_by_TheGreenBow)
                   (GetProgAndPublisherInfo signer_with_opus ZeroMemory_info) 0%nat))
  = (count_events (is_kind KLocalFree)
       (trace_of (run (scenario_platform signed_by_TheGreenBow)
                      (GetProgAndPublisherInfo signer_with_opus ZeroMemory_info)
                      0%nat))
     + strings_held info_after_opus)%nat.
Proof.
  exact (proj1 (X8_opus_fields_copied_verbatim
                  nat (scenario_platform signed_by_TheGreenBow) 0%nat
                  signer_with_opus ZeroMemory_info info_after_opus eq_refl
                  ltac:(vm_compute; reflexivity))).
Defined.

Lemma X9_witness_upper_and_lower_case :
  subject_accepted "THEGREENBOW sa" = subject_accepted "thegreenbow SA".
Proof.
  apply X9_acceptance_ignores_letter_case. reflexivity.
Defined.

Lemma X10_witness_longer_name :
  subject_accepted ("TheGreenBow" ++ " Impostor Ltd")%string = true.
Proof.
  apply X10_accepted_name_accepted_with_any_suffix. reflexivity.
Defined.

Lemma X11_witness_empty_name : subject_accepted "" = false.
Proof.
  apply X11_short_name_refused. cbn. lia.
Defined.

(** The certificate reader on a certificate with both names. *)
Lemma X12_witness_certificate_with_names :
  count_events is_VirtualAlloc_ok
    (trace_of (run (scenario_platform signed_by_TheGreenBow)
                   (GetCertificateInfo false 11 signer_with_opus ZeroMemory_info)
                   0%nat))
  = buffers_held info_after_certificate.
Proof.
  destruct (X12_certificate_reader_accounts_for_its_buffers
              false nat (scenario_platform signed_by_TheGreenBow) 0%nat 11
              signer_with_opus ZeroMemory_info eq_refl)
    as (_ & H & _).
  exact (proj1 (H info_after_certificate ltac:(vm_compute; reflexivity))).
Defined.

(** ** Two calls in a row *)

Section UnchangedTrustState.

Context {World : Type} (h : Platform World) (sim : World -> World -> Prop).
Hypothesis Hstate : unchanged_trust_state h sim.

Lemma sim_reflexive (w : World) : sim w w.
Proof.
  pose proof (calls_keep_the_state h sim Hstate Z GetLastError w) as H.
  exact (sim_transitive h sim Hstate _ _ _ H (sim_symmetric h sim Hstate _ _ H)).
Qed.

(** No run leaves the class of the state it starts in. *)
Lemma run_keeps_the_state {A : Type} (p : Prog A) (w : World) :
  sim w (world_of (run h p w)).
Proof.
  revert w. induction p as [a | x | R e k IH]; intro w; cbn [run].
  - apply sim_reflexive.
  - apply sim_reflexive.
  - pose proof (calls_keep_the_state h sim Hstate R e w) as H1.
    destruct (h R e w) as [r w1]. cbn [snd] in H1.
    pose proof (IH r w1) as H2.
    destruct (run h (k r) w1) as [[o w2] tr]. unfold world_of in *. cbn [fst snd] in *.
    exact (sim_transitive h sim Hstate _ _ _ H1 H2).
Qed.

(** A run that makes no cache-only pass goes alike from two states of one
    class. *)
Lemma run_alike_without_cache_only {A : Type} (p : Prog A) (w1 w2 : World) :
  sim w1 w2 ->
  forallb (fun ev => negb (cache_only_event ev)) (trace_of (run h p w1)) = true ->
  outcome_of (run h p w2) = outcome_of (run h p w1)
  /\ trace_of (run h p w2) = trace_of (run h p w1).
Proof.
  revert w1 w2. induction p as [a | x | R e k IH]; intros w1 w2 Hw Hq; cbn [run] in *.
  - split; reflexivity.
  - split; reflexivity.
  - pose proof (same_answer h sim Hstate R e w1 w2) as Hr.
    pose proof (calls_keep_the_state h sim Hstate R e w1) as K1.
    pose proof (calls_keep_the_state h sim Hstate R e w2) as K2.
    destruct (h R e w1) as [r1 u1], (h R e w2) as [r2 u2]. cbn [fst snd] in *.
    specialize (IH r1 u1 u2).
    destruct (run h (k r1) u1) as [[o1 v1] t1] eqn:E1.
    unfold trace_of, outcome_of in *. cbn [fst snd forallb cache_only_event] in *.
    apply andb_prop in Hq. destruct Hq as [Hq1 Hq2].
    apply negb_true_iff in Hq1. rewrite <- (Hr Hq1 Hw).
    assert (Hu : sim u1 u2).
    { apply (sim_transitive h sim Hstate _ w1); [apply (sim_symmetric h sim Hstate); exact K1 |].
      apply (sim_transitive h sim Hstate _ w2); assumption. }
    destruct (IH Hu Hq2) as [Ho Ht].
    destruct (run h (k r1) u2) as [[o2 v2] t2]. cbn [fst snd] in *.
    subst o2 t2. split; reflexivity.
Qed.

Lemma extraction_makes_no_cache_only_pass (tr : list Event) :
  uses_only extraction_kind tr = true ->
  forallb (fun ev => negb (cache_only_event ev)) tr = true.
Proof.
  unfold uses_only. induction tr as [| [R e r] tr IH]; [reflexivity |].
  cbn [forallb]. intro H. apply andb_prop in H. destruct H as [H1 H2].
  rewrite (IH H2), andb_true_r.
  destruct e; try reflexivity. discriminate H1.
Qed.

(** Whatever the cache holds, the verification hands back the answer of
    the network pass. *)
Lemma verification_hands_back_network_status (UNICODE : bool) (path : TSTR)
      (w : World) :
  outcome_of (run h (SD_VerifyEmbeddedSignature UNICODE path) w)
  = Returned (fst (h Z (NetworkAttempt (wszFileName_of UNICODE path)) w)).
Proof.
  rewrite SD_Verify_file. set (f := wszFileName_of UNICODE path).
  destruct (run_verify_passes h 1 f w) as (w' & tr & _ & E). rewrite E.
  destruct (terminal_at_once (TrustResult_of (fst (h Z (CacheOnlyAttempt f) w)))) eqn:T;
    unfold outcome_of; cbn [fst].
  - rewrite (cache_coherent h sim Hstate f w T). reflexivity.
  - f_equal. apply (same_answer h sim Hstate); [reflexivity |].
    apply (sim_symmetric h sim Hstate).
    apply (calls_keep_the_state h sim Hstate).
Qed.

End UnchangedTrustState.



(** * Facts about the bootstrap programs *)

Module BootstrapFacts.
Import Bootstrap.
Local Open Scope boot_scope.

Lemma run_main_bind {World A B : Type} (h : Runtime World) (p : Prog A)
      (f : A -> Prog B) (w : World) :
  run h (bind p f) w =
  match run h p w with
  | (Returned a, w1, tr1) =>
      let '(o, w2, tr2) := run h (f a) w1 in (o, w2, tr1 ++ tr2)
  | (Exited s, w1, tr1) => (Exited s, w1, tr1)
  | (Undefined_at u, w1, tr1) => (Undefined_at u, w1, tr1)
  end.
Proof.
  revert w. induction p as [a | s | u | R e k IH]; intro w; cbn [bind run].
  - destruct (run h (f a) w) as [[o w2] tr2]. reflexivity.
  - reflexivity.
  - reflexivity.
  - destruct (h R e w) as [r w1]. rewrite IH.
    destruct (run h (k r) w1) as [[[a | s | u] w2] tr1]; cbn [app].
    + destruct (run h (f a) w2) as [[o w3] tr2]. reflexivity.
    + reflexivity.
    + reflexivity.
Qed.

(** The first loop: it hands back the arguments decoded so far followed by
    the decoded ones, in order, after one decoding call per argument; or
    the process exits with 1 right after the message that follows the first
    argument that does not decode; or the first decoded argument is stored
    through the [NULL] array. *)
Lemma run_decode_arguments {World : Type} (h : Runtime World) (array : bool)
      (argv : list string) :
  forall (decoded : list WSTR) (w : World),
  exists o w' tr,
    run h (decode_arguments array argv decoded) w = (o, w', tr)
    /\ match o with
       | Returned l =>
           exists ds, l = decoded ++ ds
                      /\ List.length ds = List.length argv
                      /\ tr = decode_events argv ds
                      /\ (argv <> [] -> array = true)
       | Exited s =>
           s = 1
           /\ exists ds a,
               tr = decode_events argv ds
                    ++ [Ev (Py_DecodeLocale a) None; Ev (fprintf_stderr cannot_decode) tt]
               /\ nth_error argv (List.length ds) = Some a
       | Undefined_at u =>
           u = StoreThroughNullArray /\ array = false
           /\ exists a rest s,
               argv = a :: rest /\ tr = [Ev (Py_DecodeLocale a) (Some s)]
       end.
Proof.
  induction argv as [| a rest IH]; intros decoded w.
  - exists (Returned decoded), w, []. cbn. split; [reflexivity |].
    exists []. rewrite app_nil_r. repeat split. intro H. contradiction H. reflexivity.
  - cbn [decode_arguments bind call run].
    destruct (h _ (Py_DecodeLocale a) w) as [[s |] w1].
    + destruct array.
      * destruct (IH (decoded ++ [s]) w1) as (o & w' & tr & E & Ho).
        rewrite E. exists o, w', (Ev (Py_DecodeLocale a) (Some s) :: tr).
        split; [reflexivity |].
        destruct o as [l | st | u].
        -- destruct Ho as (ds & Hl & Hlen & Htr & _). exists (s :: ds).
           rewrite Hl, <- app_assoc. cbn. rewrite Hlen, Htr. repeat split.
        -- destruct Ho as (Hst & ds & a' & Htr & Hn). split; [exact Hst |].
           exists (s :: ds), a'. rewrite Htr. split; [reflexivity | exact Hn].
        -- destruct Ho as (_ & Hfalse & _). discriminate Hfalse.
      * cbn [run]. do 3 eexists. split; [reflexivity |]. cbn. repeat split.
        exists a, rest, s. split; reflexivity.
    + cbn [run bind call]. destruct (h _ (fprintf_stderr cannot_decode) w1) as [[] w2].
      cbn [run]. do 3 eexists. split; [reflexivity |]. cbn. split; [reflexivity |].
      exists [], a. split; reflexivity.
Qed.

Lemma run_free_arguments {World : Type} (h : Runtime World) (ds : list WSTR) :
  forall w : World,
  exists w', run h (free_arguments ds) w = (Returned tt, w', free_events ds).
Proof.
  induction ds as [| s ds IH]; intro w.
  - exists w. reflexivity.
  - cbn [free_arguments bind call run].
    destruct (h _ (PyMem_RawFree s) w) as [[] w1].
    destruct (IH w1) as (w' & E).
    change (run h (bind (Ret tt) (fun _ : unit => free_arguments ds)) w1)
      with (run h (free_arguments ds) w1).
    rewrite E. exists w'. reflexivity.
Qed.

Lemma scripts_run_app (tr1 tr2 : list Event) :
  scripts_run (tr1 ++ tr2) = scripts_run tr1 ++ scripts_run tr2.
Proof.
  induction tr1 as [| [R e r] tr1 IH]; [reflexivity |].
  destruct e; cbn [app scripts_run]; rewrite IH; reflexivity.
Qed.

Lemma arguments_freed_app (tr1 tr2 : list Event) :
  arguments_freed (tr1 ++ tr2) = arguments_freed tr1 ++ arguments_freed tr2.
Proof.
  induction tr1 as [| [R e r] tr1 IH]; [reflexivity |].
  destruct e; cbn [app arguments_freed]; rewrite IH; reflexivity.
Qed.

Lemma finalize_answers_app (tr1 tr2 : list Event) :
  finalize_answers (tr1 ++ tr2) = finalize_answers tr1 ++ finalize_answers tr2.
Proof.
  induction tr1 as [| [R e r] tr1 IH]; [reflexivity |].
  destruct e; cbn [app finalize_answers]; rewrite IH; reflexivity.
Qed.

Lemma decoding_answers_app (tr1 tr2 : list Event) :
  decoding_answers (tr1 ++ tr2) = decoding_answers tr1 ++ decoding_answers tr2.
Proof.
  induction tr1 as [| [R e r] tr1 IH]; [reflexivity |].
  destruct e; cbn [app decoding_answers]; rewrite IH; reflexivity.
Qed.

Lemma ended_inside_decode_events (argv : list string) (ds : list WSTR)
      (tr : list Event) :
  ended_inside (decode_events argv ds ++ tr) = ended_inside tr.
Proof.
  unfold decode_events.
  induction (combine argv ds) as [| [a s] l IH]; [reflexivity | exact IH].
Qed.

Lemma readers_of_decode_events (argv : list string) (ds : list WSTR) :
  scripts_run (decode_events argv ds) = []
  /\ arguments_freed (decode_events argv ds) = []
  /\ finalize_answers (decode_events argv ds) = []
  /\ filter is_Py_Initialize (decode_events argv ds) = []
  /\ ~ In None (map snd (decoding_answers (decode_events argv ds))).
Proof.
  unfold decode_events.
  induction (combine argv ds) as [| [a s] l IH]; cbn.
  - repeat split. intros [].
  - destruct IH as (H1 & H2 & H3 & H4 & H5). repeat split; try assumption.
    intros [H | H]; [discriminate H | exact (H5 H)].
Qed.

Lemma readers_of_free_events (ds : list WSTR) :
  scripts_run (free_events ds) = []
  /\ arguments_freed (free_events ds) = ds
  /\ finalize_answers (free_events ds) = []
  /\ decoding_answers (free_events ds) = [].
Proof.
  unfold free_events. induction ds as [| s ds IH]; cbn; [repeat split |].
  destruct IH as (H1 & H2 & H3 & H4). rewrite H2. repeat split; assumption.
Qed.

Lemma readers_of_EndsInside (script : string) (argc : Z) (name : WSTR)
      (_argv : list WSTR) (c : Z) (tr : list Event) :
  EndsInside script argc name _argv c tr ->
  arguments_freed tr = [] /\ finalize_answers tr = [] /\ decoding_answers tr = []
  /\ ended_inside tr = Some c
  /\ (scripts_run tr = [] \/ scripts_run tr = [(script, Gone c)]).
Proof. intros []; cbn; repeat split; auto. Qed.

(** Every run of [main] has one of the shapes of [Shape]. *)
Lemma run_main {World : Type} (h : Runtime World) (script : string)
      (sizeof_pointer : Z) (argv : list string) (w : World) :
  let argc := Z.of_nat (List.length argv) in
  exists o w' array tr,
    run h (main script sizeof_pointer argv) w
    = (o, w', Ev (PyMem_Malloc (sizeof_pointer * argc)) array :: tr)
    /\ Shape script argc argv o array tr.
Proof.
  intro argc. unfold main. fold argc. cbn [bind call run].
  destruct (h _ (PyMem_Malloc (sizeof_pointer * argc)) w) as [array w1].
  rewrite run_main_bind.
  destruct (run_decode_arguments h array argv [] w1) as (o & w2 & tr & E & Ho).
  rewrite E. destruct o as [l | s | u].
  - destruct Ho as (ds & Hl & Hlen & Htr & Harr). cbn [app] in Hl. subst l tr.
    destruct ds as [| name rest].
    + cbn [run]. do 4 eexists. split; [reflexivity |].
      destruct argv; [| discriminate Hlen]. apply NoArgument. reflexivity.
    + assert (Ha : array = true).
      { apply Harr. intro Hn. rewrite Hn in Hlen. discriminate Hlen. }
      subst array.
      cbn [bind call call_or_end run].
      destruct (h _ (Py_SetProgramName name) w2) as [[] w3].
      destruct (h _ Py_Initialize w3) as [[[] | c] w4]; cbn [bind run].
      2: { do 4 eexists. split; [reflexivity |].
           apply (EndedInside script argc argv name rest c _ Hlen). constructor. }
      destruct (h _ (PySys_SetArgv argc (name :: rest)) w4) as [[[] | c] w5];
        cbn [bind run].
      2: { do 4 eexists. split; [reflexivity |].
           apply (EndedInside script argc argv name rest c _ Hlen). constructor. }
      destruct (h _ (PyRun_SimpleString script) w5) as [[v | c] w6]; cbn [bind run].
      2: { do 4 eexists. split; [reflexivity |].
           apply (EndedInside script argc argv name rest c _ Hlen). constructor. }
      rewrite run_main_bind.
      destruct (run_free_arguments h (name :: rest) w6) as (w7 & Ef).
      rewrite Ef. cbn [free_array bind run].
      rewrite app_nil_r.
      do 4 eexists. split; [reflexivity |].
      exact (ScriptCameBack script argc argv name rest v Hlen).
  - destruct Ho as (Hs & ds & a & Htr & Hn). subst s tr.
    do 4 eexists. split; [reflexivity |]. apply CannotDecode. exact Hn.
  - destruct Ho as (Hu & Harr & a & rest & s & Hargv & Htr). subst u array tr.
    do 4 eexists. split; [reflexivity |]. eapply StoreThroughNull. exact Hargv.
Qed.

(** X13: when an argument does not decode, [main] writes the message and
    exits with status 1.  The arguments after the failing one are not
    decoded, and [main] has neither initialised the interpreter, nor run
    the script, nor freed anything: the trace holds the allocation of the
    array, one decoding per argument up to the failing one, and the
    message. *)
Theorem X13_undecodable_argument_exits_1_before_the_interpreter_starts
        (World : Type) (h : Runtime World) (script : string)
        (sizeof_pointer : Z) (argv : list string) (w : World)
        (Hbad : In None (map snd (decoding_answers
                  (trace_of (run h (main script sizeof_pointer argv) w))))) :
  let r := run h (main script sizeof_pointer argv) w in
  let tr := trace_of r in
  outcome_of r = Exited 1
  /\ filter is_Py_Initialize tr = []
  /\ scripts_run tr = []
  /\ arguments_freed tr = []
  /\ exists array ds a,
      nth_error argv (List.length ds) = Some a
      /\ tr = Ev (PyMem_Malloc (sizeof_pointer * Z.of_nat (List.length argv))) array
              :: decode_events argv ds
              ++ [Ev (Py_DecodeLocale a) None; Ev (fprintf_stderr cannot_decode) tt].
Proof.
  intros r tr. subst tr r.
  destruct (run_main h script sizeof_pointer argv w) as (o & w' & array & tr & E & HS).
  rewrite E in Hbad |- *. unfold outcome_of, trace_of in *. cbn [fst snd] in *.
  cbn [decoding_answers filter is_Py_Initialize scripts_run arguments_freed] in *.
  destruct HS as [arr ds a Hn | a rest s Hargv | arr Hargv
                 | name rest c tr Hlen Hin | name rest v Hlen].
  - destruct (readers_of_decode_events argv ds) as (H1 & H2 & _ & H4 & _).
    rewrite filter_app, scripts_run_app, arguments_freed_app, H1, H2, H4. cbn.
    do 4 (split; [reflexivity |]). exists arr, ds, a. split; [exact Hn | reflexivity].
  - cbn in Hbad. destruct Hbad as [H | []]. discriminate H.
  - cbn in Hbad. contradiction.
  - exfalso. destruct (readers_of_decode_events argv (name :: rest)) as (_ & _ & _ & _ & Hno).
    destruct (readers_of_EndsInside _ _ _ _ _ _ Hin) as (_ & _ & Hd & _).
    rewrite decoding_answers_app, Hd, app_nil_r in Hbad. exact (Hno Hbad).
  - exfalso. destruct (readers_of_decode_events argv (name :: rest)) as (_ & _ & _ & _ & Hno).
    destruct (readers_of_free_events (name :: rest)) as (_ & _ & _ & Hfd).
    rewrite !decoding_answers_app, Hfd in Hbad. cbn in Hbad.
    rewrite app_nil_r in Hbad. exact (Hno Hbad).
Qed.

(** X14: when the process ends inside [PyRun_SimpleString], as it does for
    a script that raises [SystemExit], the status is the one it ended
    with there, and [main] has made no call after that one: it has
    released none of the decoded arguments and has not called
    [Py_FinalizeEx].  Before it, every argument was decoded, and the
    interpreter was given the first as its program name and all of them
    as its argument vector. *)
Theorem X14_script_that_exits_decides_the_status
        (World : Type) (h : Runtime World) (script : string)
        (sizeof_pointer : Z) (argv : list string) (w : World) (c : Z)
        (Hexit : In (Gone c)
                    (map snd (scripts_run
                       (trace_of (run h (main script sizeof_pointer argv) w))))) :
  let r := run h (main script sizeof_pointer argv) w in
  let tr := trace_of r in
  let argc := Z.of_nat (List.length argv) in
  outcome_of r = Exited c
  /\ arguments_freed tr = []
  /\ finalize_answers tr = []
  /\ exists name rest,
      List.length (name :: rest) = List.length argv
      /\ tr = Ev (PyMem_Malloc (sizeof_pointer * argc)) true
              :: decode_events argv (name :: rest)
              ++ [Ev (Py_SetProgramName name) tt; Ev Py_Initialize (Back tt);
                  Ev (PySys_SetArgv argc (name :: rest)) (Back tt);
                  Ev (PyRun_SimpleString script) (Gone c)].
Proof.
  intros r tr argc. subst tr r.
  destruct (run_main h script sizeof_pointer argv w) as (o & w' & array & tr & E & HS).
  rewrite E in Hexit |- *. unfold outcome_of, trace_of in *. cbn [fst snd] in *.
  cbn [scripts_run arguments_freed finalize_answers] in *.
  destruct HS as [arr ds a Hn | a rest s Hargv | arr Hargv
                 | name rest c' tr Hlen Hin | name rest v Hlen].
  - exfalso. destruct (readers_of_decode_events argv ds) as (H1 & _).
    rewrite scripts_run_app, H1 in Hexit. cbn in Hexit. contradiction.
  - cbn in Hexit. contradiction.
  - cbn in Hexit. contradiction.
  - destruct (readers_of_decode_events argv (name :: rest)) as (H1 & H2 & H3 & _).
    rewrite scripts_run_app, H1 in Hexit. cbn [app] in Hexit.
    rewrite arguments_freed_app, finalize_answers_app, H2, H3. cbn [app].
    destruct Hin; cbn in Hexit; try contradiction.
    destruct Hexit as [Hc | []]. inversion Hc; subst c'.
    cbn. do 3 (split; [reflexivity |]). exists name, rest.
    split; [exact Hlen | reflexivity].
  - exfalso. destruct (readers_of_decode_events argv (name :: rest)) as (H1 & _).
    destruct (readers_of_free_events (name :: rest)) as (F1 & _).
    rewrite !scripts_run_app, H1, F1 in Hexit. cbn in Hexit.
    destruct Hexit as [Hc | []]. discriminate Hc.
Qed.

(** X15: when the script comes back, whatever its status, [main] hands
    every decoded argument to the raw allocator, in order, and comes to
    the release of [_argv] through that same allocator, which did not hand
    it out.  That is where the defined behaviour of [main] ends, and with
    it the run. *)
Theorem X15_script_that_comes_back_leads_to_the_release_of_argv
        (World : Type) (h : Runtime World) (script : string)
        (sizeof_pointer : Z) (argv : list string) (w : World) (v : Z)
        (Hback : In (Back v)
                    (map snd (scripts_run
                       (trace_of (run h (main script sizeof_pointer argv) w))))) :
  let r := run h (main script sizeof_pointer argv) w in
  let tr := trace_of r in
  let argc := Z.of_nat (List.length argv) in
  outcome_of r = Undefined_at ForeignBlockFreed
  /\ exists name rest,
      List.length (name :: rest) = List.length argv
      /\ arguments_freed tr = name :: rest
      /\ tr = Ev (PyMem_Malloc (sizeof_pointer * argc)) true
              :: decode_events argv (name :: rest)
              ++ start_and_run script argc name (name :: rest) v
              ++ free_events (name :: rest).
Proof.
  intros r tr argc. subst tr r.
  destruct (run_main h script sizeof_pointer argv w) as (o & w' & array & tr & E & HS).
  rewrite E in Hback |- *. unfold outcome_of, trace_of in *. cbn [fst snd] in *.
  cbn [scripts_run arguments_freed] in *.
  destruct HS as [arr ds a Hn | a rest s Hargv | arr Hargv
                 | name rest c' tr Hlen Hin | name rest v' Hlen].
  - exfalso. destruct (readers_of_decode_events argv ds) as (H1 & _).
    rewrite scripts_run_app, H1 in Hback. cbn in Hback. contradiction.
  - cbn in Hback. contradiction.
  - cbn in Hback. contradiction.
  - exfalso. destruct (readers_of_decode_events argv (name :: rest)) as (H1 & _).
    rewrite scripts_run_app, H1 in Hback. cbn [app] in Hback.
    destruct Hin; cbn in Hback; try contradiction.
    destruct Hback as [Hc | []]. discriminate Hc.
  - destruct (readers_of_decode_events argv (name :: rest)) as (H1 & H2 & _).
    destruct (readers_of_free_events (name :: rest)) as (F1 & F2 & _).
    rewrite !scripts_run_app, H1, F1 in Hback. cbn in Hback.
    destruct Hback as [Hc | []]. inversion Hc; subst v'.
    split; [reflexivity |]. exists name, rest. split; [exact Hlen |].
    split; [| reflexivity].
    rewrite !arguments_freed_app, H2, F2. reflexivity.
Qed.

(** X16: every run of [main] ends in one of five ways.  The process exits
    with status 1 after an argument that did not decode; or it ends inside
    the initialisation of the interpreter, the setting of its argument
    vector or the script, with the status it ended with there; or the run
    comes to one of three operations without defined behaviour: the store
    of a decoded argument through the array that was not allocated, the
    read of the first argument when there is none, or the release of the
    array after a script that came back.  No run comes to the last two
    statements of [main] with its behaviour still defined. *)
Theorem X16_main_ends_in_one_of_five_ways
        (World : Type) (h : Runtime World) (script : string)
        (sizeof_pointer : Z) (argv : list string) (w : World) :
  let r := run h (main script sizeof_pointer argv) w in
  let tr := trace_of r in
  match outcome_of r with
  | Returned _ => False
  | Exited s =>
      (s = 1 /\ In None (map snd (decoding_answers tr)) /\ ended_inside tr = None)
      \/ (ended_inside tr = Some s /\ ~ In None (map snd (decoding_answers tr)))
  | Undefined_at StoreThroughNullArray =>
      array_allocated tr = Some false
      /\ exists a s, hd_error (decoding_answers tr) = Some (a, Some s)
                     /\ hd_error argv = Some a
  | Undefined_at ReadOfMissingArgument => argv = []
  | Undefined_at ForeignBlockFreed =>
      array_allocated tr = Some true
      /\ exists v, scripts_run tr = [(script, Back v)]
  end.
Proof.
  intros r tr. subst tr r.
  destruct (run_main h script sizeof_pointer argv w) as (o & w' & array & tr & E & HS).
  rewrite E. unfold outcome_of, trace_of. cbn [fst snd array_allocated].
  cbn [decoding_answers ended_inside scripts_run].
  destruct HS as [arr ds a Hn | a rest s Hargv | arr Hargv
                 | name rest c tr Hlen Hin | name rest v Hlen].
  - left. split; [reflexivity |]. split.
    + rewrite decoding_answers_app, map_app, in_app_iff. right. cbn. auto.
    + rewrite ended_inside_decode_events. reflexivity.
  - split; [reflexivity |]. exists a, s. subst argv. split; reflexivity.
  - exact Hargv.
  - right. rewrite ended_inside_decode_events.
    destruct (readers_of_EndsInside _ _ _ _ _ _ Hin) as (_ & _ & Hd & He & _).
    split; [exact He |].
    destruct (readers_of_decode_events argv (name :: rest)) as (_ & _ & _ & _ & Hno).
    rewrite decoding_answers_app, Hd, app_nil_r. exact Hno.
  - split; [reflexivity |]. exists v.
    destruct (readers_of_decode_events argv (name :: rest)) as (H1 & _).
    destruct (readers_of_free_events (name :: rest)) as (F1 & _).
    rewrite !scripts_run_app, H1, F1. reflexivity.
Qed.

(** The second of three arguments does not decode: the third is not
    looked at. *)
Lemma X13_witness_undecodable_second_argument :
  run (runtime ["--bad"] true (Back 0))
      (program_bootstrap_main 8 ["resana.exe"; "--bad"; "x"]) 0%nat
  = (Exited 1, 4%nat,
     [Ev (PyMem_Malloc 24) true;
      Ev (Py_DecodeLocale "resana.exe") (Some "resana.exe");
      Ev (Py_DecodeLocale "--bad") None;
      Ev (fprintf_stderr cannot_decode) tt])
  /\ outcome_of (run (runtime ["--bad"] true (Back 0))
                     (program_bootstrap_main 8 ["resana.exe"; "--bad"; "x"]) 0%nat)
     = Exited 1.
Proof.
  split; [vm_compute; reflexivity |].
  exact (proj1 (X13_undecodable_argument_exits_1_before_the_interpreter_starts
                  nat (runtime ["--bad"] true (Back 0)) resana_script 8
                  ["resana.exe"; "--bad"; "x"] 0%nat
                  ltac:(vm_compute; right; left; reflexivity))).
Defined.

(** A command-line entry point that ends with [sys.exit(2)]. *)
Lemma X14_witness_script_exits_with_2 :
  outcome_of (run (runtime [] true (Gone 2))
                  (program_bootstrap_main 8 ["resana.exe"; "--help"]) 0%nat)
  = Exited 2
  /\ arguments_freed (trace_of (run (runtime [] true (Gone 2))
                                    (program_bootstrap_main 8 ["resana.exe"; "--help"])
                                    0%nat))
     = [].
Proof.
  destruct (X14_script_that_exits_decides_the_status
              nat (runtime [] true (Gone 2)) resana_script 8
              ["resana.exe"; "--help"] 0%nat 2
              ltac:(vm_compute; left; reflexivity))
    as (Ho & Hf & _).
  split; [exact Ho | exact Hf].
Defined.

(** A script that comes back with a failure status. *)
Lemma X15_witness_script_comes_back :
  outcome_of (run (runtime [] true (Back (-1)))
                  (parsec_bootstrap_main 8 ["parsec.exe"; "core"]) 0%nat)
  = Undefined_at ForeignBlockFreed
  /\ arguments_freed (trace_of (run (runtime [] true (Back (-1)))
                                    (parsec_bootstrap_main 8 ["parsec.exe"; "core"])
                                    0%nat))
     = ["parsec.exe"; "core"].
Proof.
  destruct (X15_script_that_comes_back_leads_to_the_release_of_argv
              nat (runtime [] true (Back (-1))) parsec_script 8
              ["parsec.exe"; "core"] 0%nat (-1)
              ltac:(vm_compute; left; reflexivity))
    as (Ho & name & rest & Hlen & Hfreed & Htr).
  split; [exact Ho |].
  unfold parsec_bootstrap_main. rewrite Hfreed.
  vm_compute in Htr.
  destruct rest as [| second [| third rest]]; try discriminate Hlen.
  inversion Htr. reflexivity.
Defined.

End BootstrapFacts.
